(** * Wait-state tracking (yb/util/wait_state.h, wait_state.cc)

    A shallow embedding of the per-thread wait-state tracker: the metadata
    and aux-info records with their fill-in-the-blanks merge and their
    conversion to and from the wire message, the shared wait-state
    container, the thread-local current pointer, and the two scoped guards.

    Fixed-width integers are values of [Z]; every conversion of the source
    that can change a value is written out with [Int.wrap_unsigned] or
    [Int.wrap_signed].  Containers live in a store indexed by address, so
    that two references to one container alias as [shared_ptr]s do. *)

From Stdlib Require Import ZArith String Ascii List Lia Bool.
From stdpp Require Import gmap strings list.

Local Open Scope Z_scope.

(** ** Machine integers *)

Module Int.

Definition wrap_unsigned (bits z : Z) : Z := z mod 2 ^ bits.

Definition wrap_signed (bits z : Z) : Z :=
  let r := z mod 2 ^ bits in
  if r <? 2 ^ (bits - 1) then r else r - 2 ^ bits.

Definition in_unsigned (bits z : Z) : Prop := 0 <= z < 2 ^ bits.
Definition in_signed (bits z : Z) : Prop := - 2 ^ (bits - 1) <= z < 2 ^ (bits - 1).

(** [static_cast<uint16_t>], and the implicit [int] to [uint16_t]. *)
Definition to_uint16 (z : Z) : Z := wrap_unsigned 16 z.
(** Arithmetic on [uint64_t] and on [size_t]. *)
Definition to_uint64 (z : Z) : Z := wrap_unsigned 64 z.
(** The cast [(int)] of a [size_t]. *)
Definition to_int (z : Z) : Z := wrap_signed 32 z.

End Int.

(** [std::vector::empty], [std::vector::size], [operator[]]. *)
Definition vec_empty {A} (v : list A) : bool :=
  match v with [] => true | _ => false end.

Definition vec_size {A} (v : list A) : Z := Z.of_nat (length v).

(** [operator[]] is only ever applied under a size test; out of range
    (undefined in the source) the model yields 0, and
    [vec_at_in_range] shows that the guard excludes that case. *)
Definition vec_at (v : list Z) (i : nat) : Z := default 0 (v !! i).

(** [std::string::empty]. *)
Definition str_empty (s : string) : bool :=
  match s with EmptyString => true | _ => false end.

(** [YB_DEFINE_ENUM_TYPE(WaitStateCode, uint32_t, ((Unused, 0)))]: the
    concrete codes of the server components are defined elsewhere and are
    consumed here as opaque values of the underlying type. *)
Definition WaitStateCode : Type := Z.
Definition Unused : WaitStateCode := 0.

(** ** Outcomes of stateful code *)

(** What a call of the source can do besides returning: throw one of the
    two exceptions of [std::stoi] and [std::string::substr], or run into
    undefined behaviour by dereferencing an empty pointer or by reading a
    member that was never initialised. *)
Inductive failure : Type :=
| invalid_argument
| out_of_range
| bad_dereference
| uninitialized_read.

(** A computation over a state [S] either returns a value or fails; in both
    cases the writes made so far stay in the state, as they do when a C++
    exception unwinds. *)
Inductive outcome (S A : Type) : Type :=
| Done (a : A) (s : S)
| Fail (f : failure) (s : S).
Arguments Done {S A} a s.
Arguments Fail {S A} f s.

Definition M (S A : Type) : Type := S -> outcome S A.

Definition ret {S A} (a : A) : M S A := fun s => Done a s.

Definition bind {S A B} (m : M S A) (k : A -> M S B) : M S B :=
  fun s => match m s with
           | Done a s' => k a s'
           | Fail f s' => Fail f s'
           end.

Definition gets {S A} (f : S -> A) : M S A := fun s => Done (f s) s.
Definition modify {S} (f : S -> S) : M S unit := fun s => Done tt (f s).
Definition throw {S A} (f : failure) : M S A := fun s => Fail f s.

(** A value computed by a library call that may throw. *)
Definition lift {S A} (r : failure + A) : M S A :=
  match r with inl f => throw f | inr a => ret a end.

Notation "'do' x <- m ; k" := (bind m (fun x => k))
  (at level 10, x name, m at level 100, k at level 200).
Notation "'do_' m ; k" := (bind m (fun _ => k))
  (at level 10, m at level 100, k at level 200).

(** [n] calls in a row. *)
Fixpoint times {S} (n : nat) (m : M S unit) : M S unit :=
  match n with
  | O => ret tt
  | Datatypes.S n' => do_ m; times n' m
  end.

(** The state a computation ends in, returning or failing. *)
Definition final {S A} (r : outcome S A) : S :=
  match r with Done _ s => s | Fail _ s => s end.

(** The computation returns, whatever the value and the final state. *)
Definition returns {S A} (m : M S A) (s : S) : Prop :=
  exists a s', m s = Done a s'.

(** ** The parts of [std::string] the address parser uses *)

Module Str.

(** [std::string::npos], the largest [size_t]. *)
Definition npos : Z := 2 ^ 64 - 1.

Definition size (s : string) : Z := Z.of_nat (String.length s).

Fixpoint find_from (c : ascii) (s : string) (i : Z) : Z :=
  match s with
  | EmptyString => npos
  | String a s' => if Ascii.eqb a c then i else find_from c s' (i + 1)
  end.

(** [s.find(c)]: the position of the first [c], or [npos]. *)
Definition find (c : ascii) (s : string) : Z := find_from c s 0.

(** [s.substr(pos, count)]: throws [std::out_of_range] when [pos > size()],
    and otherwise yields the characters from [pos], at most [count]. *)
Definition substr (s : string) (pos count : Z) : failure + string :=
  if size s <? pos then inl out_of_range
  else inr (String.substring (Z.to_nat pos)
                             (Z.to_nat (Z.min count (size s - pos))) s).

(** [s.c_str()] as a C function reads it: up to the first NUL. *)
Fixpoint c_str (s : string) : string :=
  match s with
  | EmptyString => EmptyString
  | String a s' => if Ascii.eqb a zero then EmptyString else String a (c_str s')
  end.

Definition code (c : ascii) : Z := Z.of_N (N_of_ascii c).

(** [isspace] in the C locale. *)
Definition isspace (c : ascii) : bool :=
  (code c =? 32) || ((9 <=? code c) && (code c <=? 13)).

Definition digit (c : ascii) : option Z :=
  if (48 <=? code c) && (code c <=? 57) then Some (code c - 48) else None.

Fixpoint skip_spaces (s : string) : string :=
  match s with
  | String a s' => if isspace a then skip_spaces s' else s
  | EmptyString => EmptyString
  end.

(** The longest run of decimal digits at the head of [s], as a number;
    [seen] tells whether a digit has been consumed, [None] is for no digit
    at all. *)
Fixpoint digits (s : string) (seen : bool) (acc : Z) : option Z :=
  match s with
  | String a s' =>
      match digit a with
      | Some d => digits s' true (acc * 10 + d)
      | None => if seen then Some acc else None
      end
  | EmptyString => if seen then Some acc else None
  end.

(** The number [strtol(s, &end, 10)] reads: white space, an optional sign,
    decimal digits; [None] when no conversion can be performed. *)
Definition strtol10 (s : string) : option Z :=
  match skip_spaces s with
  | String "-" s' => Z.opp <$> digits s' false 0
  | String "+" s' => digits s' false 0
  | s' => digits s' false 0
  end.

(** [std::stoi(s)]: throws [std::invalid_argument] when no conversion can
    be performed and [std::out_of_range] when the number read does not fit
    an [int]. *)
Definition stoi (s : string) : failure + Z :=
  match strtol10 s with
  | None => inl invalid_argument
  | Some v => if (- 2 ^ 31 <=? v) && (v <? 2 ^ 31) then inr v else inl out_of_range
  end.

End Str.

(** ** The wire messages *)

(** Modelled from the spec: the wire message types (the template parameter
    [PB] of [ToPB], [FromPB] and [UpdateFromPB]) are not part of the
    sources.  The message has the fields [top_level_request_id] and
    [top_level_node_id] (repeated, exactly 2 when present), [query_id],
    [current_request_id], [client_node_host], [client_node_port], and a
    nested [aux_info] with [tablet_id], [table_id] and [method].  The
    accessors are those the source calls: a getter per field, which yields
    the default 0 or the empty string when the field is absent, [has_] for
    presence, [set_] for the singular fields and [add_] for the repeated
    ones.  A repeated field is present when it has an element.  The source
    narrows [client_node_port()] with a cast, so that field is 32 bits
    wide in the message. *)
Module AUHMetadataPB.

Record t : Type := Build {
  top_level_request_id_ : list Z;       (* repeated uint64 *)
  top_level_node_id_ : list Z;          (* repeated uint64 *)
  query_id_ : option Z;                 (* int64 *)
  current_request_id_ : option Z;       (* int64 *)
  client_node_host_ : option Z;         (* uint32 *)
  client_node_port_ : option Z          (* uint32 *)
}.

(** A freshly constructed message. *)
Definition empty : t := Build [] [] None None None None.

Definition top_level_request_id (pb : t) : list Z := top_level_request_id_ pb.
Definition top_level_node_id (pb : t) : list Z := top_level_node_id_ pb.
Definition query_id (pb : t) : Z := default 0 (query_id_ pb).
Definition current_request_id (pb : t) : Z := default 0 (current_request_id_ pb).
Definition client_node_host (pb : t) : Z := default 0 (client_node_host_ pb).
Definition client_node_port (pb : t) : Z := default 0 (client_node_port_ pb).

Definition present {A} (o : option A) : bool :=
  match o with Some _ => true | None => false end.

Definition has_top_level_request_id (pb : t) : bool :=
  negb (vec_empty (top_level_request_id_ pb)).
Definition has_top_level_node_id (pb : t) : bool :=
  negb (vec_empty (top_level_node_id_ pb)).
Definition has_query_id (pb : t) : bool := present (query_id_ pb).
Definition has_current_request_id (pb : t) : bool := present (current_request_id_ pb).
Definition has_client_node_host (pb : t) : bool := present (client_node_host_ pb).
Definition has_client_node_port (pb : t) : bool := present (client_node_port_ pb).

Definition add_top_level_request_id (v : Z) (pb : t) : t :=
  Build (top_level_request_id_ pb ++ [v]) (top_level_node_id_ pb) (query_id_ pb)
        (current_request_id_ pb) (client_node_host_ pb) (client_node_port_ pb).
Definition add_top_level_node_id (v : Z) (pb : t) : t :=
  Build (top_level_request_id_ pb) (top_level_node_id_ pb ++ [v]) (query_id_ pb)
        (current_request_id_ pb) (client_node_host_ pb) (client_node_port_ pb).
Definition set_query_id (v : Z) (pb : t) : t :=
  Build (top_level_request_id_ pb) (top_level_node_id_ pb) (Some v)
        (current_request_id_ pb) (client_node_host_ pb) (client_node_port_ pb).
Definition set_current_request_id (v : Z) (pb : t) : t :=
  Build (top_level_request_id_ pb) (top_level_node_id_ pb) (query_id_ pb)
        (Some v) (client_node_host_ pb) (client_node_port_ pb).
Definition set_client_node_host (v : Z) (pb : t) : t :=
  Build (top_level_request_id_ pb) (top_level_node_id_ pb) (query_id_ pb)
        (current_request_id_ pb) (Some v) (client_node_port_ pb).
Definition set_client_node_port (v : Z) (pb : t) : t :=
  Build (top_level_request_id_ pb) (top_level_node_id_ pb) (query_id_ pb)
        (current_request_id_ pb) (client_node_host_ pb) (Some v).

End AUHMetadataPB.

(** Modelled from the spec: the nested [aux_info] message, with the string
    fields [tablet_id], [table_id] and [method]; see [AUHMetadataPB]. *)
Module AUHAuxInfoPB.

Record t : Type := Build {
  tablet_id_ : option string;
  table_id_ : option string;
  method_ : option string
}.

Definition empty : t := Build None None None.

Definition tablet_id (pb : t) : string := default EmptyString (tablet_id_ pb).
Definition table_id (pb : t) : string := default EmptyString (table_id_ pb).
Definition method (pb : t) : string := default EmptyString (method_ pb).

Definition has_tablet_id (pb : t) : bool := AUHMetadataPB.present (tablet_id_ pb).
Definition has_table_id (pb : t) : bool := AUHMetadataPB.present (table_id_ pb).
Definition has_method (pb : t) : bool := AUHMetadataPB.present (method_ pb).

Definition set_tablet_id (v : string) (pb : t) : t :=
  Build (Some v) (table_id_ pb) (method_ pb).
Definition set_table_id (v : string) (pb : t) : t :=
  Build (tablet_id_ pb) (Some v) (method_ pb).
Definition set_method (v : string) (pb : t) : t :=
  Build (tablet_id_ pb) (table_id_ pb) (Some v).

End AUHAuxInfoPB.

(** Modelled from the spec: the message [WaitStateInfo::ToPB] fills, with
    the nested messages the source reaches through [mutable_metadata()]
    and [mutable_aux_info()], the integer [wait_status_code] and the
    build-conditional [wait_status_code_as_string]. *)
Module WaitStateInfoPB.

Record t : Type := Build {
  metadata_ : AUHMetadataPB.t;
  wait_status_code_ : option Z;
  wait_status_code_as_string_ : option string;
  aux_info_ : AUHAuxInfoPB.t
}.

Definition empty : t := Build AUHMetadataPB.empty None None AUHAuxInfoPB.empty.

Definition with_metadata (m : AUHMetadataPB.t) (pb : t) : t :=
  Build m (wait_status_code_ pb) (wait_status_code_as_string_ pb) (aux_info_ pb).
Definition with_aux_info (a : AUHAuxInfoPB.t) (pb : t) : t :=
  Build (metadata_ pb) (wait_status_code_ pb) (wait_status_code_as_string_ pb) a.
Definition set_wait_status_code (v : Z) (pb : t) : t :=
  Build (metadata_ pb) (Some v) (wait_status_code_as_string_ pb) (aux_info_ pb).
Definition set_wait_status_code_as_string (v : string) (pb : t) : t :=
  Build (metadata_ pb) (wait_status_code_ pb) (Some v) (aux_info_ pb).

End WaitStateInfoPB.

(** ** AUHMetadata *)

Module AUHMetadata.

Record t : Type := Build {
  top_level_request_id : list Z;   (* std::vector<uint64_t> *)
  top_level_node_id : list Z;      (* std::vector<uint64_t> *)
  query_id : Z;                    (* int64_t  = 0 *)
  current_request_id : Z;          (* int64_t  = 0 *)
  client_node_host : Z;            (* uint32_t = 0 *)
  client_node_port : Z             (* uint16_t = 0 *)
}.

(** The value-initialised struct, [AUHMetadata{}]. *)
Definition zero : t := Build [] [] 0 0 0 0.

(** Every field lies in the range of its C++ type. *)
Definition wf (m : t) : Prop :=
  Forall (Int.in_unsigned 64) (top_level_request_id m) /\
  Forall (Int.in_unsigned 64) (top_level_node_id m) /\
  Int.in_signed 64 (query_id m) /\
  Int.in_signed 64 (current_request_id m) /\
  Int.in_unsigned 32 (client_node_host m) /\
  Int.in_unsigned 16 (client_node_port m).

(** Every field is set: both id vectors are pairs, no scalar is zero. *)
Definition populated (m : t) : Prop :=
  length (top_level_request_id m) = 2%nat /\
  length (top_level_node_id m) = 2%nat /\
  query_id m <> 0 /\
  current_request_id m <> 0 /\
  client_node_host m <> 0 /\
  client_node_port m <> 0.

(** Assignment to one member. *)
Definition with_top_level_request_id (v : list Z) (m : t) : t :=
  Build v (top_level_node_id m) (query_id m) (current_request_id m)
        (client_node_host m) (client_node_port m).
Definition with_top_level_node_id (v : list Z) (m : t) : t :=
  Build (top_level_request_id m) v (query_id m) (current_request_id m)
        (client_node_host m) (client_node_port m).
Definition with_query_id (v : Z) (m : t) : t :=
  Build (top_level_request_id m) (top_level_node_id m) v (current_request_id m)
        (client_node_host m) (client_node_port m).
Definition with_current_request_id (v : Z) (m : t) : t :=
  Build (top_level_request_id m) (top_level_node_id m) (query_id m) v
        (client_node_host m) (client_node_port m).
Definition with_client_node_host (v : Z) (m : t) : t :=
  Build (top_level_request_id m) (top_level_node_id m) (query_id m)
        (current_request_id m) v (client_node_port m).
Definition with_client_node_port (v : Z) (m : t) : t :=
  Build (top_level_request_id m) (top_level_node_id m) (query_id m)
        (current_request_id m) (client_node_host m) v.

(** [void UpdateFrom(const AUHMetadata &other)] *)
Definition UpdateFrom (other : t) (self : t) : t :=
  let self :=
    if negb (vec_empty (top_level_request_id other))
    then with_top_level_request_id (top_level_request_id other) self else self in
  let self :=
    if negb (vec_empty (top_level_node_id other))
    then with_top_level_node_id (top_level_node_id other) self else self in
  let self :=
    if negb (query_id other =? 0)
    then with_query_id (query_id other) self else self in
  let self :=
    if negb (current_request_id other =? 0)
    then with_current_request_id (current_request_id other) self else self in
  let self :=
    if negb (client_node_host other =? 0)
    then with_client_node_host (client_node_host other) self else self in
  let self :=
    if negb (client_node_port other =? 0)
    then with_client_node_port (client_node_port other) self else self in
  self.

(** [template <class PB> void ToPB(PB* pb) const] *)
Definition ToPB (self : t) (pb : AUHMetadataPB.t) : AUHMetadataPB.t :=
  let pb :=
    if Int.to_int (vec_size (top_level_request_id self)) =? 2
    then AUHMetadataPB.add_top_level_request_id (vec_at (top_level_request_id self) 1)
           (AUHMetadataPB.add_top_level_request_id (vec_at (top_level_request_id self) 0) pb)
    else pb in
  let pb :=
    if Int.to_int (vec_size (top_level_node_id self)) =? 2
    then AUHMetadataPB.add_top_level_node_id (vec_at (top_level_node_id self) 1)
           (AUHMetadataPB.add_top_level_node_id (vec_at (top_level_node_id self) 0) pb)
    else pb in
  let pb :=
    if negb (query_id self =? 0)
    then AUHMetadataPB.set_query_id (query_id self) pb else pb in
  let pb :=
    if negb (current_request_id self =? 0)
    then AUHMetadataPB.set_current_request_id (current_request_id self) pb else pb in
  let pb :=
    if negb (client_node_host self =? 0)
    then AUHMetadataPB.set_client_node_host (client_node_host self) pb else pb in
  let pb :=
    if negb (client_node_port self =? 0)
    then AUHMetadataPB.set_client_node_port (client_node_port self) pb else pb in
  pb.

(** [template <class PB> static AUHMetadata FromPB(const PB& pb)] *)
Definition FromPB (pb : AUHMetadataPB.t) : t :=
  Build (AUHMetadataPB.top_level_request_id pb)
        (AUHMetadataPB.top_level_node_id pb)
        (AUHMetadataPB.query_id pb)
        (AUHMetadataPB.current_request_id pb)
        (AUHMetadataPB.client_node_host pb)
        (Int.to_uint16 (AUHMetadataPB.client_node_port pb)).

(** [template <class PB> void UpdateFromPB(const PB& pb)] *)
Definition UpdateFromPB (pb : AUHMetadataPB.t) (self : t) : t :=
  let self :=
    if AUHMetadataPB.has_top_level_node_id pb
    then with_top_level_node_id (AUHMetadataPB.top_level_node_id pb) self else self in
  let self :=
    if AUHMetadataPB.has_top_level_request_id pb
    then with_top_level_request_id (AUHMetadataPB.top_level_request_id pb) self else self in
  let self :=
    if AUHMetadataPB.has_query_id pb
    then with_query_id (AUHMetadataPB.query_id pb) self else self in
  let self :=
    if AUHMetadataPB.has_client_node_host pb
    then with_client_node_host (AUHMetadataPB.client_node_host pb) self else self in
  let self :=
    if negb (AUHMetadataPB.client_node_port pb =? 0)
    then with_client_node_port (Int.to_uint16 (AUHMetadataPB.client_node_port pb)) self
    else self in
  let self :=
    if AUHMetadataPB.has_current_request_id pb
    then with_current_request_id (AUHMetadataPB.current_request_id pb) self else self in
  self.

(** [void AUHMetadata::set_client_node_ip(const std::string &endpoint)].
    The two calls into the C library, [inet_addr] (text to address in
    network byte order) and [ntohl] (network to host byte order), are
    taken as given. *)
Section ClientNodeIp.

Variable inet_addr : string -> Z.
Variable ntohl : Z -> Z.

Definition set_client_node_ip (endpoint : string) : M t unit :=
  do_ modify (with_client_node_host 0);
  do_ modify (with_client_node_port 0);
  let colon_position := Str.find ":" endpoint in
  do host <- lift (Str.substr endpoint 0 colon_position);
  do_ modify (with_client_node_host (ntohl (inet_addr (Str.c_str host))));
  do port <- lift (Str.substr endpoint (Int.to_uint64 (colon_position + 1)) Str.npos);
  do n <- lift (Str.stoi port);
  modify (with_client_node_port (Int.to_uint16 n)).

End ClientNodeIp.

End AUHMetadata.

(** ** AUHAuxInfo *)

Module AUHAuxInfo.

Record t : Type := Build {
  tablet_id : string;
  table_id : string;
  method : string
}.

Definition zero : t := Build EmptyString EmptyString EmptyString.

(** Every field is set: no string is empty. *)
Definition populated (a : t) : Prop :=
  tablet_id a <> EmptyString /\ table_id a <> EmptyString /\ method a <> EmptyString.

Definition with_tablet_id (v : string) (a : t) : t := Build v (table_id a) (method a).
Definition with_table_id (v : string) (a : t) : t := Build (tablet_id a) v (method a).
Definition with_method (v : string) (a : t) : t := Build (tablet_id a) (table_id a) v.

(** [void AUHAuxInfo::UpdateFrom(const AUHAuxInfo &other)] *)
Definition UpdateFrom (other : t) (self : t) : t :=
  let self :=
    if negb (str_empty (tablet_id other))
    then with_tablet_id (tablet_id other) self else self in
  let self :=
    if negb (str_empty (table_id other))
    then with_table_id (table_id other) self else self in
  let self :=
    if negb (str_empty (method other))
    then with_method (method other) self else self in
  self.

(** [template <class PB> void ToPB(PB* pb) const] *)
Definition ToPB (self : t) (pb : AUHAuxInfoPB.t) : AUHAuxInfoPB.t :=
  let pb := AUHAuxInfoPB.set_tablet_id (tablet_id self) pb in
  let pb := AUHAuxInfoPB.set_table_id (table_id self) pb in
  let pb := AUHAuxInfoPB.set_method (method self) pb in
  pb.

(** [template <class PB> static AUHAuxInfo FromPB(const PB& pb)] *)
Definition FromPB (pb : AUHAuxInfoPB.t) : t :=
  Build (AUHAuxInfoPB.tablet_id pb) (AUHAuxInfoPB.table_id pb) (AUHAuxInfoPB.method pb).

End AUHAuxInfo.

(** ** WaitStateInfo *)

Module WaitStateInfo.

(** [TRACK_WAIT_HISTORY] is not defined, so the container has no update
    counter and no history.  The spinlock guards [metadata_] and
    [aux_info_] against readers on other threads; each method below runs
    its critical section in one step. *)
Record t : Type := Build {
  code_ : WaitStateCode;           (* std::atomic<WaitStateCode> code_{Unused} *)
  metadata_ : AUHMetadata.t;
  aux_info_ : AUHAuxInfo.t
}.

(** [WaitStateInfo() = default] and [WaitStateInfo(AUHMetadata meta)]. *)
Definition default_ctor : t := Build Unused AUHMetadata.zero AUHAuxInfo.zero.
Definition ctor (meta : AUHMetadata.t) : t := Build Unused meta AUHAuxInfo.zero.

Definition with_code (c : WaitStateCode) (w : t) : t :=
  Build c (metadata_ w) (aux_info_ w).
Definition with_metadata (m : AUHMetadata.t) (w : t) : t :=
  Build (code_ w) m (aux_info_ w).
Definition with_aux_info (a : AUHAuxInfo.t) (w : t) : t :=
  Build (code_ w) (metadata_ w) a.

(** A method of the member [metadata_] run on the container. *)
Definition on_metadata {A} (f : M AUHMetadata.t A) : M t A :=
  fun w => match f (metadata_ w) with
           | Done a m => Done a (with_metadata m w)
           | Fail e m => Fail e (with_metadata m w)
           end.

(** [void set_state(WaitStateCode c)]; the trace and log lines go to the
    logging sink and leave the container alone. *)
Definition set_state (c : WaitStateCode) : M t unit := modify (with_code c).

(** [WaitStateCode get_state() const] *)
Definition get_state : M t WaitStateCode := gets code_.

Definition set_current_request_id (current_request_id : Z) : M t unit :=
  on_metadata (modify (AUHMetadata.with_current_request_id current_request_id)).

(** [metadata_.top_level_request_id = {id, id * id}], a product of two
    [uint64_t]. *)
Definition set_top_level_request_id (top_level_request_id : Z) : M t unit :=
  on_metadata (modify (AUHMetadata.with_top_level_request_id
    [top_level_request_id;
     Int.to_uint64 (top_level_request_id * top_level_request_id)])).

Definition set_query_id (query_id : Z) : M t unit :=
  on_metadata (modify (AUHMetadata.with_query_id query_id)).

Definition query_id : M t Z :=
  on_metadata (gets AUHMetadata.query_id).

Definition set_client_node_ip (inet_addr : string -> Z) (ntohl : Z -> Z)
    (endpoint : string) : M t unit :=
  on_metadata (AUHMetadata.set_client_node_ip inet_addr ntohl endpoint).

Definition set_top_level_node_id (top_level_node_id : list Z) : M t unit :=
  on_metadata (modify (AUHMetadata.with_top_level_node_id top_level_node_id)).

Definition UpdateMetadata (meta : AUHMetadata.t) : M t unit :=
  on_metadata (modify (AUHMetadata.UpdateFrom meta)).

Definition UpdateAuxInfo (aux : AUHAuxInfo.t) : M t unit :=
  modify (fun w => with_aux_info (AUHAuxInfo.UpdateFrom aux (aux_info_ w)) w).

(** [template <class PB> void ToPB(PB *pb)].  [NDEBUG] tells whether the
    build is a release build, [code_ToString] is [yb::ToString] on codes;
    both come from outside. *)
Definition ToPB (NDEBUG : bool) (code_ToString : WaitStateCode -> string)
    (pb : WaitStateInfoPB.t) : M t WaitStateInfoPB.t :=
  do metadata <- gets metadata_;
  let pb := WaitStateInfoPB.with_metadata
              (AUHMetadata.ToPB metadata (WaitStateInfoPB.metadata_ pb)) pb in
  do code <- get_state;
  let pb := WaitStateInfoPB.set_wait_status_code code pb in
  let pb := if NDEBUG then pb
            else WaitStateInfoPB.set_wait_status_code_as_string (code_ToString code) pb in
  do aux_info <- gets aux_info_;
  let pb := WaitStateInfoPB.with_aux_info
              (AUHAuxInfo.ToPB aux_info (WaitStateInfoPB.aux_info_ pb)) pb in
  ret pb.

End WaitStateInfo.

(** ** Shared containers and the thread-local current pointer *)

(** A [WaitStateInfoPtr] is a [std::shared_ptr<WaitStateInfo>]: empty, or
    the address of a container in the store.  A shared pointer keeps its
    container alive, so in the states the program reaches every non-empty
    pointer has its container in the store. *)
Abbreviation loc := positive (only parsing).
Abbreviation thread := nat (only parsing).
Abbreviation WaitStateInfoPtr := (option positive) (only parsing).

Record World : Type := BuildWorld {
  heap : gmap positive WaitStateInfo.t;
  (** [static thread_local WaitStateInfoPtr threadlocal_wait_state_]: one
      slot per thread, absent from the map when empty. *)
  threadlocal_wait_state_ : gmap nat positive
}.

Definition with_heap (h : gmap positive WaitStateInfo.t) (w : World) : World :=
  BuildWorld h (threadlocal_wait_state_ w).
Definition with_threadlocal (tl : gmap nat positive) (w : World) : World :=
  BuildWorld (heap w) tl.

(** [if (ptr)]: a shared pointer in a condition. *)
Definition nonnull (p : WaitStateInfoPtr) : bool :=
  match p with Some _ => true | None => false end.

(** [p->f(...)]: a method call through a pointer. *)
Definition call {A} (p : WaitStateInfoPtr) (f : M WaitStateInfo.t A) : M World A :=
  fun w =>
    match p with
    | None => Fail bad_dereference w
    | Some a =>
        match heap w !! a with
        | None => Fail bad_dereference w
        | Some o =>
            match f o with
            | Done r o' => Done r (with_heap (<[a := o']> (heap w)) w)
            | Fail e o' => Fail e (with_heap (<[a := o']> (heap w)) w)
            end
        end
    end.

(** [static WaitStateInfoPtr CurrentWaitState()], on thread [self]. *)
Definition CurrentWaitState (self : thread) : M World WaitStateInfoPtr :=
  gets (fun w => threadlocal_wait_state_ w !! self).

(** [static void SetCurrentWaitState(WaitStateInfoPtr)], on thread [self]. *)
Definition SetCurrentWaitState (self : thread) (wait_state : WaitStateInfoPtr)
    : M World unit :=
  modify (fun w =>
    with_threadlocal (partial_alter (fun _ => wait_state) self
                                    (threadlocal_wait_state_ w)) w).

(** [template <class PB> static void UpdateMetadataFromPB(const PB& pb)] *)
Definition UpdateMetadataFromPB (self : thread) (pb : AUHMetadataPB.t) : M World unit :=
  do wait_state <- CurrentWaitState self;
  if nonnull wait_state
  then call wait_state (WaitStateInfo.UpdateMetadata (AUHMetadata.FromPB pb))
  else ret tt.

(** [#define SET_WAIT_STATUS_TO(ptr, state) if (ptr) ptr->set_state(state)];
    the macro evaluates its argument [ptr] twice. *)
Definition SET_WAIT_STATUS_TO (ptr : M World WaitStateInfoPtr) (state : WaitStateCode)
    : M World unit :=
  do p <- ptr;
  if nonnull p
  then do p' <- ptr; call p' (WaitStateInfo.set_state state)
  else ret tt.

(** [#define SET_WAIT_STATUS(state)] *)
Definition SET_WAIT_STATUS (self : thread) (state : WaitStateCode) : M World unit :=
  SET_WAIT_STATUS_TO (CurrentWaitState self) state.

(** ** ScopedWaitState, the adoption guard *)

Module ScopedWaitState.

Record t : Type := Build { prev_state_ : WaitStateInfoPtr }.

(** [ScopedWaitState(WaitStateInfoPtr wait_state)] *)
Definition ctor (self : thread) (wait_state : WaitStateInfoPtr) : M World t :=
  do prev <- CurrentWaitState self;
  do_ SetCurrentWaitState self wait_state;
  ret (Build prev).

(** [~ScopedWaitState()] *)
Definition dtor (self : thread) (g : t) : M World unit :=
  SetCurrentWaitState self (prev_state_ g).

End ScopedWaitState.

(** ** ScopedWaitStatus, the status guard *)

Module ScopedWaitStatus.

(** [prev_state_] has no initialiser: it holds a value only once the
    constructor body has assigned it, and is [None] until then. *)
Record t : Type := Build {
  wait_state_ : WaitStateInfoPtr;
  state_ : WaitStateCode;
  prev_state_ : option WaitStateCode
}.

(** Reading the member [prev_state_]. *)
Definition read_prev_state (g : t) : M World WaitStateCode :=
  match prev_state_ g with
  | Some c => ret c
  | None => throw uninitialized_read
  end.

(** [ScopedWaitStatus(WaitStateInfoPtr wait_state, WaitStateCode state)] *)
Definition ctor (wait_state : WaitStateInfoPtr) (state : WaitStateCode) : M World t :=
  let g := Build wait_state state None in
  if nonnull (wait_state_ g)
  then
    do prev <- call (wait_state_ g) WaitStateInfo.get_state;
    let g := Build (wait_state_ g) (state_ g) (Some prev) in
    do_ call (wait_state_ g) (WaitStateInfo.set_state (state_ g));
    ret g
  else ret g.

(** [ScopedWaitStatus(WaitStateCode state)] *)
Definition ctor_current (self : thread) (state : WaitStateCode) : M World t :=
  do current <- CurrentWaitState self;
  let g := Build current state None in
  if nonnull (wait_state_ g)
  then
    do prev <- call (wait_state_ g) WaitStateInfo.get_state;
    let g := Build (wait_state_ g) (state_ g) (Some prev) in
    do_ call (wait_state_ g) (WaitStateInfo.set_state (state_ g));
    ret g
  else ret g.

(** [void ResetToPrevStatus()] *)
Definition ResetToPrevStatus (g : t) : M World unit :=
  if nonnull (wait_state_ g)
  then
    do c <- call (wait_state_ g) WaitStateInfo.get_state;
    if c =? state_ g
    then
      do prev <- read_prev_state g;
      call (wait_state_ g) (WaitStateInfo.set_state prev)
    else ret tt
  else ret tt.

(** [~ScopedWaitStatus()] *)
Definition dtor (g : t) : M World unit := ResetToPrevStatus g.

End ScopedWaitStatus.

(** ** The operations of the module, as a client invokes them *)

Section Operations.

Variable inet_addr : string -> Z.
Variable ntohl : Z -> Z.
Variable NDEBUG : bool.
Variable code_ToString : WaitStateCode -> string.

(** A computation run for its effect. *)
Definition void {S A} (m : M S A) : M S unit := do_ m; ret tt.

(** The methods of a container. *)
Inductive method : Type :=
| m_set_state (c : WaitStateCode)
| m_get_state
| m_UpdateMetadata (meta : AUHMetadata.t)
| m_UpdateAuxInfo (aux : AUHAuxInfo.t)
| m_set_current_request_id (id : Z)
| m_set_top_level_request_id (id : Z)
| m_query_id
| m_set_query_id (id : Z)
| m_set_client_node_ip (endpoint : string)
| m_set_top_level_node_id (v : list Z)
| m_ToPB (pb : WaitStateInfoPB.t).

Definition invoke (m : method) : M WaitStateInfo.t unit :=
  match m with
  | m_set_state c => WaitStateInfo.set_state c
  | m_get_state => void WaitStateInfo.get_state
  | m_UpdateMetadata meta => WaitStateInfo.UpdateMetadata meta
  | m_UpdateAuxInfo aux => WaitStateInfo.UpdateAuxInfo aux
  | m_set_current_request_id id => WaitStateInfo.set_current_request_id id
  | m_set_top_level_request_id id => WaitStateInfo.set_top_level_request_id id
  | m_query_id => void WaitStateInfo.query_id
  | m_set_query_id id => WaitStateInfo.set_query_id id
  | m_set_client_node_ip endpoint =>
      WaitStateInfo.set_client_node_ip inet_addr ntohl endpoint
  | m_set_top_level_node_id v => WaitStateInfo.set_top_level_node_id v
  | m_ToPB pb => void (WaitStateInfo.ToPB NDEBUG code_ToString pb)
  end.

(** The method that parses a client address. *)
Definition is_parser (m : method) : bool :=
  match m with m_set_client_node_ip _ => true | _ => false end.

(** What a thread can do with the module: call a method through a
    pointer, use the static functions and the macros, and construct,
    reset and destruct the two guards. *)
Inductive operation : Type :=
| op_method (p : WaitStateInfoPtr) (m : method)
| op_CurrentWaitState
| op_SetCurrentWaitState (p : WaitStateInfoPtr)
| op_UpdateMetadataFromPB (pb : AUHMetadataPB.t)
| op_SET_WAIT_STATUS_TO (p : WaitStateInfoPtr) (c : WaitStateCode)
| op_SET_WAIT_STATUS (c : WaitStateCode)
| op_ScopedWaitState_ctor (p : WaitStateInfoPtr)
| op_ScopedWaitState_dtor (g : ScopedWaitState.t)
| op_ScopedWaitStatus_ctor (p : WaitStateInfoPtr) (c : WaitStateCode)
| op_ScopedWaitStatus_ctor_current (c : WaitStateCode)
| op_ScopedWaitStatus_ResetToPrevStatus (g : ScopedWaitStatus.t)
| op_ScopedWaitStatus_dtor (g : ScopedWaitStatus.t).

Definition run (self : thread) (op : operation) : M World unit :=
  match op with
  | op_method p m => call p (invoke m)
  | op_CurrentWaitState => void (CurrentWaitState self)
  | op_SetCurrentWaitState p => SetCurrentWaitState self p
  | op_UpdateMetadataFromPB pb => UpdateMetadataFromPB self pb
  | op_SET_WAIT_STATUS_TO p c => SET_WAIT_STATUS_TO (ret p) c
  | op_SET_WAIT_STATUS c => SET_WAIT_STATUS self c
  | op_ScopedWaitState_ctor p => void (ScopedWaitState.ctor self p)
  | op_ScopedWaitState_dtor g => ScopedWaitState.dtor self g
  | op_ScopedWaitStatus_ctor p c => void (ScopedWaitStatus.ctor p c)
  | op_ScopedWaitStatus_ctor_current c => void (ScopedWaitStatus.ctor_current self c)
  | op_ScopedWaitStatus_ResetToPrevStatus g => ScopedWaitStatus.ResetToPrevStatus g
  | op_ScopedWaitStatus_dtor g => ScopedWaitStatus.dtor g
  end.

Definition parses (op : operation) : bool :=
  match op with op_method _ m => is_parser m | _ => false end.

End Operations.

(** A pointer is sound in a store when it is empty or its container is
    there, as every [shared_ptr] is. *)
Definition sound (w : World) (p : WaitStateInfoPtr) : Prop :=
  match p with None => True | Some a => is_Some (heap w !! a) end.

(** A status guard as its constructors leave it: the pointer is sound, and
    [prev_state_] has been assigned when the pointer is not empty. *)
Definition constructed (w : World) (g : ScopedWaitStatus.t) : Prop :=
  sound w (ScopedWaitStatus.wait_state_ g) /\
  (nonnull (ScopedWaitStatus.wait_state_ g) = true ->
   is_Some (ScopedWaitStatus.prev_state_ g)).

(** The inputs an operation can receive on thread [self] in store [w]: a
    method needs an object, every pointer involved is sound, and a guard
    that is reset or destructed has been constructed. *)
Definition admissible (self : thread) (w : World) (op : operation) : Prop :=
  match op with
  | op_method p _ => nonnull p = true /\ sound w p
  | op_SET_WAIT_STATUS_TO p _ => sound w p
  | op_ScopedWaitStatus_ctor p _ => sound w p
  | op_UpdateMetadataFromPB _
  | op_SET_WAIT_STATUS _
  | op_ScopedWaitStatus_ctor_current _ => sound w (threadlocal_wait_state_ w !! self)
  | op_ScopedWaitStatus_ResetToPrevStatus g
  | op_ScopedWaitStatus_dtor g => constructed w g
  | op_CurrentWaitState
  | op_SetCurrentWaitState _
  | op_ScopedWaitState_ctor _
  | op_ScopedWaitState_dtor _ => True
  end.

(** A computation that neither creates nor destroys a container. *)
Definition keeps {A} (m : M World A) : Prop :=
  forall w, dom (heap (final (m w))) = dom (heap w).

(** The text [set_client_node_ip] hands to [inet_addr] and to [std::stoi]
    for an endpoint: what is before and after the first colon, and the
    whole endpoint twice when there is no colon. *)
Definition host_text (endpoint : string) : string :=
  let colon_position := Str.find ":" endpoint in
  if colon_position =? Str.npos then endpoint
  else String.substring 0 (Z.to_nat colon_position) endpoint.

Definition port_text (endpoint : string) : string :=
  let colon_position := Str.find ":" endpoint in
  if colon_position =? Str.npos then endpoint
  else String.substring (Z.to_nat (colon_position + 1))
         (String.length endpoint - Z.to_nat (colon_position + 1)) endpoint.

(** ** The scoped macros *)

(** The two exceptions of the C++ library, as opposed to undefined
    behaviour. *)
Definition is_exception (f : failure) : bool :=
  match f with
  | invalid_argument | out_of_range => true
  | bad_dereference | uninitialized_read => false
  end.

(** The rest of a block after the declaration of a local guard: the
    destructor runs when the block is left, by reaching its end and also
    by an exception, which then goes on to the caller. *)
Definition scope {A} (body : M World A) (dtor : M World unit) : M World A :=
  fun w =>
    match body w with
    | Done r w' =>
        match dtor w' with
        | Done _ w'' => Done r w''
        | Fail f w'' => Fail f w''
        end
    | Fail f w' =>
        if is_exception f
        then match dtor w' with
             | Done _ w'' => Fail f w''
             | Fail f' w'' => Fail f' w''
             end
        else Fail f w'
    end.

(** [#define SCOPED_ADOPT_WAIT_STATE(ptr)
       yb::util::ScopedWaitState _scoped_state { ptr }],
    followed by the rest of the block. *)
Definition SCOPED_ADOPT_WAIT_STATE {A} (self : thread) (ptr : WaitStateInfoPtr)
    (body : M World A) : M World A :=
  do _scoped_state <- ScopedWaitState.ctor self ptr;
  scope body (ScopedWaitState.dtor self _scoped_state).

(** [#define SCOPED_WAIT_STATUS_FOR(ptr, state)
       yb::util::ScopedWaitStatus _scoped_status { (ptr), (state) }] *)
Definition SCOPED_WAIT_STATUS_FOR {A} (ptr : WaitStateInfoPtr) (state : WaitStateCode)
    (body : M World A) : M World A :=
  do _scoped_status <- ScopedWaitStatus.ctor ptr state;
  scope body (ScopedWaitStatus.dtor _scoped_status).

(** [#define SCOPED_WAIT_STATUS(state)
       SCOPED_WAIT_STATUS_FOR(yb::util::WaitStateInfo::CurrentWaitState(), (state))] *)
Definition SCOPED_WAIT_STATUS {A} (self : thread) (state : WaitStateCode)
    (body : M World A) : M World A :=
  do ptr <- CurrentWaitState self;
  SCOPED_WAIT_STATUS_FOR ptr state body.

(** Blocks nested one in the other, each opening with a status guard on
    the same container, around an innermost body. *)
Fixpoint nested_status {A} (ptr : WaitStateInfoPtr) (states : list WaitStateCode)
    (body : M World A) : M World A :=
  match states with
  | [] => body
  | state :: states' =>
      SCOPED_WAIT_STATUS_FOR ptr state (nested_status ptr states' body)
  end.

(** The same with adoption guards on one thread. *)
Fixpoint nested_adopt {A} (self : thread) (ptrs : list WaitStateInfoPtr)
    (body : M World A) : M World A :=
  match ptrs with
  | [] => body
  | ptr :: ptrs' =>
      SCOPED_ADOPT_WAIT_STATE self ptr (nested_adopt self ptrs' body)
  end.

(** ** Vocabulary of the statements *)

(** The container at [a] with its code replaced. *)
Definition set_code (a : loc) (c : WaitStateCode) (w : World) : World :=
  with_heap (alter (WaitStateInfo.with_code c) a (heap w)) w.

(** The slot of thread [self] replaced. *)
Definition set_slot (self : thread) (p : WaitStateInfoPtr) (w : World) : World :=
  with_threadlocal (partial_alter (fun _ => p) self (threadlocal_wait_state_ w)) w.

(** Two stores that differ at most in the codes of their containers. *)
Definition same_but_codes (w w' : World) : Prop :=
  threadlocal_wait_state_ w' = threadlocal_wait_state_ w /\
  forall b : loc,
    WaitStateInfo.metadata_ <$> heap w' !! b = WaitStateInfo.metadata_ <$> heap w !! b /\
    WaitStateInfo.aux_info_ <$> heap w' !! b = WaitStateInfo.aux_info_ <$> heap w !! b.

(** A computation that leaves the slot of thread [t] alone. *)
Definition leaves_slot {A} (t : thread) (m : M World A) : Prop :=
  forall w, threadlocal_wait_state_ (final (m w)) !! t = threadlocal_wait_state_ w !! t.

(** A computation that changes nothing but codes. *)
Definition only_codes {A} (m : M World A) : Prop :=
  forall w, same_but_codes w (final (m w)).


(** An id vector [ToPB] does not lose: empty or a pair. *)
Definition pair_or_empty (v : list Z) : Prop :=
  length v = 0%nat \/ length v = 2%nat.

(** Every field of a message lies in the range of its type; the port is
    32 bits wide there. *)
Definition wf_message (pb : AUHMetadataPB.t) : Prop :=
  Forall (Int.in_unsigned 64) (AUHMetadataPB.top_level_request_id pb) /\
  Forall (Int.in_unsigned 64) (AUHMetadataPB.top_level_node_id pb) /\
  Int.in_signed 64 (AUHMetadataPB.query_id pb) /\
  Int.in_signed 64 (AUHMetadataPB.current_request_id pb) /\
  Int.in_unsigned 32 (AUHMetadataPB.client_node_host pb) /\
  Int.in_unsigned 32 (AUHMetadataPB.client_node_port pb).

(** A decimal numeral: the character of a digit, the text of a list of
    digits and the number it denotes. *)
Definition digit_char (d : Z) : ascii := ascii_of_N (Z.to_N (48 + d)).

Fixpoint digits_text (ds : list Z) : string :=
  match ds with
  | [] => EmptyString
  | d :: ds' => String (digit_char d) (digits_text ds')
  end.

Definition digits_value (ds : list Z) : Z :=
  fold_left (fun acc d => acc * 10 + d) ds 0.

Definition is_digit (d : Z) : Prop := 0 <= d <= 9.

(** * Properties *)

(** ** Fill-in-the-blanks merge *)

(** The merge, field by field. *)
Lemma metadata_merge_fields (A B : AUHMetadata.t) :
  let R := AUHMetadata.UpdateFrom B A in
  AUHMetadata.top_level_request_id R =
    (if vec_empty (AUHMetadata.top_level_request_id B)
     then AUHMetadata.top_level_request_id A
     else AUHMetadata.top_level_request_id B) /\
  AUHMetadata.top_level_node_id R =
    (if vec_empty (AUHMetadata.top_level_node_id B)
     then AUHMetadata.top_level_node_id A
     else AUHMetadata.top_level_node_id B) /\
  AUHMetadata.query_id R =
    (if AUHMetadata.query_id B =? 0
     then AUHMetadata.query_id A else AUHMetadata.query_id B) /\
  AUHMetadata.current_request_id R =
    (if AUHMetadata.current_request_id B =? 0
     then AUHMetadata.current_request_id A
     else AUHMetadata.current_request_id B) /\
  AUHMetadata.client_node_host R =
    (if AUHMetadata.client_node_host B =? 0
     then AUHMetadata.client_node_host A
     else AUHMetadata.client_node_host B) /\
  AUHMetadata.client_node_port R =
    (if AUHMetadata.client_node_port B =? 0
     then AUHMetadata.client_node_port A
     else AUHMetadata.client_node_port B).
Proof.
  intros R. subst R. unfold AUHMetadata.UpdateFrom.
  destruct (vec_empty (AUHMetadata.top_level_request_id B)),
           (vec_empty (AUHMetadata.top_level_node_id B)),
           (AUHMetadata.query_id B =? 0),
           (AUHMetadata.current_request_id B =? 0),
           (AUHMetadata.client_node_host B =? 0),
           (AUHMetadata.client_node_port B =? 0); cbn; repeat split; reflexivity.
Qed.

(** C3. [A.UpdateFrom(B)] takes each field from [B] exactly when [B]'s
    field is set (non-empty vector, non-zero scalar, non-empty string) and
    keeps [A]'s value of every field that is unset in [B]; the same holds
    for the three string fields of [AUHAuxInfo]. *)
Theorem UpdateFrom_fills_blanks :
  (forall A B : AUHMetadata.t,
     let R := AUHMetadata.UpdateFrom B A in
     AUHMetadata.top_level_request_id R =
       (if vec_empty (AUHMetadata.top_level_request_id B)
        then AUHMetadata.top_level_request_id A
        else AUHMetadata.top_level_request_id B) /\
     AUHMetadata.top_level_node_id R =
       (if vec_empty (AUHMetadata.top_level_node_id B)
        then AUHMetadata.top_level_node_id A
        else AUHMetadata.top_level_node_id B) /\
     AUHMetadata.query_id R =
       (if AUHMetadata.query_id B =? 0
        then AUHMetadata.query_id A else AUHMetadata.query_id B) /\
     AUHMetadata.current_request_id R =
       (if AUHMetadata.current_request_id B =? 0
        then AUHMetadata.current_request_id A
        else AUHMetadata.current_request_id B) /\
     AUHMetadata.client_node_host R =
       (if AUHMetadata.client_node_host B =? 0
        then AUHMetadata.client_node_host A
        else AUHMetadata.client_node_host B) /\
     AUHMetadata.client_node_port R =
       (if AUHMetadata.client_node_port B =? 0
        then AUHMetadata.client_node_port A
        else AUHMetadata.client_node_port B)) /\
  (forall A B : AUHAuxInfo.t,
     let R := AUHAuxInfo.UpdateFrom B A in
     AUHAuxInfo.tablet_id R =
       (if str_empty (AUHAuxInfo.tablet_id B)
        then AUHAuxInfo.tablet_id A else AUHAuxInfo.tablet_id B) /\
     AUHAuxInfo.table_id R =
       (if str_empty (AUHAuxInfo.table_id B)
        then AUHAuxInfo.table_id A else AUHAuxInfo.table_id B) /\
     AUHAuxInfo.method R =
       (if str_empty (AUHAuxInfo.method B)
        then AUHAuxInfo.method A else AUHAuxInfo.method B)).
Proof.
  split.
  - intros A B. apply metadata_merge_fields.
  - intros A B R. subst R. unfold AUHAuxInfo.UpdateFrom.
    destruct (str_empty (AUHAuxInfo.tablet_id B)),
             (str_empty (AUHAuxInfo.table_id B)),
             (str_empty (AUHAuxInfo.method B)); cbn; repeat split; reflexivity.
Qed.

(** ** Method calls through a pointer *)

Lemma with_heap_same (w : World) : with_heap (heap w) w = w.
Proof. destruct w; reflexivity. Qed.

Lemma call_get_state (w : World) (a : loc) (o : WaitStateInfo.t) :
  heap w !! a = Some o ->
  call (Some a) WaitStateInfo.get_state w = Done (WaitStateInfo.code_ o) w.
Proof.
  intros H. unfold call. rewrite H. cbn.
  rewrite (insert_id _ _ _ H). now rewrite with_heap_same.
Qed.

Lemma call_set_state (w : World) (a : loc) (o : WaitStateInfo.t) (c : WaitStateCode) :
  heap w !! a = Some o ->
  call (Some a) (WaitStateInfo.set_state c) w =
  Done tt (with_heap (<[a := WaitStateInfo.with_code c o]> (heap w)) w).
Proof. intros H. unfold call. rewrite H. reflexivity. Qed.

Lemma heap_set_state (w : World) (a : loc) (o : WaitStateInfo.t) :
  heap (with_heap (<[a := o]> (heap w)) w) !! a = Some o.
Proof. cbn. apply lookup_insert_eq. Qed.

Lemma current_of_slot (self : thread) (w : World) :
  CurrentWaitState self w = Done (threadlocal_wait_state_ w !! self) w.
Proof. reflexivity. Qed.

(** ** The status guard *)

(** The constructor on a live container, and the reset of the guard it
    builds. *)
Lemma ScopedWaitStatus_ctor_live (w : World) (a : loc) (o : WaitStateInfo.t)
    (S1 : WaitStateCode) :
  heap w !! a = Some o ->
  let g := ScopedWaitStatus.Build (Some a) S1 (Some (WaitStateInfo.code_ o)) in
  ScopedWaitStatus.ctor (Some a) S1 w
    = Done g (with_heap (<[a := WaitStateInfo.with_code S1 o]> (heap w)) w) /\
  (forall (w' : World) (o' : WaitStateInfo.t),
     heap w' !! a = Some o' ->
     ScopedWaitStatus.ResetToPrevStatus g w' =
       Done tt (if WaitStateInfo.code_ o' =? S1
                then with_heap (<[a := WaitStateInfo.with_code
                                         (WaitStateInfo.code_ o) o']> (heap w')) w'
                else w')).
Proof.
  intros H g. split.
  - unfold ScopedWaitStatus.ctor.
    cbn [ScopedWaitStatus.wait_state_ ScopedWaitStatus.state_ nonnull].
    unfold bind. rewrite (call_get_state _ _ _ H), (call_set_state _ _ _ _ H).
    reflexivity.
  - intros w' o' H'. unfold ScopedWaitStatus.ResetToPrevStatus.
    cbn [ScopedWaitStatus.wait_state_ ScopedWaitStatus.state_ nonnull g].
    unfold bind. rewrite (call_get_state _ _ _ H').
    destruct (WaitStateInfo.code_ o' =? S1); [|reflexivity].
    cbn [ScopedWaitStatus.read_prev_state ScopedWaitStatus.prev_state_ g ret].
    now rewrite (call_set_state _ _ _ _ H').
Qed.

(** C1. A [ScopedWaitStatus] on a live container saves the container's
    code in [prev_state_] and sets the code to its own value, through
    either constructor; [ResetToPrevStatus] and the destructor, run in any
    later state, put the saved code back when the container's code is
    still the guard's value and change nothing otherwise.  So when other
    code sets the code to a different [S3] after the guard set [S1], the
    destructor leaves [S3] in place. *)
Theorem ScopedWaitStatus_compare_and_restore :
  forall (w : World) (a : loc) (o : WaitStateInfo.t) (S1 : WaitStateCode),
    heap w !! a = Some o ->
    let g := ScopedWaitStatus.Build (Some a) S1 (Some (WaitStateInfo.code_ o)) in
    let w1 := with_heap (<[a := WaitStateInfo.with_code S1 o]> (heap w)) w in
    ScopedWaitStatus.ctor (Some a) S1 w = Done g w1 /\
    (forall self : thread,
       threadlocal_wait_state_ w !! self = Some a ->
       ScopedWaitStatus.ctor_current self S1 w = Done g w1) /\
    (forall (w' : World) (o' : WaitStateInfo.t),
       heap w' !! a = Some o' ->
       ScopedWaitStatus.ResetToPrevStatus g w' =
         Done tt (if WaitStateInfo.code_ o' =? S1
                  then with_heap (<[a := WaitStateInfo.with_code
                                           (WaitStateInfo.code_ o) o']> (heap w')) w'
                  else w') /\
       ScopedWaitStatus.dtor g w' = ScopedWaitStatus.ResetToPrevStatus g w') /\
    (forall S3 : WaitStateCode,
       S3 <> S1 ->
       let w3 := with_heap (<[a := WaitStateInfo.with_code S3 o]> (heap w)) w in
       (do_ call (Some a) (WaitStateInfo.set_state S3); ScopedWaitStatus.dtor g) w1
         = Done tt w3 /\
       call (Some a) WaitStateInfo.get_state w3 = Done S3 w3).
Proof.
  intros w a o S1 H g w1.
  destruct (ScopedWaitStatus_ctor_live w a o S1 H) as [Hctor Hreset].
  fold g in Hctor, Hreset. fold w1 in Hctor.
  split; [exact Hctor|]. split; [|split].
  - intros self Hself. unfold ScopedWaitStatus.ctor_current, bind.
    rewrite current_of_slot, Hself.
    exact Hctor.
  - intros w' o' H'. split; [now apply Hreset | reflexivity].
  - intros S3 Hne w3.
    assert (H1 : heap w1 !! a = Some (WaitStateInfo.with_code S1 o))
      by apply heap_set_state.
    assert (Hw3 : with_heap (<[a := WaitStateInfo.with_code S3
                                      (WaitStateInfo.with_code S1 o)]> (heap w1)) w1 = w3).
    { subst w1 w3. unfold with_heap. cbn. now rewrite insert_insert_eq. }
    split.
    + unfold bind. rewrite (call_set_state _ _ _ _ H1), Hw3.
      unfold ScopedWaitStatus.dtor.
      rewrite (Hreset w3 (WaitStateInfo.with_code S3 o) (heap_set_state _ _ _)).
      cbn. destruct (Z.eqb_spec S3 S1); [contradiction | reflexivity].
    + apply (call_get_state w3 a (WaitStateInfo.with_code S3 o)), heap_set_state.
Qed.

(** The theorem at a concrete store: the guard sets 1 on a fresh
    container at address 1, other code sets 3. *)
Lemma ScopedWaitStatus_compare_and_restore_witness :
  let w := BuildWorld {[ 1%positive := WaitStateInfo.default_ctor ]} ∅ in
  let w3 := with_heap (<[1%positive := WaitStateInfo.with_code 3 WaitStateInfo.default_ctor]>
                         (heap w)) w in
  heap w !! 1%positive = Some WaitStateInfo.default_ctor /\
  3 <> 1 /\
  call (Some 1%positive) WaitStateInfo.get_state w3 = Done 3 w3.
Proof.
  intros w w3.
  assert (Hlive : heap w !! 1%positive = Some WaitStateInfo.default_ctor)
    by reflexivity.
  assert (Hne : 3 <> 1) by discriminate.
  split; [exact Hlive|]. split; [exact Hne|].
  destruct (ScopedWaitStatus_compare_and_restore w 1%positive
              WaitStateInfo.default_ctor 1 Hlive) as (_ & _ & _ & H).
  destruct (H 3 Hne) as [_ H3]. exact H3.
Defined.

(** ** The adoption guard *)

(** C2. A [ScopedWaitState] reads the calling thread's slot into
    [prev_state_] and writes the given pointer, empty or not, into the
    slot; its destructor writes [prev_state_] back whatever the slot holds
    by then.  Starting from an empty slot, guards for [C1] and then [C2]
    destructed in reverse order leave the slot at [C1] and then empty. *)
Theorem ScopedWaitState_restores_previous :
  (forall (self : thread) (p : WaitStateInfoPtr) (w : World),
     exists w1,
       ScopedWaitState.ctor self p w =
         Done (ScopedWaitState.Build (threadlocal_wait_state_ w !! self)) w1 /\
       CurrentWaitState self w1 = Done p w1 /\
       heap w1 = heap w) /\
  (forall (self : thread) (g : ScopedWaitState.t) (w' : World),
     exists w2,
       ScopedWaitState.dtor self g w' = Done tt w2 /\
       CurrentWaitState self w2 = Done (ScopedWaitState.prev_state_ g) w2 /\
       heap w2 = heap w') /\
  (forall (self : thread) (C1 C2 : WaitStateInfoPtr) (w : World),
     CurrentWaitState self w = Done None w ->
     exists g1 w1 g2 w2 w3 w4,
       ScopedWaitState.ctor self C1 w = Done g1 w1 /\
       CurrentWaitState self w1 = Done C1 w1 /\
       ScopedWaitState.ctor self C2 w1 = Done g2 w2 /\
       CurrentWaitState self w2 = Done C2 w2 /\
       ScopedWaitState.dtor self g2 w2 = Done tt w3 /\
       CurrentWaitState self w3 = Done C1 w3 /\
       ScopedWaitState.dtor self g1 w3 = Done tt w4 /\
       CurrentWaitState self w4 = Done None w4).
Proof.
  assert (Hset : forall self p w,
            CurrentWaitState self
              (with_threadlocal (partial_alter (fun _ => p) self
                                   (threadlocal_wait_state_ w)) w)
            = Done p (with_threadlocal (partial_alter (fun _ => p) self
                                   (threadlocal_wait_state_ w)) w)).
  { intros self p w. rewrite current_of_slot. cbn.
    now rewrite lookup_partial_alter_eq. }
  split; [|split].
  - intros self p w. eexists. split; [reflexivity|]. split; [apply Hset | reflexivity].
  - intros self g w'. eexists. split; [reflexivity|]. split; [apply Hset | reflexivity].
  - intros self C1 C2 w Hnone.
    rewrite current_of_slot in Hnone. injection Hnone as Hnone.
    do 6 eexists.
    split; [reflexivity|]. split; [apply Hset|].
    split; [reflexivity|]. split; [apply Hset|].
    split; [reflexivity|]. split.
    + cbn [ScopedWaitState.prev_state_].
      rewrite current_of_slot at 1. cbn.
      rewrite !lookup_partial_alter_eq. reflexivity.
    + split; [reflexivity|].
      rewrite current_of_slot at 1. cbn.
      rewrite !lookup_partial_alter_eq, Hnone. reflexivity.
Qed.

(** The nesting scenario on thread 0 of a store with two containers. *)
Lemma ScopedWaitState_restores_previous_witness :
  let w := BuildWorld {[ 1%positive := WaitStateInfo.default_ctor;
                         2%positive := WaitStateInfo.default_ctor ]} ∅ in
  CurrentWaitState 0%nat w = Done None w /\
  exists g1 w1 g2 w2 w3 w4,
    ScopedWaitState.ctor 0%nat (Some 1%positive) w = Done g1 w1 /\
    CurrentWaitState 0%nat w1 = Done (Some 1%positive) w1 /\
    ScopedWaitState.ctor 0%nat (Some 2%positive) w1 = Done g2 w2 /\
    CurrentWaitState 0%nat w2 = Done (Some 2%positive) w2 /\
    ScopedWaitState.dtor 0%nat g2 w2 = Done tt w3 /\
    CurrentWaitState 0%nat w3 = Done (Some 1%positive) w3 /\
    ScopedWaitState.dtor 0%nat g1 w3 = Done tt w4 /\
    CurrentWaitState 0%nat w4 = Done None w4.
Proof.
  intros w.
  assert (Hnone : CurrentWaitState 0%nat w = Done None w) by reflexivity.
  split; [exact Hnone|].
  destruct ScopedWaitState_restores_previous as (_ & _ & H).
  exact (H 0%nat (Some 1%positive) (Some 2%positive) w Hnone).
Defined.

(** ** No current wait state *)

(** C8. On a thread whose slot is empty, [CurrentWaitState] returns the
    empty pointer, and the helpers that set a status return without
    changing anything: the macro [SET_WAIT_STATUS], a [ScopedWaitStatus]
    built from a code alone, and one built from an empty pointer, together
    with their reset and destruction in any later state. *)
Theorem no_current_wait_state_is_noop :
  forall (self : thread) (w : World),
    threadlocal_wait_state_ w !! self = None ->
    CurrentWaitState self w = Done None w /\
    (forall c : WaitStateCode,
       let g := ScopedWaitStatus.Build None c None in
       SET_WAIT_STATUS self c w = Done tt w /\
       SET_WAIT_STATUS_TO (ret None) c w = Done tt w /\
       ScopedWaitStatus.ctor_current self c w = Done g w /\
       ScopedWaitStatus.ctor None c w = Done g w /\
       (forall w' : World,
          ScopedWaitStatus.ResetToPrevStatus g w' = Done tt w' /\
          ScopedWaitStatus.dtor g w' = Done tt w')).
Proof.
  intros self w Hnone.
  assert (Hcur : CurrentWaitState self w = Done None w)
    by (rewrite current_of_slot; now rewrite Hnone).
  split; [exact Hcur|].
  intros c g. repeat split.
  - unfold SET_WAIT_STATUS, SET_WAIT_STATUS_TO, bind. now rewrite Hcur.
  - unfold ScopedWaitStatus.ctor_current, bind. now rewrite Hcur.
Qed.

Lemma no_current_wait_state_is_noop_witness :
  let w := BuildWorld {[ 1%positive := WaitStateInfo.default_ctor ]}
                      {[ 1%nat := 1%positive ]} in
  threadlocal_wait_state_ w !! 0%nat = None /\
  CurrentWaitState 0%nat w = Done None w /\
  SET_WAIT_STATUS 0%nat 7 w = Done tt w.
Proof.
  intros w.
  assert (Hnone : threadlocal_wait_state_ w !! 0%nat = None) by reflexivity.
  destruct (no_current_wait_state_is_noop 0%nat w Hnone) as [Hcur H].
  destruct (H 7) as [Hset _].
  split; [exact Hnone|]. split; [exact Hcur | exact Hset].
Defined.

(** C10. A [ScopedWaitStatus] built from an empty pointer never has its
    [prev_state_] assigned, and never reads it: the construction, any
    number of calls of [ResetToPrevStatus] and the destruction all return
    and leave the whole store, with the code of every container, as it
    was. *)
Theorem ScopedWaitStatus_empty_never_reads_prev :
  forall (c : WaitStateCode) (w : World),
    let g := ScopedWaitStatus.Build None c None in
    ScopedWaitStatus.ctor None c w = Done g w /\
    ScopedWaitStatus.prev_state_ g = None /\
    (forall (n : nat) (w' : World),
       times n (ScopedWaitStatus.ResetToPrevStatus g) w' = Done tt w' /\
       (do_ times n (ScopedWaitStatus.ResetToPrevStatus g);
        ScopedWaitStatus.dtor g) w' = Done tt w').
Proof.
  intros c w g. split; [reflexivity|]. split; [reflexivity|].
  assert (Hn : forall n w', times n (ScopedWaitStatus.ResetToPrevStatus g) w' = Done tt w').
  { induction n as [|n IH]; intros w'; [reflexivity|].
    cbn [times]. unfold bind. cbn. apply IH. }
  intros n w'. split; [apply Hn|].
  unfold bind. now rewrite Hn.
Qed.

(** ** The derived top-level request id *)

(** C7, as amended. [set_top_level_request_id(x)] stores the pair of [x]
    and the [uint64_t] product [x * x], that is [x * x] modulo [2^64];
    this is the pair [(x, x * x)] for [x] below [2^32], and [(5, 25)] for
    5. *)
Theorem set_top_level_request_id_stores_wrapped_square :
  forall (x : Z) (o : WaitStateInfo.t),
    let stored v :=
      WaitStateInfo.with_metadata
        (AUHMetadata.with_top_level_request_id v (WaitStateInfo.metadata_ o)) o in
    WaitStateInfo.set_top_level_request_id x o
      = Done tt (stored [x; (x * x) mod 2 ^ 64]) /\
    (0 <= x < 2 ^ 32 ->
     WaitStateInfo.set_top_level_request_id x o = Done tt (stored [x; x * x])) /\
    WaitStateInfo.set_top_level_request_id 5 o = Done tt (stored [5; 25]).
Proof.
  intros x o stored. split; [reflexivity|]. split; [|reflexivity].
  intros Hx. unfold WaitStateInfo.set_top_level_request_id, WaitStateInfo.on_metadata,
    modify, Int.to_uint64, Int.wrap_unsigned. subst stored. cbn beta.
  rewrite Z.mod_small; [reflexivity|]. nia.
Qed.

Lemma set_top_level_request_id_stores_wrapped_square_witness :
  0 <= 3 < 2 ^ 32 /\
  WaitStateInfo.set_top_level_request_id 3 WaitStateInfo.default_ctor
    = Done tt (WaitStateInfo.with_metadata
                 (AUHMetadata.with_top_level_request_id [3; 3 * 3] AUHMetadata.zero)
                 WaitStateInfo.default_ctor).
Proof.
  assert (H : 0 <= 3 < 2 ^ 32) by (split; [discriminate | reflexivity]).
  split; [exact H|].
  destruct (set_top_level_request_id_stores_wrapped_square 3 WaitStateInfo.default_ctor)
    as (_ & Hsmall & _).
  exact (Hsmall H).
Defined.

(** C7 as stated fails for a [uint64_t] input from [2^32] on: the stored
    second component of [2^32] is 0, not [2^64]. *)
Lemma set_top_level_request_id_not_square :
  Int.in_unsigned 64 4294967296 /\
  WaitStateInfo.set_top_level_request_id 4294967296 WaitStateInfo.default_ctor
    = Done tt (WaitStateInfo.with_metadata
                 (AUHMetadata.with_top_level_request_id [4294967296; 0] AUHMetadata.zero)
                 WaitStateInfo.default_ctor) /\
  WaitStateInfo.set_top_level_request_id 4294967296 WaitStateInfo.default_ctor
    <> Done tt (WaitStateInfo.with_metadata
                 (AUHMetadata.with_top_level_request_id
                    [4294967296; 4294967296 * 4294967296] AUHMetadata.zero)
                 WaitStateInfo.default_ctor).
Proof.
  split; [|split].
  - unfold Int.in_unsigned. split; [discriminate | reflexivity].
  - reflexivity.
  - intros H. vm_compute in H. discriminate H.
Qed.

(** ** Merging a wire message *)

(** C4, as amended.  [UpdateFromPB] keeps the existing value of every field
    that is absent from the message, and of the port when the message's
    port reads 0; [UpdateMetadataFromPB] merges into the container the
    calling thread has current and keeps the existing value of every field
    that reads zero or empty in the message, absent or not. *)
Theorem read_merge_keeps_unset_fields :
  (forall (pb : AUHMetadataPB.t) (m : AUHMetadata.t),
     let R := AUHMetadata.UpdateFromPB pb m in
     (AUHMetadataPB.has_top_level_request_id pb = false ->
      AUHMetadata.top_level_request_id R = AUHMetadata.top_level_request_id m) /\
     (AUHMetadataPB.has_top_level_node_id pb = false ->
      AUHMetadata.top_level_node_id R = AUHMetadata.top_level_node_id m) /\
     (AUHMetadataPB.has_query_id pb = false ->
      AUHMetadata.query_id R = AUHMetadata.query_id m) /\
     (AUHMetadataPB.has_current_request_id pb = false ->
      AUHMetadata.current_request_id R = AUHMetadata.current_request_id m) /\
     (AUHMetadataPB.has_client_node_host pb = false ->
      AUHMetadata.client_node_host R = AUHMetadata.client_node_host m) /\
     (AUHMetadataPB.client_node_port pb = 0 ->
      AUHMetadata.client_node_port R = AUHMetadata.client_node_port m)) /\
  (forall (self : thread) (pb : AUHMetadataPB.t) (w : World)
          (a : loc) (o : WaitStateInfo.t),
     threadlocal_wait_state_ w !! self = Some a ->
     heap w !! a = Some o ->
     let m := WaitStateInfo.metadata_ o in
     let R := AUHMetadata.UpdateFrom (AUHMetadata.FromPB pb) m in
     UpdateMetadataFromPB self pb w =
       Done tt (with_heap (<[a := WaitStateInfo.with_metadata R o]> (heap w)) w) /\
     (AUHMetadataPB.top_level_request_id pb = [] ->
      AUHMetadata.top_level_request_id R = AUHMetadata.top_level_request_id m) /\
     (AUHMetadataPB.top_level_node_id pb = [] ->
      AUHMetadata.top_level_node_id R = AUHMetadata.top_level_node_id m) /\
     (AUHMetadataPB.query_id pb = 0 ->
      AUHMetadata.query_id R = AUHMetadata.query_id m) /\
     (AUHMetadataPB.current_request_id pb = 0 ->
      AUHMetadata.current_request_id R = AUHMetadata.current_request_id m) /\
     (AUHMetadataPB.client_node_host pb = 0 ->
      AUHMetadata.client_node_host R = AUHMetadata.client_node_host m) /\
     (AUHMetadataPB.client_node_port pb = 0 ->
      AUHMetadata.client_node_port R = AUHMetadata.client_node_port m)).
Proof.
  split.
  - intros pb m R. subst R. unfold AUHMetadata.UpdateFromPB.
    repeat split; intros ->;
      destruct (AUHMetadataPB.has_top_level_request_id pb),
               (AUHMetadataPB.has_top_level_node_id pb),
               (AUHMetadataPB.has_query_id pb),
               (AUHMetadataPB.has_current_request_id pb),
               (AUHMetadataPB.has_client_node_host pb);
      try destruct (AUHMetadataPB.client_node_port pb =? 0);
      try discriminate; reflexivity.
  - intros self pb w a o Hcur Hlive m R.
    split.
    + unfold UpdateMetadataFromPB, bind.
      rewrite current_of_slot. rewrite Hcur. cbn [nonnull].
      unfold call. rewrite Hlive. reflexivity.
    + destruct (metadata_merge_fields m (AUHMetadata.FromPB pb))
        as (H1 & H2 & H3 & H4 & H5 & H6).
      fold R in H1, H2, H3, H4, H5, H6.
      cbn [AUHMetadata.FromPB AUHMetadata.top_level_request_id
           AUHMetadata.top_level_node_id AUHMetadata.query_id
           AUHMetadata.current_request_id AUHMetadata.client_node_host
           AUHMetadata.client_node_port] in H1, H2, H3, H4, H5, H6.
      repeat split; intros E; rewrite E in *; assumption.
Qed.

(** An empty message merged into the container current on thread 0. *)
Lemma read_merge_keeps_unset_fields_witness :
  let o := WaitStateInfo.ctor (AUHMetadata.Build [1; 2] [3; 4] 5 6 7 8) in
  let w := BuildWorld {[ 1%positive := o ]} {[ 0%nat := 1%positive ]} in
  threadlocal_wait_state_ w !! 0%nat = Some 1%positive /\
  heap w !! 1%positive = Some o /\
  AUHMetadataPB.has_query_id AUHMetadataPB.empty = false /\
  AUHMetadataPB.query_id AUHMetadataPB.empty = 0 /\
  AUHMetadata.query_id
    (AUHMetadata.UpdateFromPB AUHMetadataPB.empty (WaitStateInfo.metadata_ o)) = 5 /\
  AUHMetadata.query_id
    (AUHMetadata.UpdateFrom (AUHMetadata.FromPB AUHMetadataPB.empty)
                            (WaitStateInfo.metadata_ o)) = 5.
Proof.
  intros o w.
  assert (Hcur : threadlocal_wait_state_ w !! 0%nat = Some 1%positive) by reflexivity.
  assert (Hlive : heap w !! 1%positive = Some o) by reflexivity.
  assert (Habsent : AUHMetadataPB.has_query_id AUHMetadataPB.empty = false)
    by reflexivity.
  assert (Hzero : AUHMetadataPB.query_id AUHMetadataPB.empty = 0) by reflexivity.
  destruct read_merge_keeps_unset_fields as [Hpb Hcurrent].
  destruct (Hpb AUHMetadataPB.empty (WaitStateInfo.metadata_ o))
    as (_ & _ & Hq & _).
  destruct (Hcurrent 0%nat AUHMetadataPB.empty w 1%positive o Hcur Hlive)
    as (_ & _ & _ & Hq' & _).
  split; [exact Hcur|]. split; [exact Hlive|].
  split; [exact Habsent|]. split; [exact Hzero|].
  split; [exact (Hq Habsent) | exact (Hq' Hzero)].
Defined.

(** C4 as stated fails for [UpdateFromPB]: a message that carries
    [query_id] with the value 0 has a zero incoming field, and merging it
    replaces the existing query id 42 by 0. *)
Lemma UpdateFromPB_present_zero_overwrites :
  let pb := AUHMetadataPB.set_query_id 0 AUHMetadataPB.empty in
  let m := AUHMetadata.with_query_id 42 AUHMetadata.zero in
  AUHMetadataPB.query_id pb = 0 /\
  AUHMetadata.query_id m = 42 /\
  AUHMetadata.query_id (AUHMetadata.UpdateFromPB pb m) = 0 /\
  AUHMetadata.query_id (AUHMetadata.UpdateFromPB pb m) <> AUHMetadata.query_id m.
Proof. cbn. repeat split; discriminate. Qed.

(** ** Writing a wire message *)

(** Under the size test of [ToPB] both elements read are in range. *)
Lemma vec_at_in_range (v : list Z) :
  Int.to_int (vec_size v) = 2 -> is_Some (v !! 0%nat) /\ is_Some (v !! 1%nat).
Proof.
  unfold Int.to_int, Int.wrap_signed, vec_size. intros H.
  assert (Hm : 0 <= Z.of_nat (length v) mod 2 ^ 32 < 2 ^ 32)
    by (apply Z.mod_pos_bound; reflexivity).
  assert (H2 : Z.of_nat (length v) mod 2 ^ 32 = 2).
  { destruct (Z.of_nat (length v) mod 2 ^ 32 <? 2 ^ (32 - 1)); [exact H|].
    change (2 ^ 32) with 4294967296 in *. lia. }
  assert (Hlen : (2 <= length v)%nat).
  { destruct v as [|x [|y v']]; cbn in H2; try discriminate H2. cbn. lia. }
  split; apply lookup_lt_is_Some; lia.
Qed.

(** A size below [2^31] survives the cast to [int]. *)
Lemma to_int_small (z : Z) : 0 <= z < 2 ^ 31 -> Int.to_int z = z.
Proof.
  intros H. unfold Int.to_int, Int.wrap_signed.
  change (2 ^ 31) with 2147483648 in H.
  rewrite Z.mod_small by (change (2 ^ 32) with 4294967296; lia).
  change (2 ^ (32 - 1)) with 2147483648.
  destruct (Z.ltb_spec z 2147483648); [reflexivity | lia].
Qed.

(** The fields of [ToPB]'s result, one by one. *)
Lemma ToPB_fields (m : AUHMetadata.t) (pb : AUHMetadataPB.t) :
  let R := AUHMetadata.ToPB m pb in
  AUHMetadataPB.top_level_request_id_ R =
    (if Int.to_int (vec_size (AUHMetadata.top_level_request_id m)) =? 2
     then AUHMetadataPB.top_level_request_id_ pb ++
          [vec_at (AUHMetadata.top_level_request_id m) 0;
           vec_at (AUHMetadata.top_level_request_id m) 1]
     else AUHMetadataPB.top_level_request_id_ pb) /\
  AUHMetadataPB.top_level_node_id_ R =
    (if Int.to_int (vec_size (AUHMetadata.top_level_node_id m)) =? 2
     then AUHMetadataPB.top_level_node_id_ pb ++
          [vec_at (AUHMetadata.top_level_node_id m) 0;
           vec_at (AUHMetadata.top_level_node_id m) 1]
     else AUHMetadataPB.top_level_node_id_ pb) /\
  AUHMetadataPB.query_id_ R =
    (if AUHMetadata.query_id m =? 0
     then AUHMetadataPB.query_id_ pb else Some (AUHMetadata.query_id m)) /\
  AUHMetadataPB.current_request_id_ R =
    (if AUHMetadata.current_request_id m =? 0
     then AUHMetadataPB.current_request_id_ pb
     else Some (AUHMetadata.current_request_id m)) /\
  AUHMetadataPB.client_node_host_ R =
    (if AUHMetadata.client_node_host m =? 0
     then AUHMetadataPB.client_node_host_ pb
     else Some (AUHMetadata.client_node_host m)) /\
  AUHMetadataPB.client_node_port_ R =
    (if AUHMetadata.client_node_port m =? 0
     then AUHMetadataPB.client_node_port_ pb
     else Some (AUHMetadata.client_node_port m)).
Proof.
  intros R. subst R. unfold AUHMetadata.ToPB.
  destruct (Int.to_int (vec_size (AUHMetadata.top_level_request_id m)) =? 2),
           (Int.to_int (vec_size (AUHMetadata.top_level_node_id m)) =? 2),
           (AUHMetadata.query_id m =? 0),
           (AUHMetadata.current_request_id m =? 0),
           (AUHMetadata.client_node_host m =? 0),
           (AUHMetadata.client_node_port m =? 0);
    cbn; rewrite <- ?app_assoc; repeat split; reflexivity.
Qed.

(** C5, as amended.  [AUHMetadata::ToPB] leaves alone every scalar field of
    the message whose value in the struct is zero, and each id field whose
    vector has a size that, cast to [int] as the source compares it, is not
    2, which covers every size other than 2 below [2^31].
    [AUHAuxInfo::ToPB] sets all three string fields to the struct's
    values, the empty ones too. *)
Theorem ToPB_omits_unset_metadata_sets_all_aux :
  (forall (m : AUHMetadata.t) (pb : AUHMetadataPB.t),
     let R := AUHMetadata.ToPB m pb in
     (Int.to_int (vec_size (AUHMetadata.top_level_request_id m)) <> 2 ->
      AUHMetadataPB.top_level_request_id_ R = AUHMetadataPB.top_level_request_id_ pb) /\
     (Int.to_int (vec_size (AUHMetadata.top_level_node_id m)) <> 2 ->
      AUHMetadataPB.top_level_node_id_ R = AUHMetadataPB.top_level_node_id_ pb) /\
     (AUHMetadata.query_id m = 0 ->
      AUHMetadataPB.query_id_ R = AUHMetadataPB.query_id_ pb) /\
     (AUHMetadata.current_request_id m = 0 ->
      AUHMetadataPB.current_request_id_ R = AUHMetadataPB.current_request_id_ pb) /\
     (AUHMetadata.client_node_host m = 0 ->
      AUHMetadataPB.client_node_host_ R = AUHMetadataPB.client_node_host_ pb) /\
     (AUHMetadata.client_node_port m = 0 ->
      AUHMetadataPB.client_node_port_ R = AUHMetadataPB.client_node_port_ pb)) /\
  (forall v : list Z,
     length v <> 2%nat -> vec_size v < 2 ^ 31 -> Int.to_int (vec_size v) <> 2) /\
  (forall (a : AUHAuxInfo.t) (pb : AUHAuxInfoPB.t),
     let R := AUHAuxInfo.ToPB a pb in
     AUHAuxInfoPB.tablet_id_ R = Some (AUHAuxInfo.tablet_id a) /\
     AUHAuxInfoPB.table_id_ R = Some (AUHAuxInfo.table_id a) /\
     AUHAuxInfoPB.method_ R = Some (AUHAuxInfo.method a)).
Proof.
  split; [|split].
  - intros m pb R.
    destruct (ToPB_fields m pb) as (H1 & H2 & H3 & H4 & H5 & H6).
    fold R in H1, H2, H3, H4, H5, H6.
    repeat split.
    + intros H. rewrite H1. now rewrite (proj2 (Z.eqb_neq _ _) H).
    + intros H. rewrite H2. now rewrite (proj2 (Z.eqb_neq _ _) H).
    + intros H. rewrite H3. now rewrite H.
    + intros H. rewrite H4. now rewrite H.
    + intros H. rewrite H5. now rewrite H.
    + intros H. rewrite H6. now rewrite H.
  - intros v Hlen Hsmall. rewrite to_int_small.
    + unfold vec_size. lia.
    + unfold vec_size in *. lia.
  - intros a pb R. repeat split.
Qed.

Lemma ToPB_omits_unset_metadata_sets_all_aux_witness :
  let m := AUHMetadata.Build [1; 2; 3] [] 0 0 0 0 in
  (Int.to_int (vec_size (AUHMetadata.top_level_request_id m)) <> 2 /\
   AUHMetadata.query_id m = 0 /\
   length (AUHMetadata.top_level_request_id m) <> 2%nat /\
   vec_size (AUHMetadata.top_level_request_id m) < 2 ^ 31) /\
  AUHMetadataPB.top_level_request_id_ (AUHMetadata.ToPB m AUHMetadataPB.empty) = [] /\
  AUHMetadataPB.query_id_ (AUHMetadata.ToPB m AUHMetadataPB.empty) = None.
Proof.
  intros m.
  assert (Hq : AUHMetadata.query_id m = 0) by reflexivity.
  assert (Hlen : length (AUHMetadata.top_level_request_id m) <> 2%nat)
    by (cbn; discriminate).
  assert (Hsmall : vec_size (AUHMetadata.top_level_request_id m) < 2 ^ 31)
    by reflexivity.
  destruct ToPB_omits_unset_metadata_sets_all_aux as (Hmeta & Hint & _).
  destruct (Hmeta m AUHMetadataPB.empty) as (H1 & _ & H3 & _).
  pose proof (Hint _ Hlen Hsmall) as Hsize.
  split; [split; [exact Hsize | split; [exact Hq | split; [exact Hlen | exact Hsmall]]]|].
  split; [exact (H1 Hsize) | exact (H3 Hq)].
Defined.

(** C5 as stated fails for [AUHAuxInfo::ToPB]: an empty [tablet_id] is
    written all the same, it is present in a fresh message afterwards and
    it replaces the id a message already carried. *)
Lemma AUHAuxInfo_ToPB_writes_empty_strings :
  let pb := AUHAuxInfoPB.set_tablet_id "t1" AUHAuxInfoPB.empty in
  str_empty (AUHAuxInfo.tablet_id AUHAuxInfo.zero) = true /\
  AUHAuxInfoPB.has_tablet_id (AUHAuxInfo.ToPB AUHAuxInfo.zero AUHAuxInfoPB.empty)
    = true /\
  AUHAuxInfoPB.has_tablet_id AUHAuxInfoPB.empty = false /\
  AUHAuxInfoPB.tablet_id_ (AUHAuxInfo.ToPB AUHAuxInfo.zero pb)
    <> AUHAuxInfoPB.tablet_id_ pb.
Proof. cbn. repeat split. discriminate. Qed.

(** The cast in the size test of [AUHMetadata::ToPB] at work: a vector of
    [2^32 + 2] elements is taken for a pair and its first two elements are
    written. *)
Lemma ToPB_writes_vector_of_wrapped_size :
  let v := replicate (Z.to_nat 4294967298) 7 in
  let m := AUHMetadata.with_top_level_request_id v AUHMetadata.zero in
  length v <> 2%nat /\
  AUHMetadataPB.top_level_request_id_ (AUHMetadata.ToPB m AUHMetadataPB.empty) = [7; 7].
Proof.
  intros v m.
  assert (Hlen : length v = Z.to_nat 4294967298) by apply length_replicate.
  split; [rewrite Hlen; lia|].
  destruct (ToPB_fields m AUHMetadataPB.empty) as (H1 & _). rewrite H1.
  change (AUHMetadata.top_level_request_id m) with v.
  replace (vec_size v) with 4294967298 by (unfold vec_size; rewrite Hlen; lia).
  change (Int.to_int 4294967298 =? 2) with true. cbv iota.
  unfold vec_at.
  rewrite !(lookup_replicate_2 (Z.to_nat 4294967298) 7) by lia.
  reflexivity.
Qed.

(** ** Round trip through the wire message *)

(** C6. For a metadata struct with every field set and in the range of its
    type, and an aux-info struct with every string set, [ToPB] into a
    fresh message followed by [FromPB] gives the structs back; for the
    zero metadata, [ToPB] leaves the fresh message without any field and
    [FromPB] gives the zero metadata back. *)
Theorem wire_round_trip :
  (forall (m : AUHMetadata.t) (a : AUHAuxInfo.t),
     AUHMetadata.wf m -> AUHMetadata.populated m -> AUHAuxInfo.populated a ->
     AUHMetadata.FromPB (AUHMetadata.ToPB m AUHMetadataPB.empty) = m /\
     AUHAuxInfo.FromPB (AUHAuxInfo.ToPB a AUHAuxInfoPB.empty) = a) /\
  AUHMetadata.ToPB AUHMetadata.zero AUHMetadataPB.empty = AUHMetadataPB.empty /\
  AUHMetadata.FromPB (AUHMetadata.ToPB AUHMetadata.zero AUHMetadataPB.empty)
    = AUHMetadata.zero.
Proof.
  split; [|split; reflexivity].
  intros m a Hwf Hpop _. split.
  - destruct m as [r n q c h p].
    destruct Hwf as (_ & _ & _ & _ & _ & Hp).
    destruct Hpop as (Hr & Hn & Hq & Hc & Hh & Hp0). cbn in *.
    destruct r as [|r0 [|r1 [|? ?]]]; try discriminate Hr.
    destruct n as [|n0 [|n1 [|? ?]]]; try discriminate Hn.
    unfold AUHMetadata.ToPB, AUHMetadata.FromPB.
    cbn [AUHMetadata.top_level_request_id AUHMetadata.top_level_node_id
         AUHMetadata.query_id AUHMetadata.current_request_id
         AUHMetadata.client_node_host AUHMetadata.client_node_port].
    change (Int.to_int (vec_size [r0; r1]) =? 2) with true.
    change (Int.to_int (vec_size [n0; n1]) =? 2) with true.
    rewrite (proj2 (Z.eqb_neq q 0) Hq), (proj2 (Z.eqb_neq c 0) Hc),
            (proj2 (Z.eqb_neq h 0) Hh), (proj2 (Z.eqb_neq p 0) Hp0).
    cbn. f_equal.
    unfold Int.to_uint16, Int.wrap_unsigned. apply Z.mod_small. exact Hp.
  - destruct a as [x y z]. reflexivity.
Qed.

Lemma wire_round_trip_witness :
  let m := AUHMetadata.Build [1; 2] [3; 4] 5 (-6) 7 8080 in
  let a := AUHAuxInfo.Build "tablet" "table" "Write" in
  (AUHMetadata.wf m /\ AUHMetadata.populated m /\ AUHAuxInfo.populated a) /\
  AUHMetadata.FromPB (AUHMetadata.ToPB m AUHMetadataPB.empty) = m /\
  AUHAuxInfo.FromPB (AUHAuxInfo.ToPB a AUHAuxInfoPB.empty) = a.
Proof.
  intros m a.
  assert (Hwf : AUHMetadata.wf m).
  { unfold AUHMetadata.wf, Int.in_unsigned, Int.in_signed. cbn.
    repeat split; try (repeat constructor; lia); lia. }
  assert (Hpop : AUHMetadata.populated m)
    by (unfold AUHMetadata.populated; cbn; repeat split; discriminate).
  assert (Haux : AUHAuxInfo.populated a)
    by (unfold AUHAuxInfo.populated; cbn; repeat split; discriminate).
  split; [split; [exact Hwf | split; [exact Hpop | exact Haux]]|].
  destruct wire_round_trip as [H _].
  exact (H m a Hwf Hpop Haux).
Defined.

(** ** Failures *)

Lemma find_from_range (c : ascii) (s : string) (i : Z) :
  0 <= i -> i + Str.size s < Str.npos ->
  Str.find_from c s i = Str.npos \/ i <= Str.find_from c s i < i + Str.size s.
Proof.
  revert i. induction s as [|a s IH]; intros i Hi Hs; cbn [Str.find_from].
  - now left.
  - unfold Str.size in *. cbn [String.length] in *.
    destruct (Ascii.eqb a c).
    + right. lia.
    + destruct (IH (i + 1)) as [H|H]; [lia | lia | now left | right; lia].
Qed.

Lemma substring_all (s : string) : String.substring 0 (String.length s) s = s.
Proof. induction s as [|a s IH]; cbn; [reflexivity | now rewrite IH]. Qed.

(** The two [substr] calls of the parser never throw, and yield
    [host_text] and [port_text]. *)
Lemma substr_host (endpoint : string) :
  Str.size endpoint < Str.npos ->
  Str.substr endpoint 0 (Str.find ":" endpoint) = inr (host_text endpoint).
Proof.
  intros Hsize. unfold Str.substr, host_text.
  assert (Hnn : 0 <= Str.size endpoint) by (unfold Str.size; lia).
  destruct (Z.ltb_spec (Str.size endpoint) 0) as [?|_]; [lia|].
  destruct (find_from_range ":" endpoint 0 ltac:(lia) ltac:(lia)) as [H|H];
    fold (Str.find ":" endpoint) in H.
  - rewrite H, Z.eqb_refl, Z.sub_0_r, Z.min_r by lia.
    unfold Str.size. now rewrite Nat2Z.id, substring_all.
  - destruct (Z.eqb_spec (Str.find ":" endpoint) Str.npos) as [E|_]; [lia|].
    now rewrite Z.sub_0_r, Z.min_l by lia.
Qed.

Lemma substr_port (endpoint : string) :
  Str.size endpoint < Str.npos ->
  Str.substr endpoint (Int.to_uint64 (Str.find ":" endpoint + 1)) Str.npos
    = inr (port_text endpoint).
Proof.
  intros Hsize. unfold Str.substr, port_text.
  assert (Hnn : 0 <= Str.size endpoint) by (unfold Str.size; lia).
  destruct (find_from_range ":" endpoint 0 ltac:(lia) ltac:(lia)) as [H|H];
    fold (Str.find ":" endpoint) in H.
  - rewrite H, Z.eqb_refl.
    change (Int.to_uint64 (Str.npos + 1)) with 0.
    destruct (Z.ltb_spec (Str.size endpoint) 0) as [?|_]; [lia|].
    rewrite Z.sub_0_r, Z.min_r by lia.
    unfold Str.size. now rewrite Nat2Z.id, substring_all.
  - destruct (Z.eqb_spec (Str.find ":" endpoint) Str.npos) as [E|_]; [lia|].
    assert (Hw : Int.to_uint64 (Str.find ":" endpoint + 1) = Str.find ":" endpoint + 1).
    { unfold Int.to_uint64, Int.wrap_unsigned. apply Z.mod_small.
      unfold Str.npos in *. lia. }
    rewrite Hw.
    destruct (Z.ltb_spec (Str.size endpoint) (Str.find ":" endpoint + 1)) as [?|_];
      [lia|].
    rewrite Z.min_r by lia. do 2 f_equal. unfold Str.size. lia.
Qed.

(** What the parser does on every endpoint. *)
Lemma set_client_node_ip_outcome (inet_addr : string -> Z) (ntohl : Z -> Z)
    (endpoint : string) (m : AUHMetadata.t) :
  Str.size endpoint < Str.npos ->
  AUHMetadata.set_client_node_ip inet_addr ntohl endpoint m =
    let host := ntohl (inet_addr (Str.c_str (host_text endpoint))) in
    match Str.stoi (port_text endpoint) with
    | inr n => Done tt (AUHMetadata.with_client_node_port (Int.to_uint16 n)
                          (AUHMetadata.with_client_node_host host m))
    | inl e => Fail e (AUHMetadata.with_client_node_port 0
                         (AUHMetadata.with_client_node_host host m))
    end.
Proof.
  intros Hsize. unfold AUHMetadata.set_client_node_ip, bind, modify.
  rewrite (substr_host _ Hsize), (substr_port _ Hsize).
  cbn [lift ret].
  destruct (Str.stoi (port_text endpoint)) as [e|n]; reflexivity.
Qed.

Lemma invoke_returns (inet_addr : string -> Z) (ntohl : Z -> Z) (NDEBUG : bool)
    (code_ToString : WaitStateCode -> string) (m : method) (o : WaitStateInfo.t) :
  is_parser m = false ->
  returns (invoke inet_addr ntohl NDEBUG code_ToString m) o.
Proof.
  intros H. destruct m; try discriminate H; eexists; eexists; reflexivity.
Qed.

Lemma call_returns {A} (w : World) (p : WaitStateInfoPtr) (f : M WaitStateInfo.t A) :
  nonnull p = true -> sound w p ->
  (forall o, returns f o) ->
  returns (call p f) w.
Proof.
  intros Hp Hs Hf. destruct p as [a|]; [|discriminate Hp].
  destruct Hs as [o Ho]. destruct (Hf o) as (r & o' & Hr).
  exists r. eexists. unfold call. rewrite Ho, Hr. reflexivity.
Qed.

Lemma run_returns (inet_addr : string -> Z) (ntohl : Z -> Z) (NDEBUG : bool)
    (code_ToString : WaitStateCode -> string)
    (self : thread) (op : operation) (w : World) :
  parses op = false -> admissible self w op ->
  returns (run inet_addr ntohl NDEBUG code_ToString self op) w.
Proof.
  intros Hparse Hadm.
  assert (Hguarded : forall (p : WaitStateInfoPtr) c, sound w p ->
            returns (SET_WAIT_STATUS_TO (ret p) c) w).
  { intros [a|] c Hs; [|do 2 eexists; reflexivity].
    destruct Hs as [o Ho]. do 2 eexists.
    unfold SET_WAIT_STATUS_TO, bind, ret. cbn [nonnull].
    rewrite (call_set_state _ _ _ _ Ho). reflexivity. }
  assert (Hctor : forall (p : WaitStateInfoPtr) c, sound w p ->
            returns (ScopedWaitStatus.ctor p c) w).
  { intros [a|] c Hs; [|do 2 eexists; reflexivity].
    destruct Hs as [o Ho].
    destruct (ScopedWaitStatus_ctor_live w a o c Ho) as [H _].
    do 2 eexists. exact H. }
  assert (Hreset : forall g, constructed w g ->
            returns (ScopedWaitStatus.ResetToPrevStatus g) w).
  { intros [[a|] c prev] [Hs Hprev]; [|do 2 eexists; reflexivity].
    destruct Hs as [o Ho]. destruct (Hprev eq_refl) as [c0 Hc0].
    cbn in Hc0. subst prev.
    unfold returns, ScopedWaitStatus.ResetToPrevStatus.
    cbn [ScopedWaitStatus.wait_state_ ScopedWaitStatus.state_ nonnull].
    unfold bind. rewrite (call_get_state _ _ _ Ho).
    destruct (WaitStateInfo.code_ o =? c); [|do 2 eexists; reflexivity].
    cbn [ScopedWaitStatus.read_prev_state ScopedWaitStatus.prev_state_ ret].
    rewrite (call_set_state _ _ _ _ Ho). do 2 eexists; reflexivity. }
  destruct op; cbn [run parses admissible] in *.
  - destruct Hadm as [Hp Hs]. apply call_returns; [exact Hp | exact Hs |].
    intros o. now apply invoke_returns.
  - do 2 eexists; reflexivity.
  - do 2 eexists; reflexivity.
  - unfold returns, UpdateMetadataFromPB, bind. rewrite current_of_slot.
    destruct (threadlocal_wait_state_ w !! self) as [a|] eqn:E;
      [|do 2 eexists; reflexivity].
    cbn [nonnull]. apply call_returns; [reflexivity | exact Hadm |].
    intros o. do 2 eexists; reflexivity.
  - now apply Hguarded.
  - unfold returns, SET_WAIT_STATUS, SET_WAIT_STATUS_TO, bind.
    rewrite current_of_slot.
    destruct (threadlocal_wait_state_ w !! self) as [a|] eqn:E;
      [|do 2 eexists; reflexivity].
    cbn [nonnull]. rewrite current_of_slot, E.
    destruct Hadm as [o Ho]. rewrite (call_set_state _ _ _ _ Ho).
    do 2 eexists; reflexivity.
  - do 2 eexists; reflexivity.
  - do 2 eexists; reflexivity.
  - destruct (Hctor p c Hadm) as (g & w' & H).
    do 2 eexists. unfold void, bind. rewrite H. reflexivity.
  - destruct (Hctor (threadlocal_wait_state_ w !! self) c Hadm) as (g & w' & H).
    do 2 eexists. unfold void, ScopedWaitStatus.ctor_current, bind.
    rewrite current_of_slot.
    unfold ScopedWaitStatus.ctor, bind in H. rewrite H. reflexivity.
  - now apply Hreset.
  - now apply Hreset.
Qed.

(** C9, as amended.  Every operation other than the address parser returns
    on every admissible input.  The parser validates nothing itself: it
    stores what [inet_addr] makes of the text before the first colon, and
    then hands the text after it (the whole endpoint, when there is no
    colon) to [std::stoi], whose exception [std::invalid_argument] or
    [std::out_of_range] leaves it with the port still reset to 0; when
    [std::stoi] reads a number the parser returns and stores it reduced
    modulo [2^16].  So an endpoint with a host that is no address, or
    without a colon but with a number at its head, goes through, and one
    whose port is not a number throws. *)
Theorem only_the_address_parser_fails :
  (forall (inet_addr : string -> Z) (ntohl : Z -> Z) (NDEBUG : bool)
          (code_ToString : WaitStateCode -> string)
          (self : thread) (op : operation) (w : World),
     parses op = false -> admissible self w op ->
     returns (run inet_addr ntohl NDEBUG code_ToString self op) w) /\
  (forall (inet_addr : string -> Z) (ntohl : Z -> Z)
          (endpoint : string) (m : AUHMetadata.t),
     Str.size endpoint < Str.npos ->
     AUHMetadata.set_client_node_ip inet_addr ntohl endpoint m =
       let host := ntohl (inet_addr (Str.c_str (host_text endpoint))) in
       match Str.stoi (port_text endpoint) with
       | inr n => Done tt (AUHMetadata.with_client_node_port (Int.to_uint16 n)
                             (AUHMetadata.with_client_node_host host m))
       | inl e => Fail e (AUHMetadata.with_client_node_port 0
                            (AUHMetadata.with_client_node_host host m))
       end) /\
  (forall (inet_addr : string -> Z) (ntohl : Z -> Z) (m : AUHMetadata.t),
     AUHMetadata.set_client_node_ip inet_addr ntohl "10.0.0.1" m =
       Done tt (AUHMetadata.with_client_node_port 10
                  (AUHMetadata.with_client_node_host
                     (ntohl (inet_addr "10.0.0.1")) m)) /\
     AUHMetadata.set_client_node_ip inet_addr ntohl "no-host:80" m =
       Done tt (AUHMetadata.with_client_node_port 80
                  (AUHMetadata.with_client_node_host
                     (ntohl (inet_addr "no-host")) m)) /\
     AUHMetadata.set_client_node_ip inet_addr ntohl "10.0.0.1:http" m =
       Fail invalid_argument
            (AUHMetadata.with_client_node_port 0
               (AUHMetadata.with_client_node_host
                  (ntohl (inet_addr "10.0.0.1")) m)) /\
     AUHMetadata.set_client_node_ip inet_addr ntohl "10.0.0.1:99999999999" m =
       Fail out_of_range
            (AUHMetadata.with_client_node_port 0
               (AUHMetadata.with_client_node_host
                  (ntohl (inet_addr "10.0.0.1")) m))).
Proof.
  split; [|split].
  - intros. now apply run_returns.
  - intros. now apply set_client_node_ip_outcome.
  - intros inet_addr ntohl m. repeat split.
Qed.

(** The theorem at a status update through a live pointer and at a
    well-formed endpoint, on a big-endian host, where [ntohl] is the
    identity and [inet_addr] of 10.0.0.1 is 167772161. *)
Lemma only_the_address_parser_fails_witness :
  let w := BuildWorld {[ 1%positive := WaitStateInfo.default_ctor ]} ∅ in
  let op := op_method (Some 1%positive) (m_set_state 7) in
  (parses op = false /\ admissible 0%nat w op /\
   Str.size "10.0.0.1:5433" < Str.npos) /\
  returns (run (fun _ => 167772161) (fun z => z) true (fun _ => EmptyString)
               0%nat op) w /\
  AUHMetadata.set_client_node_ip (fun _ => 167772161) (fun z => z)
    "10.0.0.1:5433" AUHMetadata.zero
  = Done tt (AUHMetadata.Build [] [] 0 0 167772161 5433).
Proof.
  intros w op.
  assert (Hparse : parses op = false) by reflexivity.
  assert (Hadm : admissible 0%nat w op).
  { split; [reflexivity|]. exists WaitStateInfo.default_ctor. reflexivity. }
  assert (Hsize : Str.size "10.0.0.1:5433" < Str.npos) by reflexivity.
  destruct only_the_address_parser_fails as (Hrun & Hip & _).
  split; [split; [exact Hparse | split; [exact Hadm | exact Hsize]]|].
  split.
  - exact (Hrun _ _ _ _ 0%nat op w Hparse Hadm).
  - rewrite (Hip _ _ _ _ Hsize). reflexivity.
Defined.

(** C9 as stated fails for a port that is no number: on "1.2.3.4:abc"
    [std::stoi] throws [std::invalid_argument] out of the parser, after
    the host has been stored.  The first conjunct runs the parser on a
    big-endian host, the second holds whatever the C library does. *)
Lemma set_client_node_ip_throws_on_non_numeric_port :
  AUHMetadata.set_client_node_ip (fun _ => 16909060) (fun z => z)
    "1.2.3.4:abc" AUHMetadata.zero
  = Fail invalid_argument (AUHMetadata.Build [] [] 0 0 16909060 0) /\
  ~ (forall (inet_addr : string -> Z) (ntohl : Z -> Z),
       returns (AUHMetadata.set_client_node_ip inet_addr ntohl "1.2.3.4:abc")
               AUHMetadata.zero).
Proof.
  split; [reflexivity|].
  intros H. destruct (H (fun _ => 0) (fun z => z)) as (r & m' & E).
  discriminate E.
Qed.

(** ** Containers stay in the store *)

(** No operation creates or destroys a container, whether it returns or
    fails; so a pointer that is sound, and a guard that is constructed,
    stay so across every operation. *)

Create HintDb keeps.

Lemma keeps_ret {A} (a : A) : keeps (ret a).
Proof. intros w. reflexivity. Qed.

Lemma keeps_throw {A} (f : failure) : keeps (@throw World A f).
Proof. intros w. reflexivity. Qed.

Lemma keeps_bind {A B} (m : M World A) (k : A -> M World B) :
  keeps m -> (forall a, keeps (k a)) -> keeps (bind m k).
Proof.
  intros Hm Hk w. unfold bind. specialize (Hm w).
  destruct (m w) as [a s|f s]; cbn [final] in *; [|exact Hm].
  now rewrite (Hk a s).
Qed.

Lemma keeps_if {A} (b : bool) (m1 m2 : M World A) :
  keeps m1 -> keeps m2 -> keeps (if b then m1 else m2).
Proof. now destruct b. Qed.

Lemma keeps_call {A} (p : WaitStateInfoPtr) (f : M WaitStateInfo.t A) :
  keeps (call p f).
Proof.
  intros w. unfold call. destruct p as [a|]; [|reflexivity].
  destruct (heap w !! a) as [o|] eqn:E; [|reflexivity].
  assert (Ha : a ∈ dom (heap w)) by (apply elem_of_dom; eauto).
  destruct (f o); cbn; rewrite dom_insert_L;
    apply subseteq_union_1_L; now apply singleton_subseteq_l.
Qed.

Lemma keeps_CurrentWaitState (self : thread) : keeps (CurrentWaitState self).
Proof. intros w. reflexivity. Qed.

Lemma keeps_SetCurrentWaitState (self : thread) (p : WaitStateInfoPtr) :
  keeps (SetCurrentWaitState self p).
Proof. intros w. reflexivity. Qed.

#[local] Hint Resolve keeps_ret keeps_throw keeps_bind keeps_if keeps_call
  keeps_CurrentWaitState keeps_SetCurrentWaitState : keeps.

Lemma keeps_read_prev_state (g : ScopedWaitStatus.t) :
  keeps (ScopedWaitStatus.read_prev_state g).
Proof.
  unfold ScopedWaitStatus.read_prev_state.
  destruct (ScopedWaitStatus.prev_state_ g); auto with keeps.
Qed.

#[local] Hint Resolve keeps_read_prev_state : keeps.


Lemma sound_after (w w' : World) (p : WaitStateInfoPtr) :
  dom (heap w') = dom (heap w) -> sound w p -> sound w' p.
Proof.
  intros Hdom. destruct p as [a|]; [|trivial]. cbn.
  rewrite <- !elem_of_dom. now rewrite Hdom.
Qed.

Lemma constructed_after (w w' : World) (g : ScopedWaitStatus.t) :
  dom (heap w') = dom (heap w) -> constructed w g -> constructed w' g.
Proof.
  intros Hdom [Hs Hprev]. split; [|exact Hprev].
  now apply (sound_after w w').
Qed.

(** * Further properties *)

(** ** The merge as an operation *)

Lemma metadata_eq (m m' : AUHMetadata.t) :
  AUHMetadata.top_level_request_id m = AUHMetadata.top_level_request_id m' ->
  AUHMetadata.top_level_node_id m = AUHMetadata.top_level_node_id m' ->
  AUHMetadata.query_id m = AUHMetadata.query_id m' ->
  AUHMetadata.current_request_id m = AUHMetadata.current_request_id m' ->
  AUHMetadata.client_node_host m = AUHMetadata.client_node_host m' ->
  AUHMetadata.client_node_port m = AUHMetadata.client_node_port m' ->
  m = m'.
Proof. destruct m, m'; cbn; intros; congruence. Qed.

Lemma aux_info_eq (a a' : AUHAuxInfo.t) :
  AUHAuxInfo.tablet_id a = AUHAuxInfo.tablet_id a' ->
  AUHAuxInfo.table_id a = AUHAuxInfo.table_id a' ->
  AUHAuxInfo.method a = AUHAuxInfo.method a' ->
  a = a'.
Proof. destruct a, a'; cbn; intros; congruence. Qed.

Lemma aux_merge_fields (A B : AUHAuxInfo.t) :
  let R := AUHAuxInfo.UpdateFrom B A in
  AUHAuxInfo.tablet_id R =
    (if str_empty (AUHAuxInfo.tablet_id B)
     then AUHAuxInfo.tablet_id A else AUHAuxInfo.tablet_id B) /\
  AUHAuxInfo.table_id R =
    (if str_empty (AUHAuxInfo.table_id B)
     then AUHAuxInfo.table_id A else AUHAuxInfo.table_id B) /\
  AUHAuxInfo.method R =
    (if str_empty (AUHAuxInfo.method B)
     then AUHAuxInfo.method A else AUHAuxInfo.method B).
Proof.
  intros R. subst R. unfold AUHAuxInfo.UpdateFrom.
  destruct (str_empty (AUHAuxInfo.tablet_id B)),
           (str_empty (AUHAuxInfo.table_id B)),
           (str_empty (AUHAuxInfo.method B)); cbn; repeat split; reflexivity.
Qed.

(** The three shapes of a field merge: "the later value wins when set". *)
Lemma later_vec_assoc {T} (a b c : list T) :
  (if vec_empty c then (if vec_empty b then a else b) else c) =
  (if vec_empty (if vec_empty c then b else c) then a
   else (if vec_empty c then b else c)).
Proof. destruct c, b; reflexivity. Qed.

Lemma later_Z_assoc (a b c : Z) :
  (if c =? 0 then (if b =? 0 then a else b) else c) =
  (if (if c =? 0 then b else c) =? 0 then a else (if c =? 0 then b else c)).
Proof.
  destruct (Z.eqb_spec c 0) as [->|Hc]; [reflexivity|].
  now rewrite (proj2 (Z.eqb_neq c 0) Hc).
Qed.

Lemma later_str_assoc (a b c : string) :
  (if str_empty c then (if str_empty b then a else b) else c) =
  (if str_empty (if str_empty c then b else c) then a
   else (if str_empty c then b else c)).
Proof. destruct c, b; reflexivity. Qed.

Lemma later_vec_unset {T} (b : list T) : (if vec_empty b then [] else b) = b.
Proof. now destruct b. Qed.

Lemma later_Z_unset (b : Z) : (if b =? 0 then 0 else b) = b.
Proof. now destruct (Z.eqb_spec b 0). Qed.

Lemma later_str_unset (b : string) : (if str_empty b then EmptyString else b) = b.
Proof. now destruct b. Qed.

(** X1. [UpdateFrom] makes the metadata values, and the aux-info values, a
    monoid in which the later set value of each field wins: merging a
    value into itself changes nothing, the zero value is neutral on both
    sides, and two merges in a row amount to merging the merged
    argument. *)
Theorem UpdateFrom_monoid :
  (forall A : AUHMetadata.t, AUHMetadata.UpdateFrom A A = A) /\
  (forall A : AUHMetadata.t, AUHMetadata.UpdateFrom AUHMetadata.zero A = A) /\
  (forall B : AUHMetadata.t, AUHMetadata.UpdateFrom B AUHMetadata.zero = B) /\
  (forall A B C : AUHMetadata.t,
     AUHMetadata.UpdateFrom C (AUHMetadata.UpdateFrom B A) =
     AUHMetadata.UpdateFrom (AUHMetadata.UpdateFrom C B) A) /\
  (forall A : AUHAuxInfo.t, AUHAuxInfo.UpdateFrom A A = A) /\
  (forall A : AUHAuxInfo.t, AUHAuxInfo.UpdateFrom AUHAuxInfo.zero A = A) /\
  (forall B : AUHAuxInfo.t, AUHAuxInfo.UpdateFrom B AUHAuxInfo.zero = B) /\
  (forall A B C : AUHAuxInfo.t,
     AUHAuxInfo.UpdateFrom C (AUHAuxInfo.UpdateFrom B A) =
     AUHAuxInfo.UpdateFrom (AUHAuxInfo.UpdateFrom C B) A).
Proof.
  repeat apply conj.
  - intros A. apply metadata_eq;
      destruct (metadata_merge_fields A A) as (H1 & H2 & H3 & H4 & H5 & H6);
      cbv zeta in *;
      [rewrite H1 | rewrite H2 | rewrite H3 | rewrite H4 | rewrite H5 | rewrite H6];
      match goal with |- (if ?b then _ else _) = _ => now destruct b end.
  - intros A. reflexivity.
  - intros B. apply metadata_eq;
      destruct (metadata_merge_fields AUHMetadata.zero B)
        as (H1 & H2 & H3 & H4 & H5 & H6);
      cbv zeta in *;
      [rewrite H1 | rewrite H2 | rewrite H3 | rewrite H4 | rewrite H5 | rewrite H6];
      cbn [AUHMetadata.zero AUHMetadata.top_level_request_id
           AUHMetadata.top_level_node_id AUHMetadata.query_id
           AUHMetadata.current_request_id AUHMetadata.client_node_host
           AUHMetadata.client_node_port];
      auto using later_vec_unset, later_Z_unset.
  - intros A B C.
    destruct (metadata_merge_fields A B) as (A1 & A2 & A3 & A4 & A5 & A6).
    destruct (metadata_merge_fields B C) as (B1 & B2 & B3 & B4 & B5 & B6).
    destruct (metadata_merge_fields (AUHMetadata.UpdateFrom B A) C)
      as (L1 & L2 & L3 & L4 & L5 & L6).
    destruct (metadata_merge_fields A (AUHMetadata.UpdateFrom C B))
      as (R1 & R2 & R3 & R4 & R5 & R6).
    cbv zeta in *.
    apply metadata_eq.
    + rewrite L1, R1, A1, B1. apply later_vec_assoc.
    + rewrite L2, R2, A2, B2. apply later_vec_assoc.
    + rewrite L3, R3, A3, B3. apply later_Z_assoc.
    + rewrite L4, R4, A4, B4. apply later_Z_assoc.
    + rewrite L5, R5, A5, B5. apply later_Z_assoc.
    + rewrite L6, R6, A6, B6. apply later_Z_assoc.
  - intros A. apply aux_info_eq;
      destruct (aux_merge_fields A A) as (H1 & H2 & H3); cbv zeta in *;
      [rewrite H1 | rewrite H2 | rewrite H3];
      match goal with |- (if ?b then _ else _) = _ => now destruct b end.
  - intros A. now destruct A.
  - intros B. apply aux_info_eq;
      destruct (aux_merge_fields AUHAuxInfo.zero B) as (H1 & H2 & H3);
      cbv zeta in *; [rewrite H1 | rewrite H2 | rewrite H3];
      cbn [AUHAuxInfo.zero AUHAuxInfo.tablet_id AUHAuxInfo.table_id AUHAuxInfo.method];
      apply later_str_unset.
  - intros A B C.
    destruct (aux_merge_fields A B) as (A1 & A2 & A3).
    destruct (aux_merge_fields B C) as (B1 & B2 & B3).
    destruct (aux_merge_fields (AUHAuxInfo.UpdateFrom B A) C) as (L1 & L2 & L3).
    destruct (aux_merge_fields A (AUHAuxInfo.UpdateFrom C B)) as (R1 & R2 & R3).
    cbv zeta in *.
    apply aux_info_eq.
    + rewrite L1, R1, A1, B1. apply later_str_assoc.
    + rewrite L2, R2, A2, B2. apply later_str_assoc.
    + rewrite L3, R3, A3, B3. apply later_str_assoc.
Qed.

(** ** More on the wire message *)

Lemma pair_elements (v : list Z) :
  length v = 2%nat -> [vec_at v 0; vec_at v 1] = v.
Proof. destruct v as [|x [|y [|z v']]]; try discriminate; reflexivity. Qed.

Lemma size_test_small (v : list Z) :
  vec_size v < 2 ^ 31 ->
  (Int.to_int (vec_size v) =? 2) = (length v =? 2)%nat.
Proof.
  intros H. rewrite to_int_small by (unfold vec_size in *; lia).
  unfold vec_size.
  destruct (Nat.eqb_spec (length v) 2) as [->|Hne]; [reflexivity|].
  apply Z.eqb_neq. lia.
Qed.

(** The id vector that survives [ToPB]. *)
Lemma written_ids (v : list Z) :
  vec_size v < 2 ^ 31 ->
  (if Int.to_int (vec_size v) =? 2 then [] ++ [vec_at v 0; vec_at v 1] else [])
  = (if (length v =? 2)%nat then v else []).
Proof.
  intros H. rewrite (size_test_small v H).
  destruct (Nat.eqb_spec (length v) 2) as [E|_]; [|reflexivity].
  now rewrite (pair_elements v E).
Qed.

(** What [FromPB] reads back from the message [ToPB] fills from scratch. *)
Lemma FromPB_ToPB (m : AUHMetadata.t) :
  AUHMetadata.wf m ->
  vec_size (AUHMetadata.top_level_request_id m) < 2 ^ 31 ->
  vec_size (AUHMetadata.top_level_node_id m) < 2 ^ 31 ->
  AUHMetadata.FromPB (AUHMetadata.ToPB m AUHMetadataPB.empty) =
  AUHMetadata.with_top_level_request_id
    (if (length (AUHMetadata.top_level_request_id m) =? 2)%nat
     then AUHMetadata.top_level_request_id m else [])
    (AUHMetadata.with_top_level_node_id
       (if (length (AUHMetadata.top_level_node_id m) =? 2)%nat
        then AUHMetadata.top_level_node_id m else [])
       m).
Proof.
  intros (_ & _ & _ & _ & _ & Hport) Hr Hn.
  destruct (ToPB_fields m AUHMetadataPB.empty) as (H1 & H2 & H3 & H4 & H5 & H6).
  cbv zeta in *.
  cbn [AUHMetadataPB.empty AUHMetadataPB.top_level_request_id_
       AUHMetadataPB.top_level_node_id_ AUHMetadataPB.query_id_
       AUHMetadataPB.current_request_id_ AUHMetadataPB.client_node_host_
       AUHMetadataPB.client_node_port_] in *.
  rewrite (written_ids _ Hr) in H1. rewrite (written_ids _ Hn) in H2.
  unfold AUHMetadata.FromPB, AUHMetadataPB.top_level_request_id,
    AUHMetadataPB.top_level_node_id, AUHMetadataPB.query_id,
    AUHMetadataPB.current_request_id, AUHMetadataPB.client_node_host,
    AUHMetadataPB.client_node_port.
  rewrite H1, H2, H3, H4, H5, H6.
  apply metadata_eq; cbn; try reflexivity.
  - now destruct (Z.eqb_spec (AUHMetadata.query_id m) 0).
  - now destruct (Z.eqb_spec (AUHMetadata.current_request_id m) 0).
  - now destruct (Z.eqb_spec (AUHMetadata.client_node_host m) 0).
  - destruct (Z.eqb_spec (AUHMetadata.client_node_port m) 0) as [->|_];
      [reflexivity|].
    cbn. unfold Int.to_uint16, Int.wrap_unsigned. now apply Z.mod_small.
Qed.

(** The message [ToPB] fills from scratch for a value whose id vectors
    are empty or pairs, and what [FromPB] reads back from it. *)
Lemma fresh_message_of_pairs (src : AUHMetadata.t) :
  AUHMetadata.wf src ->
  pair_or_empty (AUHMetadata.top_level_request_id src) ->
  pair_or_empty (AUHMetadata.top_level_node_id src) ->
  let pb := AUHMetadata.ToPB src AUHMetadataPB.empty in
  AUHMetadata.FromPB pb = src /\
  (AUHMetadataPB.top_level_request_id_ pb = AUHMetadata.top_level_request_id src /\
   AUHMetadataPB.top_level_node_id_ pb = AUHMetadata.top_level_node_id src /\
   AUHMetadataPB.query_id_ pb =
     (if AUHMetadata.query_id src =? 0 then None
      else Some (AUHMetadata.query_id src)) /\
   AUHMetadataPB.current_request_id_ pb =
     (if AUHMetadata.current_request_id src =? 0 then None
      else Some (AUHMetadata.current_request_id src)) /\
   AUHMetadataPB.client_node_host_ pb =
     (if AUHMetadata.client_node_host src =? 0 then None
      else Some (AUHMetadata.client_node_host src)) /\
   AUHMetadataPB.client_node_port_ pb =
     (if AUHMetadata.client_node_port src =? 0 then None
      else Some (AUHMetadata.client_node_port src))).
Proof.
  intros Hwf Hr Hn pb.
  assert (Hr' : vec_size (AUHMetadata.top_level_request_id src) < 2 ^ 31)
    by (unfold vec_size; destruct Hr as [-> | ->]; reflexivity).
  assert (Hn' : vec_size (AUHMetadata.top_level_node_id src) < 2 ^ 31)
    by (unfold vec_size; destruct Hn as [-> | ->]; reflexivity).
  assert (Hkeep : forall v : list Z, pair_or_empty v ->
            (if (length v =? 2)%nat then v else []) = v).
  { intros v [E|E]; [apply length_zero_iff_nil in E; now subst | now rewrite E]. }
  split.
  - subst pb. rewrite (FromPB_ToPB src Hwf Hr' Hn').
    rewrite (Hkeep _ Hr), (Hkeep _ Hn). now destruct src.
  - destruct (ToPB_fields src AUHMetadataPB.empty) as (H1 & H2 & H3 & H4 & H5 & H6).
    fold pb in H1, H2, H3, H4, H5, H6.
    cbn [AUHMetadataPB.empty AUHMetadataPB.top_level_request_id_
         AUHMetadataPB.top_level_node_id_ AUHMetadataPB.query_id_
         AUHMetadataPB.current_request_id_ AUHMetadataPB.client_node_host_
         AUHMetadataPB.client_node_port_] in H1, H2, H3, H4, H5, H6.
    rewrite (written_ids _ Hr'), (Hkeep _ Hr) in H1.
    rewrite (written_ids _ Hn'), (Hkeep _ Hn) in H2.
    repeat split; assumption.
Qed.

(** X2. For a metadata value in the range of its types, set or not, with
    id vectors shorter than [2^31]: [ToPB] into a fresh message followed
    by [FromPB] gives the value back exactly when each id vector is empty
    or a pair; an id vector of any other size comes back empty, and every
    other field comes back as it was. *)
Theorem wire_round_trip_exactly_for_pairs :
  forall m : AUHMetadata.t,
    AUHMetadata.wf m ->
    vec_size (AUHMetadata.top_level_request_id m) < 2 ^ 31 ->
    vec_size (AUHMetadata.top_level_node_id m) < 2 ^ 31 ->
    let m' := AUHMetadata.FromPB (AUHMetadata.ToPB m AUHMetadataPB.empty) in
    (m' = m <->
     pair_or_empty (AUHMetadata.top_level_request_id m) /\
     pair_or_empty (AUHMetadata.top_level_node_id m)) /\
    AUHMetadata.top_level_request_id m' =
      (if (length (AUHMetadata.top_level_request_id m) =? 2)%nat
       then AUHMetadata.top_level_request_id m else []) /\
    AUHMetadata.top_level_node_id m' =
      (if (length (AUHMetadata.top_level_node_id m) =? 2)%nat
       then AUHMetadata.top_level_node_id m else []) /\
    AUHMetadata.query_id m' = AUHMetadata.query_id m /\
    AUHMetadata.current_request_id m' = AUHMetadata.current_request_id m /\
    AUHMetadata.client_node_host m' = AUHMetadata.client_node_host m /\
    AUHMetadata.client_node_port m' = AUHMetadata.client_node_port m.
Proof.
  intros m Hwf Hr Hn m'. subst m'. rewrite (FromPB_ToPB m Hwf Hr Hn).
  destruct m as [r n q c h p]. cbn.
  split; [|repeat split].
  unfold pair_or_empty. split.
  - intros E. injection E as Er En.
    destruct (Nat.eqb_spec (length r) 2), (Nat.eqb_spec (length n) 2);
      subst; cbn; auto.
  - intros [[Er|Er] [En|En]];
      try (apply length_zero_iff_nil in Er; subst r);
      try (apply length_zero_iff_nil in En; subst n);
      try rewrite Er; try rewrite En; reflexivity.
Qed.

Lemma wire_round_trip_exactly_for_pairs_witness :
  let m := AUHMetadata.Build [1; 2; 3] [] 0 9 0 8080 in
  (AUHMetadata.wf m /\
   vec_size (AUHMetadata.top_level_request_id m) < 2 ^ 31 /\
   vec_size (AUHMetadata.top_level_node_id m) < 2 ^ 31) /\
  AUHMetadata.top_level_request_id
    (AUHMetadata.FromPB (AUHMetadata.ToPB m AUHMetadataPB.empty)) = [] /\
  AUHMetadata.client_node_port
    (AUHMetadata.FromPB (AUHMetadata.ToPB m AUHMetadataPB.empty)) = 8080.
Proof.
  intros m.
  assert (Hwf : AUHMetadata.wf m).
  { unfold AUHMetadata.wf, Int.in_unsigned, Int.in_signed. cbn.
    repeat split; try (repeat constructor; lia); lia. }
  assert (Hr : vec_size (AUHMetadata.top_level_request_id m) < 2 ^ 31)
    by reflexivity.
  assert (Hn : vec_size (AUHMetadata.top_level_node_id m) < 2 ^ 31)
    by reflexivity.
  destruct (wire_round_trip_exactly_for_pairs m Hwf Hr Hn)
    as (_ & H1 & _ & _ & _ & _ & H6).
  split; [split; [exact Hwf | split; [exact Hr | exact Hn]]|].
  split; [exact H1 | exact H6].
Defined.

(** The fields of [UpdateFromPB]'s result, one by one. *)
Lemma UpdateFromPB_fields (pb : AUHMetadataPB.t) (m : AUHMetadata.t) :
  let R := AUHMetadata.UpdateFromPB pb m in
  AUHMetadata.top_level_request_id R =
    (if AUHMetadataPB.has_top_level_request_id pb
     then AUHMetadataPB.top_level_request_id pb
     else AUHMetadata.top_level_request_id m) /\
  AUHMetadata.top_level_node_id R =
    (if AUHMetadataPB.has_top_level_node_id pb
     then AUHMetadataPB.top_level_node_id pb
     else AUHMetadata.top_level_node_id m) /\
  AUHMetadata.query_id R =
    (if AUHMetadataPB.has_query_id pb
     then AUHMetadataPB.query_id pb else AUHMetadata.query_id m) /\
  AUHMetadata.current_request_id R =
    (if AUHMetadataPB.has_current_request_id pb
     then AUHMetadataPB.current_request_id pb
     else AUHMetadata.current_request_id m) /\
  AUHMetadata.client_node_host R =
    (if AUHMetadataPB.has_client_node_host pb
     then AUHMetadataPB.client_node_host pb
     else AUHMetadata.client_node_host m) /\
  AUHMetadata.client_node_port R =
    (if AUHMetadataPB.client_node_port pb =? 0
     then AUHMetadata.client_node_port m
     else Int.to_uint16 (AUHMetadataPB.client_node_port pb)).
Proof.
  intros R. subst R. unfold AUHMetadata.UpdateFromPB.
  destruct (AUHMetadataPB.has_top_level_request_id pb),
           (AUHMetadataPB.has_top_level_node_id pb),
           (AUHMetadataPB.has_query_id pb),
           (AUHMetadataPB.has_current_request_id pb),
           (AUHMetadataPB.has_client_node_host pb),
           (AUHMetadataPB.client_node_port pb =? 0);
    cbn; repeat split; reflexivity.
Qed.

(** X3. Sending a metadata value over the wire and merging it on the
    other side is the same as merging the value itself: for [src] in the
    range of its types with each id vector empty or a pair, both read
    paths, [UpdateFromPB] on the message and [UpdateFrom] on [FromPB] of
    the message (which is what [UpdateMetadataFromPB] runs), give
    [UpdateFrom src]. *)
Theorem wire_merge_is_merge :
  forall src m : AUHMetadata.t,
    AUHMetadata.wf src ->
    pair_or_empty (AUHMetadata.top_level_request_id src) ->
    pair_or_empty (AUHMetadata.top_level_node_id src) ->
    let pb := AUHMetadata.ToPB src AUHMetadataPB.empty in
    AUHMetadata.UpdateFromPB pb m = AUHMetadata.UpdateFrom src m /\
    AUHMetadata.UpdateFrom (AUHMetadata.FromPB pb) m = AUHMetadata.UpdateFrom src m.
Proof.
  intros src m Hwf Hr Hn pb.
  assert (Hr' : vec_size (AUHMetadata.top_level_request_id src) < 2 ^ 31)
    by (unfold vec_size; destruct Hr as [-> | ->]; reflexivity).
  assert (Hn' : vec_size (AUHMetadata.top_level_node_id src) < 2 ^ 31)
    by (unfold vec_size; destruct Hn as [-> | ->]; reflexivity).
  destruct (fresh_message_of_pairs src Hwf Hr Hn) as [Hback Hpb].
  fold pb in Hback, Hpb.
  split; [|now rewrite Hback].
  destruct Hpb as (P1 & P2 & P3 & P4 & P5 & P6).
  destruct (UpdateFromPB_fields pb m) as (U1 & U2 & U3 & U4 & U5 & U6).
  destruct (metadata_merge_fields m src) as (M1 & M2 & M3 & M4 & M5 & M6).
  cbv zeta in *.
  unfold AUHMetadataPB.has_top_level_request_id, AUHMetadataPB.has_top_level_node_id,
    AUHMetadataPB.has_query_id, AUHMetadataPB.has_current_request_id,
    AUHMetadataPB.has_client_node_host, AUHMetadataPB.top_level_request_id,
    AUHMetadataPB.top_level_node_id, AUHMetadataPB.query_id,
    AUHMetadataPB.current_request_id, AUHMetadataPB.client_node_host,
    AUHMetadataPB.client_node_port in *.
  rewrite P1 in U1. rewrite P2 in U2. rewrite P3 in U3. rewrite P4 in U4.
  rewrite P5 in U5. rewrite P6 in U6.
  destruct Hwf as (_ & _ & _ & _ & _ & Hport).
  apply metadata_eq.
  - rewrite U1, M1. now destruct (AUHMetadata.top_level_request_id src).
  - rewrite U2, M2. now destruct (AUHMetadata.top_level_node_id src).
  - rewrite U3, M3. now destruct (AUHMetadata.query_id src =? 0).
  - rewrite U4, M4. now destruct (AUHMetadata.current_request_id src =? 0).
  - rewrite U5, M5. now destruct (AUHMetadata.client_node_host src =? 0).
  - rewrite U6, M6.
    destruct (Z.eqb_spec (AUHMetadata.client_node_port src) 0) as [E|E];
      [reflexivity|].
    cbn. rewrite (proj2 (Z.eqb_neq _ _) E).
    unfold Int.to_uint16, Int.wrap_unsigned. now apply Z.mod_small.
Qed.

Lemma wire_merge_is_merge_witness :
  let src := AUHMetadata.Build [] [3; 4] 5 0 0 8080 in
  let m := AUHMetadata.Build [1; 2] [] 0 6 7 80 in
  (AUHMetadata.wf src /\
   pair_or_empty (AUHMetadata.top_level_request_id src) /\
   pair_or_empty (AUHMetadata.top_level_node_id src)) /\
  AUHMetadata.UpdateFromPB (AUHMetadata.ToPB src AUHMetadataPB.empty) m
    = AUHMetadata.UpdateFrom src m.
Proof.
  intros src m.
  assert (Hwf : AUHMetadata.wf src).
  { unfold AUHMetadata.wf, Int.in_unsigned, Int.in_signed. cbn.
    repeat split; try (repeat constructor; lia); lia. }
  assert (Hr : pair_or_empty (AUHMetadata.top_level_request_id src))
    by (left; reflexivity).
  assert (Hn : pair_or_empty (AUHMetadata.top_level_node_id src))
    by (right; reflexivity).
  split; [split; [exact Hwf | split; [exact Hr | exact Hn]]|].
  exact (proj1 (wire_merge_is_merge src m Hwf Hr Hn)).
Defined.

(** X4. A message without content merges to nothing.  [UpdateFromPB]
    with a message in which no field is present returns the value it was
    given, and [UpdateMetadataFromPB] with a message whose fields all read
    zero or empty, present or not, leaves the whole store as it was,
    whether the calling thread has a current container or not. *)
Theorem merge_of_nothing :
  (forall (pb : AUHMetadataPB.t) (m : AUHMetadata.t),
     AUHMetadataPB.has_top_level_request_id pb = false ->
     AUHMetadataPB.has_top_level_node_id pb = false ->
     AUHMetadataPB.has_query_id pb = false ->
     AUHMetadataPB.has_current_request_id pb = false ->
     AUHMetadataPB.has_client_node_host pb = false ->
     AUHMetadataPB.has_client_node_port pb = false ->
     AUHMetadata.UpdateFromPB pb m = m) /\
  (forall (self : thread) (pb : AUHMetadataPB.t) (w : World),
     sound w (threadlocal_wait_state_ w !! self) ->
     AUHMetadataPB.top_level_request_id pb = [] ->
     AUHMetadataPB.top_level_node_id pb = [] ->
     AUHMetadataPB.query_id pb = 0 ->
     AUHMetadataPB.current_request_id pb = 0 ->
     AUHMetadataPB.client_node_host pb = 0 ->
     AUHMetadataPB.client_node_port pb = 0 ->
     UpdateMetadataFromPB self pb w = Done tt w).
Proof.
  split.
  - intros pb m H1 H2 H3 H4 H5 H6.
    destruct (UpdateFromPB_fields pb m) as (U1 & U2 & U3 & U4 & U5 & U6).
    cbv zeta in *.
    assert (Hport : AUHMetadataPB.client_node_port pb = 0).
    { unfold AUHMetadataPB.has_client_node_port, AUHMetadataPB.client_node_port in *.
      now destruct (AUHMetadataPB.client_node_port_ pb). }
    rewrite H1 in U1. rewrite H2 in U2. rewrite H3 in U3. rewrite H4 in U4.
    rewrite H5 in U5. rewrite Hport in U6.
    now apply metadata_eq.
  - intros self pb w Hs H1 H2 H3 H4 H5 H6.
    unfold UpdateMetadataFromPB, bind. rewrite current_of_slot.
    destruct (threadlocal_wait_state_ w !! self) as [a|]; [|reflexivity].
    destruct Hs as [o Ho]. cbn [nonnull]. unfold call. rewrite Ho.
    assert (Hzero : AUHMetadata.FromPB pb = AUHMetadata.zero).
    { unfold AUHMetadata.FromPB. now rewrite H1, H2, H3, H4, H5, H6. }
    rewrite Hzero.
    assert (Hsame : WaitStateInfo.UpdateMetadata AUHMetadata.zero o = Done tt o)
      by now destruct o.
    rewrite Hsame, (insert_id _ _ _ Ho). now rewrite with_heap_same.
Qed.

Lemma merge_of_nothing_witness :
  let o := WaitStateInfo.ctor (AUHMetadata.Build [1; 2] [3; 4] 5 6 7 8) in
  let w := BuildWorld {[ 1%positive := o ]} {[ 0%nat := 1%positive ]} in
  let pb := AUHMetadataPB.set_query_id 0 AUHMetadataPB.empty in
  sound w (threadlocal_wait_state_ w !! 0%nat) /\
  AUHMetadata.UpdateFromPB AUHMetadataPB.empty (WaitStateInfo.metadata_ o)
    = WaitStateInfo.metadata_ o /\
  UpdateMetadataFromPB 0%nat pb w = Done tt w.
Proof.
  intros o w pb.
  assert (Hs : sound w (threadlocal_wait_state_ w !! 0%nat))
    by (exists o; reflexivity).
  destruct merge_of_nothing as [Hpb Hcur].
  split; [exact Hs|]. split.
  - apply Hpb; reflexivity.
  - apply (Hcur 0%nat pb w Hs); reflexivity.
Defined.

(** X5. [AUHMetadata::ToPB] adds to the id fields of the message it is
    given and never clears them: for a value whose request id is a pair,
    the message's request ids afterwards are those it had before followed
    by the pair, so filling one message twice leaves four ids in it, which
    [FromPB] reads back as a vector that is no pair any more. *)
Theorem ToPB_appends_ids :
  forall (m : AUHMetadata.t) (pb : AUHMetadataPB.t),
    length (AUHMetadata.top_level_request_id m) = 2%nat ->
    length (AUHMetadata.top_level_node_id m) = 2%nat ->
    AUHMetadataPB.top_level_request_id_ (AUHMetadata.ToPB m pb) =
      AUHMetadataPB.top_level_request_id_ pb ++ AUHMetadata.top_level_request_id m /\
    AUHMetadataPB.top_level_node_id_ (AUHMetadata.ToPB m pb) =
      AUHMetadataPB.top_level_node_id_ pb ++ AUHMetadata.top_level_node_id m /\
    AUHMetadata.top_level_request_id
      (AUHMetadata.FromPB (AUHMetadata.ToPB m (AUHMetadata.ToPB m AUHMetadataPB.empty)))
      = AUHMetadata.top_level_request_id m ++ AUHMetadata.top_level_request_id m /\
    ~ pair_or_empty
        (AUHMetadata.top_level_request_id
           (AUHMetadata.FromPB
              (AUHMetadata.ToPB m (AUHMetadata.ToPB m AUHMetadataPB.empty)))).
Proof.
  intros m pb Hr Hn.
  assert (Hadd : forall pb',
    AUHMetadataPB.top_level_request_id_ (AUHMetadata.ToPB m pb') =
      AUHMetadataPB.top_level_request_id_ pb' ++ AUHMetadata.top_level_request_id m /\
    AUHMetadataPB.top_level_node_id_ (AUHMetadata.ToPB m pb') =
      AUHMetadataPB.top_level_node_id_ pb' ++ AUHMetadata.top_level_node_id m).
  { intros pb'. destruct (ToPB_fields m pb') as (H1 & H2 & _). cbv zeta in *.
    rewrite H1, H2.
    assert (Ht : forall v : list Z, length v = 2%nat ->
              (Int.to_int (vec_size v) =? 2) = true).
    { intros v E. unfold vec_size. now rewrite E. }
    rewrite (Ht _ Hr), (Ht _ Hn), (pair_elements _ Hr), (pair_elements _ Hn).
    split; reflexivity. }
  destruct (Hadd pb) as [A1 A2].
  split; [exact A1|]. split; [exact A2|].
  assert (Htwice : AUHMetadata.top_level_request_id
      (AUHMetadata.FromPB (AUHMetadata.ToPB m (AUHMetadata.ToPB m AUHMetadataPB.empty)))
      = AUHMetadata.top_level_request_id m ++ AUHMetadata.top_level_request_id m).
  { cbn [AUHMetadata.FromPB AUHMetadata.top_level_request_id].
    unfold AUHMetadataPB.top_level_request_id.
    rewrite (proj1 (Hadd _)), (proj1 (Hadd _)). reflexivity. }
  split; [exact Htwice|].
  rewrite Htwice. unfold pair_or_empty. rewrite length_app, Hr. lia.
Qed.

Lemma ToPB_appends_ids_witness :
  let m := AUHMetadata.Build [1; 2] [3; 4] 0 0 0 0 in
  (length (AUHMetadata.top_level_request_id m) = 2%nat /\
   length (AUHMetadata.top_level_node_id m) = 2%nat) /\
  AUHMetadata.top_level_request_id
    (AUHMetadata.FromPB (AUHMetadata.ToPB m (AUHMetadata.ToPB m AUHMetadataPB.empty)))
  = [1; 2; 1; 2].
Proof.
  intros m.
  assert (Hr : length (AUHMetadata.top_level_request_id m) = 2%nat) by reflexivity.
  assert (Hn : length (AUHMetadata.top_level_node_id m) = 2%nat) by reflexivity.
  split; [split; [exact Hr | exact Hn]|].
  exact (proj1 (proj2 (proj2 (ToPB_appends_ids m AUHMetadataPB.empty Hr Hn)))).
Defined.

(** ** The status of a container *)

Lemma insert_is_alter (h : gmap positive WaitStateInfo.t) (a : loc)
    (o : WaitStateInfo.t) (f : WaitStateInfo.t -> WaitStateInfo.t) :
  h !! a = Some o -> <[a := f o]> h = alter f a h.
Proof.
  intros H. apply map_eq. intros b.
  rewrite lookup_insert, lookup_alter.
  case_decide; [subst; now rewrite H | reflexivity].
Qed.

Lemma call_set_code (w : World) (a : loc) (o : WaitStateInfo.t) (c : WaitStateCode) :
  heap w !! a = Some o ->
  call (Some a) (WaitStateInfo.set_state c) w = Done tt (set_code a c w).
Proof.
  intros H. rewrite (call_set_state _ _ _ _ H). unfold set_code.
  now rewrite (insert_is_alter _ _ _ (WaitStateInfo.with_code c) H).
Qed.

Lemma set_code_lookup (w : World) (a : loc) (o : WaitStateInfo.t) (c : WaitStateCode) :
  heap w !! a = Some o ->
  heap (set_code a c w) !! a = Some (WaitStateInfo.with_code c o).
Proof. intros H. cbn. now rewrite lookup_alter_eq, H. Qed.

Lemma set_code_other (w : World) (a b : loc) (c : WaitStateCode) :
  a <> b -> heap (set_code a c w) !! b = heap w !! b.
Proof. intros H. cbn. now rewrite lookup_alter_ne. Qed.

Lemma set_code_set_code (w : World) (a : loc) (c c' : WaitStateCode) :
  set_code a c (set_code a c' w) = set_code a c w.
Proof.
  unfold set_code, with_heap. cbn. f_equal.
  rewrite alter_alter_eq. now apply alter_ext.
Qed.

Lemma set_code_same (w : World) (a : loc) (o : WaitStateInfo.t) :
  heap w !! a = Some o -> set_code a (WaitStateInfo.code_ o) w = w.
Proof.
  intros H. unfold set_code. rewrite alter_id; [apply with_heap_same|].
  intros x Hx. rewrite H in Hx. injection Hx as <-. now destruct o.
Qed.

Lemma same_but_codes_refl (w : World) : same_but_codes w w.
Proof. split; [reflexivity | intros b; split; reflexivity]. Qed.

Lemma same_but_codes_trans (w1 w2 w3 : World) :
  same_but_codes w1 w2 -> same_but_codes w2 w3 -> same_but_codes w1 w3.
Proof.
  intros [T1 H1] [T2 H2]. split; [congruence|].
  intros b. destruct (H1 b), (H2 b). split; congruence.
Qed.

Lemma same_but_codes_set_code (w : World) (a : loc) (c : WaitStateCode) :
  same_but_codes w (set_code a c w).
Proof.
  split; [reflexivity|]. intros b. cbn. rewrite lookup_alter.
  case_decide; [subst|split; reflexivity].
  destruct (heap w !! b); split; reflexivity.
Qed.

(** X6. A status set through one pointer is what [get_state] returns
    through every pointer to the same container, until it is set again;
    setting it changes no metadata, no aux info, no other container's code
    and no thread's current pointer, and of two [set_state] in a row the
    second one stands. *)
Theorem set_state_is_visible_and_local :
  forall (w : World) (a : loc) (o : WaitStateInfo.t) (c c' : WaitStateCode),
    heap w !! a = Some o ->
    let w' := set_code a c w in
    call (Some a) (WaitStateInfo.set_state c) w = Done tt w' /\
    call (Some a) WaitStateInfo.get_state w' = Done c w' /\
    same_but_codes w w' /\
    (forall b : loc, b <> a -> heap w' !! b = heap w !! b) /\
    (do_ call (Some a) (WaitStateInfo.set_state c');
     call (Some a) (WaitStateInfo.set_state c)) w = Done tt w'.
Proof.
  intros w a o c c' H w'.
  split; [exact (call_set_code w a o c H)|].
  split; [exact (call_get_state w' a _ (set_code_lookup w a o c H))|].
  split; [apply same_but_codes_set_code|].
  split; [intros b Hb; now apply set_code_other|].
  unfold bind. rewrite (call_set_code _ _ _ _ H).
  rewrite (call_set_code _ _ _ _ (set_code_lookup _ _ _ c' H)).
  now rewrite set_code_set_code.
Qed.

Lemma set_state_is_visible_and_local_witness :
  let w := BuildWorld {[ 1%positive := WaitStateInfo.default_ctor;
                         2%positive := WaitStateInfo.default_ctor ]}
                      {[ 0%nat := 1%positive; 1%nat := 1%positive ]} in
  heap w !! 1%positive = Some WaitStateInfo.default_ctor /\
  call (Some 1%positive) WaitStateInfo.get_state (set_code 1%positive 7 w)
    = Done 7 (set_code 1%positive 7 w).
Proof.
  intros w.
  assert (H : heap w !! 1%positive = Some WaitStateInfo.default_ctor) by reflexivity.
  split; [exact H|].
  exact (proj1 (proj2 (set_state_is_visible_and_local w 1%positive _ 7 0 H))).
Defined.

(** ** Status guards in scopes *)

(** The reset of a constructed guard, in terms of [set_code]. *)
Lemma reset_live (g : ScopedWaitStatus.t) (w : World) (a : loc)
    (o : WaitStateInfo.t) (prev : WaitStateCode) :
  ScopedWaitStatus.wait_state_ g = Some a ->
  ScopedWaitStatus.prev_state_ g = Some prev ->
  heap w !! a = Some o ->
  ScopedWaitStatus.ResetToPrevStatus g w =
    Done tt (if WaitStateInfo.code_ o =? ScopedWaitStatus.state_ g
             then set_code a prev w else w).
Proof.
  destruct g as [p s q]. cbn. intros -> -> H.
  unfold ScopedWaitStatus.ResetToPrevStatus.
  cbn [ScopedWaitStatus.wait_state_ ScopedWaitStatus.state_ nonnull].
  unfold bind. rewrite (call_get_state _ _ _ H).
  destruct (WaitStateInfo.code_ o =? s); [|reflexivity].
  cbn [ScopedWaitStatus.read_prev_state ScopedWaitStatus.prev_state_ ret].
  exact (call_set_code w a o prev H).
Qed.

Lemma ctor_live (w : World) (a : loc) (o : WaitStateInfo.t) (c : WaitStateCode) :
  heap w !! a = Some o ->
  ScopedWaitStatus.ctor (Some a) c w =
    Done (ScopedWaitStatus.Build (Some a) c (Some (WaitStateInfo.code_ o)))
         (set_code a c w).
Proof.
  intros H. destruct (ScopedWaitStatus_ctor_live w a o c H) as [E _].
  rewrite E. unfold set_code.
  now rewrite (insert_is_alter _ _ _ (WaitStateInfo.with_code c) H).
Qed.

(** X7. [ResetToPrevStatus] is idempotent on a constructed guard: a second
    reset, and so the destructor after a manual reset, changes nothing
    more, whether the first one restored the code or not. *)
Theorem ResetToPrevStatus_idempotent :
  forall (g : ScopedWaitStatus.t) (w : World),
    constructed w g ->
    (do_ ScopedWaitStatus.ResetToPrevStatus g; ScopedWaitStatus.ResetToPrevStatus g) w
      = ScopedWaitStatus.ResetToPrevStatus g w /\
    (do_ ScopedWaitStatus.ResetToPrevStatus g; ScopedWaitStatus.dtor g) w
      = ScopedWaitStatus.ResetToPrevStatus g w.
Proof.
  intros g w [Hs Hprev].
  assert (H : (do_ ScopedWaitStatus.ResetToPrevStatus g;
               ScopedWaitStatus.ResetToPrevStatus g) w
              = ScopedWaitStatus.ResetToPrevStatus g w).
  { destruct (ScopedWaitStatus.wait_state_ g) as [a|] eqn:Ea.
    - destruct Hs as [o Ho]. destruct (Hprev eq_refl) as [prev Hp].
      unfold bind. rewrite (reset_live g w a o prev Ea Hp Ho).
      destruct (Z.eqb_spec (WaitStateInfo.code_ o) (ScopedWaitStatus.state_ g))
        as [E|E].
      + rewrite (reset_live g _ a _ prev Ea Hp (set_code_lookup _ _ _ prev Ho)).
        cbn [WaitStateInfo.with_code WaitStateInfo.code_].
        destruct (prev =? ScopedWaitStatus.state_ g); [|reflexivity].
        now rewrite set_code_set_code.
      + rewrite (reset_live g w a o prev Ea Hp Ho).
        now rewrite (proj2 (Z.eqb_neq _ _) E).
    - destruct g as [p s q]. cbn in Ea. subst p. reflexivity. }
  split; [exact H | exact H].
Qed.

Lemma ResetToPrevStatus_idempotent_witness :
  let w := BuildWorld {[ 1%positive := WaitStateInfo.with_code 5 WaitStateInfo.default_ctor ]} ∅ in
  let g := ScopedWaitStatus.Build (Some 1%positive) 5 (Some 0) in
  constructed w g /\
  (do_ ScopedWaitStatus.ResetToPrevStatus g; ScopedWaitStatus.dtor g) w
    = ScopedWaitStatus.ResetToPrevStatus g w.
Proof.
  intros w g.
  assert (Hc : constructed w g).
  { split; [eexists; reflexivity | intros _; eexists; reflexivity]. }
  split; [exact Hc|].
  exact (proj2 (ResetToPrevStatus_idempotent g w Hc)).
Defined.

(** X8. A manual reset does not disarm the guard.  When, after the reset,
    other code sets the very code the guard had set, the destructor takes
    it for its own and puts the saved code back: the store ends up as it
    was before the guard was constructed. *)
Theorem reset_guard_stays_armed :
  forall (w : World) (a : loc) (o : WaitStateInfo.t) (S1 : WaitStateCode),
    heap w !! a = Some o ->
    (do g <- ScopedWaitStatus.ctor (Some a) S1;
     do_ ScopedWaitStatus.ResetToPrevStatus g;
     do_ call (Some a) (WaitStateInfo.set_state S1);
     do c <- call (Some a) WaitStateInfo.get_state;
     do_ ScopedWaitStatus.dtor g;
     ret c) w = Done S1 w.
Proof.
  intros w a o S1 H. unfold bind.
  rewrite (ctor_live _ _ _ _ H).
  set (g := ScopedWaitStatus.Build (Some a) S1 (Some (WaitStateInfo.code_ o))).
  rewrite (reset_live g _ a _ (WaitStateInfo.code_ o) eq_refl eq_refl
             (set_code_lookup _ _ _ S1 H)).
  cbn [WaitStateInfo.with_code WaitStateInfo.code_ ScopedWaitStatus.state_ g].
  rewrite Z.eqb_refl, set_code_set_code, (set_code_same _ _ _ H).
  rewrite (call_set_code _ _ _ _ H).
  rewrite (call_get_state _ _ _ (set_code_lookup _ _ _ S1 H)).
  unfold ScopedWaitStatus.dtor.
  rewrite (reset_live g _ a _ (WaitStateInfo.code_ o) eq_refl eq_refl
             (set_code_lookup _ _ _ S1 H)).
  cbn [WaitStateInfo.with_code WaitStateInfo.code_ ScopedWaitStatus.state_ g].
  now rewrite Z.eqb_refl, set_code_set_code, (set_code_same _ _ _ H).
Qed.

Lemma reset_guard_stays_armed_witness :
  let w := BuildWorld {[ 1%positive := WaitStateInfo.default_ctor ]} ∅ in
  heap w !! 1%positive = Some WaitStateInfo.default_ctor /\
  (do g <- ScopedWaitStatus.ctor (Some 1%positive) 5;
   do_ ScopedWaitStatus.ResetToPrevStatus g;
   do_ call (Some 1%positive) (WaitStateInfo.set_state 5);
   do c <- call (Some 1%positive) WaitStateInfo.get_state;
   do_ ScopedWaitStatus.dtor g;
   ret c) w = Done 5 w.
Proof.
  intros w.
  assert (H : heap w !! 1%positive = Some WaitStateInfo.default_ctor) by reflexivity.
  split; [exact H|].
  exact (reset_guard_stays_armed w 1%positive _ 5 H).
Defined.

Lemma last_cons {T} (x d : T) (l : list T) : List.last (x :: l) d = List.last l x.
Proof.
  revert x d. induction l as [|y l IH]; intros x d; [reflexivity|].
  change (List.last (x :: y :: l) d) with (List.last (y :: l) d).
  now rewrite (IH y d), (IH y x).
Qed.

Lemma status_scope_outcome :
  forall {A} (body : M World A) (w w2 : World) (a : loc)
         (o o2 : WaitStateInfo.t) (c : WaitStateCode),
    heap w !! a = Some o ->
    heap w2 !! a = Some o2 ->
    let after := if WaitStateInfo.code_ o2 =? c
                 then set_code a (WaitStateInfo.code_ o) w2 else w2 in
    (forall r, body (set_code a c w) = Done r w2 ->
       SCOPED_WAIT_STATUS_FOR (Some a) c body w = Done r after) /\
    (forall f, is_exception f = true -> body (set_code a c w) = Fail f w2 ->
       SCOPED_WAIT_STATUS_FOR (Some a) c body w = Fail f after) /\
    (forall self, threadlocal_wait_state_ w !! self = Some a ->
       SCOPED_WAIT_STATUS self c body w = SCOPED_WAIT_STATUS_FOR (Some a) c body w) /\
    SCOPED_WAIT_STATUS_FOR None c body w = body w.
Proof.
  intros A body w w2 a o o2 c H H2 after.
  set (g := ScopedWaitStatus.Build (Some a) c (Some (WaitStateInfo.code_ o))).
  assert (Hd : ScopedWaitStatus.dtor g w2 = Done tt after).
  { unfold ScopedWaitStatus.dtor.
    now rewrite (reset_live g w2 a o2 (WaitStateInfo.code_ o) eq_refl eq_refl H2). }
  split; [|split; [|split]].
  - intros r Hb. unfold SCOPED_WAIT_STATUS_FOR, bind.
    rewrite (ctor_live _ _ _ _ H). fold g. unfold scope. now rewrite Hb, Hd.
  - intros f Hf Hb. unfold SCOPED_WAIT_STATUS_FOR, bind.
    rewrite (ctor_live _ _ _ _ H). fold g. unfold scope. now rewrite Hb, Hf, Hd.
  - intros self Hs. unfold SCOPED_WAIT_STATUS, bind.
    now rewrite current_of_slot, Hs.
  - unfold SCOPED_WAIT_STATUS_FOR, bind, scope. cbn.
    destruct (body w) as [r w'|f w']; [reflexivity|]. now destruct f.
Qed.

(** X9. [SCOPED_WAIT_STATUS_FOR] on a live container: when the rest of
    the block, started with the guard's code in place, ends with that code
    still in place, the container has its earlier code back after the
    block and the rest is as the block left it; when the block ends with
    another code, that code stays.  The same holds when the block is left
    by an exception, which is passed on.  With an empty pointer the macro
    adds nothing to the block. *)
Theorem SCOPED_WAIT_STATUS_FOR_restores :
  forall {A} (body : M World A) (w w2 : World) (a : loc)
         (o o2 : WaitStateInfo.t) (c : WaitStateCode),
    heap w !! a = Some o ->
    heap w2 !! a = Some o2 ->
    let after := if WaitStateInfo.code_ o2 =? c
                 then set_code a (WaitStateInfo.code_ o) w2 else w2 in
    (forall r, body (set_code a c w) = Done r w2 ->
       SCOPED_WAIT_STATUS_FOR (Some a) c body w = Done r after) /\
    (forall f, is_exception f = true -> body (set_code a c w) = Fail f w2 ->
       SCOPED_WAIT_STATUS_FOR (Some a) c body w = Fail f after) /\
    (forall self, threadlocal_wait_state_ w !! self = Some a ->
       SCOPED_WAIT_STATUS self c body w = SCOPED_WAIT_STATUS_FOR (Some a) c body w) /\
    SCOPED_WAIT_STATUS_FOR None c body w = body w.
Proof. exact (@status_scope_outcome). Qed.

(** A block that throws: the address parser on a port that is no number,
    under a status guard. *)
Lemma SCOPED_WAIT_STATUS_FOR_restores_witness :
  let w := BuildWorld {[ 1%positive := WaitStateInfo.default_ctor ]} ∅ in
  let body := call (Some 1%positive)
                (WaitStateInfo.set_client_node_ip (fun _ => 0) (fun z => z) "h:x") in
  heap w !! 1%positive = Some WaitStateInfo.default_ctor /\
  is_exception invalid_argument = true /\
  SCOPED_WAIT_STATUS_FOR (Some 1%positive) 5 body w = Fail invalid_argument w.
Proof.
  intros w body.
  assert (H : heap w !! 1%positive = Some WaitStateInfo.default_ctor) by reflexivity.
  assert (He : is_exception invalid_argument = true) by reflexivity.
  split; [exact H|]. split; [exact He|].
  assert (H2 : heap (set_code 1%positive 5 w) !! 1%positive
               = Some (WaitStateInfo.with_code 5 WaitStateInfo.default_ctor))
    by reflexivity.
  destruct (SCOPED_WAIT_STATUS_FOR_restores body w (set_code 1%positive 5 w)
              1%positive _ _ 5 H H2) as (_ & Hthrow & _).
  rewrite (Hthrow invalid_argument He); [|reflexivity].
  cbn [WaitStateInfo.with_code WaitStateInfo.code_]. rewrite Z.eqb_refl.
  now rewrite set_code_set_code, (set_code_same _ _ _ H).
Defined.

(** X10. Status guards nest: with one guard per enclosing block on the
    same live container, whatever the codes and however deep, a body that
    finds the innermost code in place and leaves it in place is followed
    by the destructors putting the code the container had before the
    outermost block back; a body that does nothing leaves the store
    exactly as it was. *)
Theorem nested_status_guards_unwind :
  forall {A} (states : list WaitStateCode) (body : M World A) (w w2 : World)
         (a : loc) (o o2 : WaitStateInfo.t) (r : A),
    heap w !! a = Some o ->
    body (set_code a (List.last states (WaitStateInfo.code_ o)) w) = Done r w2 ->
    heap w2 !! a = Some o2 ->
    WaitStateInfo.code_ o2 = List.last states (WaitStateInfo.code_ o) ->
    nested_status (Some a) states body w
      = Done r (set_code a (WaitStateInfo.code_ o) w2) /\
    nested_status (Some a) states (ret tt) w = Done tt w.
Proof.
  intros A states body.
  assert (Hgen : forall (B : Type) (bd : M World B) (w w2 : World) (a : loc)
                        (o o2 : WaitStateInfo.t) (r : B),
    heap w !! a = Some o ->
    bd (set_code a (List.last states (WaitStateInfo.code_ o)) w) = Done r w2 ->
    heap w2 !! a = Some o2 ->
    WaitStateInfo.code_ o2 = List.last states (WaitStateInfo.code_ o) ->
    nested_status (Some a) states bd w
      = Done r (set_code a (WaitStateInfo.code_ o) w2)).
  { intros B bd. induction states as [|c cs IH]; intros w w2 a o o2 r H Hb H2 Hc.
    - cbn in *. rewrite (set_code_same _ _ _ H) in Hb. rewrite Hb.
      rewrite <- Hc. now rewrite (set_code_same _ _ _ H2).
    - rewrite last_cons in Hb, Hc.
      cbn [nested_status].
      assert (H1 : heap (set_code a c w) !! a = Some (WaitStateInfo.with_code c o))
        by now apply set_code_lookup.
      assert (Hin : nested_status (Some a) cs bd (set_code a c w)
                    = Done r (set_code a c w2)).
      { apply (IH (set_code a c w) w2 a (WaitStateInfo.with_code c o) o2 r H1);
          cbn [WaitStateInfo.with_code WaitStateInfo.code_];
          [now rewrite set_code_set_code | exact H2 | exact Hc]. }
      assert (H2' : heap (set_code a c w2) !! a = Some (WaitStateInfo.with_code c o2))
        by now apply set_code_lookup.
      destruct (status_scope_outcome (nested_status (Some a) cs bd)
                  w (set_code a c w2) a o _ c H H2') as [Hret _].
      rewrite (Hret r Hin).
      cbn [WaitStateInfo.with_code WaitStateInfo.code_].
      now rewrite Z.eqb_refl, set_code_set_code. }
  intros w w2 a o o2 r H Hb H2 Hc.
  split; [now apply (Hgen A body w w2 a o o2 r)|].
  assert (Hl : heap (set_code a (List.last states (WaitStateInfo.code_ o)) w) !! a
               = Some (WaitStateInfo.with_code
                         (List.last states (WaitStateInfo.code_ o)) o))
    by now apply set_code_lookup.
  rewrite (Hgen unit (ret tt) w _ a o _ tt H eq_refl Hl eq_refl).
  now rewrite set_code_set_code, (set_code_same _ _ _ H).
Qed.

Lemma nested_status_guards_unwind_witness :
  let w := BuildWorld {[ 1%positive := WaitStateInfo.default_ctor ]} ∅ in
  let body := call (Some 1%positive) WaitStateInfo.get_state in
  heap w !! 1%positive = Some WaitStateInfo.default_ctor /\
  nested_status (Some 1%positive) [1; 2; 3] body w = Done 3 w.
Proof.
  intros w body.
  assert (H : heap w !! 1%positive = Some WaitStateInfo.default_ctor) by reflexivity.
  split; [exact H|].
  assert (H2 : heap (set_code 1%positive 3 w) !! 1%positive
               = Some (WaitStateInfo.with_code 3 WaitStateInfo.default_ctor))
    by reflexivity.
  destruct (nested_status_guards_unwind [1; 2; 3] body w (set_code 1%positive 3 w)
              1%positive _ _ 3 H eq_refl H2 eq_refl) as [Hn _].
  rewrite Hn.
  now rewrite set_code_set_code, (set_code_same _ _ _ H).
Defined.

(** ** Adoption guards in scopes *)

Lemma set_slot_lookup (self : thread) (p : WaitStateInfoPtr) (w : World) :
  threadlocal_wait_state_ (set_slot self p w) !! self = p.
Proof. cbn. apply lookup_partial_alter_eq. Qed.

Lemma set_slot_other (self t : thread) (p : WaitStateInfoPtr) (w : World) :
  self <> t ->
  threadlocal_wait_state_ (set_slot self p w) !! t = threadlocal_wait_state_ w !! t.
Proof. intros H. cbn. now apply lookup_partial_alter_ne. Qed.

Lemma set_slot_set_slot (self : thread) (p q : WaitStateInfoPtr) (w : World) :
  set_slot self p (set_slot self q w) = set_slot self p w.
Proof.
  unfold set_slot, with_threadlocal. cbn. f_equal.
  apply map_eq. intros t. rewrite !lookup_partial_alter.
  now case_decide.
Qed.

Lemma set_slot_same (self : thread) (w : World) :
  set_slot self (threadlocal_wait_state_ w !! self) w = w.
Proof.
  unfold set_slot. rewrite partial_alter_self. now destruct w.
Qed.

Lemma adopt_scope_outcome :
  forall {A} (self : thread) (p : WaitStateInfoPtr) (body : M World A)
         (w w2 : World),
    let after := set_slot self (threadlocal_wait_state_ w !! self) w2 in
    (forall r, body (set_slot self p w) = Done r w2 ->
       SCOPED_ADOPT_WAIT_STATE self p body w = Done r after) /\
    (forall f, is_exception f = true -> body (set_slot self p w) = Fail f w2 ->
       SCOPED_ADOPT_WAIT_STATE self p body w = Fail f after) /\
    CurrentWaitState self (set_slot self p w) = Done p (set_slot self p w) /\
    CurrentWaitState self after = Done (threadlocal_wait_state_ w !! self) after /\
    heap after = heap w2.
Proof.
  intros A self p body w w2 after.
  split; [|split; [|split; [|split]]].
  - intros r Hb. unfold SCOPED_ADOPT_WAIT_STATE, bind. cbn.
    fold (set_slot self p w). unfold scope. now rewrite Hb.
  - intros f Hf Hb. unfold SCOPED_ADOPT_WAIT_STATE, bind. cbn.
    fold (set_slot self p w). unfold scope. now rewrite Hb, Hf.
  - rewrite current_of_slot. now rewrite set_slot_lookup.
  - rewrite current_of_slot. subst after. now rewrite set_slot_lookup.
  - reflexivity.
Qed.

(** X11. [SCOPED_ADOPT_WAIT_STATE] installs the pointer for the rest of
    the block and puts the thread's earlier pointer back when the block is
    left, by its end or by an exception, whatever the block did to the
    slot; containers are as the block left them. *)
Theorem SCOPED_ADOPT_WAIT_STATE_restores :
  forall {A} (self : thread) (p : WaitStateInfoPtr) (body : M World A)
         (w w2 : World),
    let after := set_slot self (threadlocal_wait_state_ w !! self) w2 in
    (forall r, body (set_slot self p w) = Done r w2 ->
       SCOPED_ADOPT_WAIT_STATE self p body w = Done r after) /\
    (forall f, is_exception f = true -> body (set_slot self p w) = Fail f w2 ->
       SCOPED_ADOPT_WAIT_STATE self p body w = Fail f after) /\
    CurrentWaitState self (set_slot self p w) = Done p (set_slot self p w) /\
    CurrentWaitState self after = Done (threadlocal_wait_state_ w !! self) after /\
    heap after = heap w2.
Proof. exact (@adopt_scope_outcome). Qed.

(** A block that installs yet another pointer and then throws. *)
Lemma SCOPED_ADOPT_WAIT_STATE_restores_witness :
  let w := BuildWorld {[ 1%positive := WaitStateInfo.default_ctor ]} ∅ in
  let body :=
    do_ SetCurrentWaitState 0%nat None;
    call (Some 1%positive)
      (WaitStateInfo.set_client_node_ip (fun _ => 0) (fun z => z) "h:x") in
  is_exception invalid_argument = true /\
  exists w', SCOPED_ADOPT_WAIT_STATE 0%nat (Some 1%positive) body w
               = Fail invalid_argument w' /\
             CurrentWaitState 0%nat w' = Done None w'.
Proof.
  intros w body.
  assert (He : is_exception invalid_argument = true) by reflexivity.
  split; [exact He|].
  destruct (body (set_slot 0%nat (Some 1%positive) w)) as [r w2|f w2] eqn:Hb;
    [discriminate Hb|].
  assert (Hf : f = invalid_argument) by (vm_compute in Hb; congruence).
  subst f.
  destruct (SCOPED_ADOPT_WAIT_STATE_restores 0%nat (Some 1%positive) body w w2)
    as (_ & Hthrow & _ & Hcur & _).
  eexists. split; [exact (Hthrow invalid_argument He Hb) | exact Hcur].
Defined.

(** X12. Adoption guards nest: with one guard per enclosing block on one
    thread, whatever the pointers and however deep, the body runs with the
    innermost pointer current, and after the outermost block the thread's
    pointer is the one it had before, whatever the body did to the slot; a
    body that does nothing leaves the store exactly as it was. *)
Theorem nested_adoption_guards_unwind :
  forall {A} (self : thread) (p : WaitStateInfoPtr) (ptrs : list WaitStateInfoPtr)
         (body : M World A) (w w2 : World) (r : A),
    body (set_slot self (List.last ptrs p) w) = Done r w2 ->
    nested_adopt self (p :: ptrs) body w
      = Done r (set_slot self (threadlocal_wait_state_ w !! self) w2) /\
    nested_adopt self (p :: ptrs) (ret tt) w = Done tt w.
Proof.
  intros A self p ptrs body.
  assert (Hgen : forall (B : Type) (bd : M World B) (p : WaitStateInfoPtr)
                        (w w2 : World) (r : B),
    bd (set_slot self (List.last ptrs p) w) = Done r w2 ->
    nested_adopt self (p :: ptrs) bd w
      = Done r (set_slot self (threadlocal_wait_state_ w !! self) w2)).
  { intros B bd. induction ptrs as [|q qs IH]; intros p0 w w2 r Hb.
    - cbn [List.last] in Hb. cbn [nested_adopt].
      now apply (adopt_scope_outcome self p0 bd w w2).
    - rewrite last_cons in Hb.
      change (nested_adopt self (p0 :: q :: qs) bd)
        with (SCOPED_ADOPT_WAIT_STATE self p0 (nested_adopt self (q :: qs) bd)).
      assert (Hin : nested_adopt self (q :: qs) bd (set_slot self p0 w)
                    = Done r (set_slot self p0 w2)).
      { rewrite (IH q (set_slot self p0 w) w2 r).
        - now rewrite set_slot_lookup.
        - now rewrite set_slot_set_slot. }
      destruct (adopt_scope_outcome self p0
                  (nested_adopt self (q :: qs) bd) w (set_slot self p0 w2))
        as [Hret _].
      rewrite (Hret r Hin). now rewrite set_slot_set_slot. }
  intros w w2 r Hb. split; [now apply Hgen|].
  rewrite (Hgen unit (ret tt) p w _ tt eq_refl).
  now rewrite set_slot_set_slot, set_slot_same.
Qed.

Lemma nested_adoption_guards_unwind_witness :
  let w := BuildWorld {[ 1%positive := WaitStateInfo.default_ctor;
                         2%positive := WaitStateInfo.default_ctor ]}
                      {[ 0%nat := 2%positive ]} in
  let body := do p <- CurrentWaitState 0%nat;
              do_ SetCurrentWaitState 0%nat None; ret p in
  body (set_slot 0%nat (List.last [None; Some 1%positive] (Some 2%positive)) w)
    = Done (Some 1%positive) (set_slot 0%nat None w) /\
  nested_adopt 0%nat [Some 2%positive; None; Some 1%positive] body w
    = Done (Some 1%positive) w.
Proof.
  intros w body.
  assert (Hb : body (set_slot 0%nat (List.last [None; Some 1%positive]
                                       (Some 2%positive)) w)
               = Done (Some 1%positive) (set_slot 0%nat None w)).
  { cbn [List.last].
    rewrite <- (set_slot_set_slot 0%nat None (Some 1%positive) w).
    unfold body, bind. rewrite current_of_slot, set_slot_lookup. reflexivity. }
  split; [exact Hb|].
  rewrite (proj1 (nested_adoption_guards_unwind 0%nat (Some 2%positive)
                    [None; Some 1%positive] body w _ _ Hb)).
  now rewrite set_slot_set_slot, set_slot_same.
Defined.

(** ** What the operations leave alone *)

Create HintDb frame.

Lemma leaves_slot_ret {A} (t : thread) (a : A) : leaves_slot t (ret a).
Proof. intros w. reflexivity. Qed.

Lemma leaves_slot_throw {A} (t : thread) (f : failure) :
  leaves_slot t (@throw World A f).
Proof. intros w. reflexivity. Qed.

Lemma leaves_slot_bind {A B} (t : thread) (m : M World A) (k : A -> M World B) :
  leaves_slot t m -> (forall a, leaves_slot t (k a)) -> leaves_slot t (bind m k).
Proof.
  intros Hm Hk w. unfold bind. specialize (Hm w).
  destruct (m w) as [a s|f s]; cbn [final] in *; [|exact Hm].
  now rewrite (Hk a s).
Qed.

Lemma leaves_slot_if {A} (t : thread) (b : bool) (m1 m2 : M World A) :
  leaves_slot t m1 -> leaves_slot t m2 -> leaves_slot t (if b then m1 else m2).
Proof. now destruct b. Qed.

Lemma leaves_slot_call {A} (t : thread) (p : WaitStateInfoPtr)
    (f : M WaitStateInfo.t A) :
  leaves_slot t (call p f).
Proof.
  intros w. unfold call. destruct p as [a|]; [|reflexivity].
  destruct (heap w !! a) as [o|]; [|reflexivity].
  now destruct (f o).
Qed.

Lemma leaves_slot_CurrentWaitState (t self : thread) :
  leaves_slot t (CurrentWaitState self).
Proof. intros w. reflexivity. Qed.

Lemma leaves_slot_SetCurrentWaitState (t self : thread) (p : WaitStateInfoPtr) :
  t <> self -> leaves_slot t (SetCurrentWaitState self p).
Proof. intros H w. cbn. now apply lookup_partial_alter_ne. Qed.

Lemma leaves_slot_read_prev_state (t : thread) (g : ScopedWaitStatus.t) :
  leaves_slot t (ScopedWaitStatus.read_prev_state g).
Proof.
  unfold ScopedWaitStatus.read_prev_state.
  destruct (ScopedWaitStatus.prev_state_ g);
    [apply leaves_slot_ret | apply leaves_slot_throw].
Qed.

#[local] Hint Resolve leaves_slot_ret leaves_slot_throw leaves_slot_bind
  leaves_slot_if leaves_slot_call leaves_slot_CurrentWaitState
  leaves_slot_SetCurrentWaitState leaves_slot_read_prev_state : frame.

(** X13. The current pointer is per thread: no operation run on one
    thread, returning or failing, changes the slot of another thread. *)
Theorem other_threads_slots_untouched :
  forall (inet_addr : string -> Z) (ntohl : Z -> Z) (NDEBUG : bool)
         (code_ToString : WaitStateCode -> string)
         (self t : thread) (op : operation) (w : World),
    t <> self ->
    threadlocal_wait_state_
      (final (run inet_addr ntohl NDEBUG code_ToString self op w)) !! t
    = threadlocal_wait_state_ w !! t.
Proof.
  intros inet_addr ntohl NDEBUG code_ToString self t op w Hne.
  revert w. change (leaves_slot t (run inet_addr ntohl NDEBUG code_ToString self op)).
  destruct op; cbn [run];
    unfold void, UpdateMetadataFromPB, SET_WAIT_STATUS, SET_WAIT_STATUS_TO,
      ScopedWaitState.ctor, ScopedWaitState.dtor,
      ScopedWaitStatus.ctor, ScopedWaitStatus.ctor_current,
      ScopedWaitStatus.dtor, ScopedWaitStatus.ResetToPrevStatus;
    cbn zeta; auto 10 with frame.
Qed.

Lemma other_threads_slots_untouched_witness :
  let w := BuildWorld {[ 1%positive := WaitStateInfo.default_ctor ]}
                      {[ 1%nat := 1%positive ]} in
  1%nat <> 0%nat /\
  threadlocal_wait_state_
    (final (run (fun _ => 0) (fun z => z) true (fun _ => EmptyString) 0%nat
                (op_ScopedWaitState_ctor None) w)) !! 1%nat
  = Some 1%positive.
Proof.
  intros w.
  assert (Hne : 1%nat <> 0%nat) by discriminate.
  split; [exact Hne|].
  rewrite (other_threads_slots_untouched _ _ _ _ 0%nat 1%nat
             (op_ScopedWaitState_ctor None) w Hne).
  reflexivity.
Defined.

Lemma only_codes_ret {A} (a : A) : only_codes (ret a).
Proof. intros w. apply same_but_codes_refl. Qed.

Lemma only_codes_throw {A} (f : failure) : only_codes (@throw World A f).
Proof. intros w. apply same_but_codes_refl. Qed.

Lemma only_codes_bind {A B} (m : M World A) (k : A -> M World B) :
  only_codes m -> (forall a, only_codes (k a)) -> only_codes (bind m k).
Proof.
  intros Hm Hk w. unfold bind. specialize (Hm w).
  destruct (m w) as [a s|f s]; cbn [final] in *; [|exact Hm].
  exact (same_but_codes_trans _ _ _ Hm (Hk a s)).
Qed.

Lemma only_codes_if {A} (b : bool) (m1 m2 : M World A) :
  only_codes m1 -> only_codes m2 -> only_codes (if b then m1 else m2).
Proof. now destruct b. Qed.

Lemma only_codes_CurrentWaitState (self : thread) : only_codes (CurrentWaitState self).
Proof. intros w. apply same_but_codes_refl. Qed.

Lemma only_codes_get_state (p : WaitStateInfoPtr) :
  only_codes (call p WaitStateInfo.get_state).
Proof.
  intros w. unfold call. destruct p as [a|]; [|apply same_but_codes_refl].
  destruct (heap w !! a) as [o|] eqn:E; [|apply same_but_codes_refl].
  cbn. rewrite (insert_id _ _ _ E), with_heap_same. apply same_but_codes_refl.
Qed.

Lemma only_codes_set_state (p : WaitStateInfoPtr) (c : WaitStateCode) :
  only_codes (call p (WaitStateInfo.set_state c)).
Proof.
  intros w. destruct p as [a|]; [|apply same_but_codes_refl].
  destruct (heap w !! a) as [o|] eqn:E.
  - rewrite (call_set_code _ _ _ _ E). apply same_but_codes_set_code.
  - unfold call. rewrite E. apply same_but_codes_refl.
Qed.

Lemma only_codes_read_prev_state (g : ScopedWaitStatus.t) :
  only_codes (ScopedWaitStatus.read_prev_state g).
Proof.
  unfold ScopedWaitStatus.read_prev_state.
  destruct (ScopedWaitStatus.prev_state_ g);
    [apply only_codes_ret | apply only_codes_throw].
Qed.

#[local] Hint Resolve only_codes_ret only_codes_throw only_codes_bind only_codes_if
  only_codes_CurrentWaitState only_codes_get_state only_codes_set_state
  only_codes_read_prev_state : frame.



(** ** The address parser on well-formed endpoints *)

Lemma is_digit_cases (d : Z) :
  is_digit d ->
  d = 0 \/ d = 1 \/ d = 2 \/ d = 3 \/ d = 4 \/ d = 5 \/ d = 6 \/ d = 7 \/ d = 8 \/ d = 9.
Proof. unfold is_digit. lia. Qed.

Ltac each_digit H :=
  destruct (is_digit_cases _ H)
    as [-> | [-> | [-> | [-> | [-> | [-> | [-> | [-> | [-> | ->]]]]]]]]].

Lemma digit_of_digit_char (d : Z) : is_digit d -> Str.digit (digit_char d) = Some d.
Proof. intros H. each_digit H; reflexivity. Qed.

Lemma digits_of_digits_text (ds : list Z) :
  Forall is_digit ds ->
  forall (seen : bool) (acc : Z),
    seen = true \/ ds <> [] ->
    Str.digits (digits_text ds) seen acc
      = Some (fold_left (fun acc d => acc * 10 + d) ds acc).
Proof.
  induction 1 as [|d ds Hd Hds IH]; intros seen acc Hs.
  - destruct Hs as [-> | Hs]; [reflexivity | contradiction].
  - cbn [digits_text Str.digits fold_left].
    rewrite (digit_of_digit_char d Hd). apply IH. now left.
Qed.

Lemma strtol10_of_digits_text (ds : list Z) :
  Forall is_digit ds -> ds <> [] ->
  Str.strtol10 (digits_text ds) = Some (digits_value ds).
Proof.
  intros Hds Hne. destruct ds as [|d ds]; [contradiction|].
  assert (Hd : is_digit d) by now inversion Hds.
  pose proof (digits_of_digits_text (d :: ds) Hds false 0 (or_intror Hne)) as Hp.
  unfold Str.strtol10, digits_value. rewrite <- Hp.
  cbn [digits_text]. each_digit Hd; reflexivity.
Qed.

Lemma digits_value_nonneg (ds : list Z) : Forall is_digit ds -> 0 <= digits_value ds.
Proof.
  unfold digits_value.
  assert (H : forall acc, Forall is_digit ds -> 0 <= acc ->
            0 <= fold_left (fun acc d => acc * 10 + d) ds acc).
  { induction ds as [|d ds IH]; intros acc Hds Hacc; [exact Hacc|].
    inversion Hds as [|? ? Hd Hds']; subst. cbn. apply IH; [exact Hds'|].
    unfold is_digit in Hd. lia. }
  intros Hds. now apply H.
Qed.

Lemma append_nil (s : string) : String.append EmptyString s = s.
Proof. reflexivity. Qed.

Lemma append_cons (a : ascii) (h s : string) :
  String.append (String a h) s = String a (String.append h s).
Proof. reflexivity. Qed.

Lemma find_from_app (c : ascii) (h rest : string) (i : Z) :
  0 <= i -> i + Str.size h < Str.npos ->
  Str.find_from c h i = Str.npos ->
  Str.find_from c (String.append h (String c rest)) i = i + Str.size h.
Proof.
  revert i. induction h as [|a h IH]; intros i Hi Hs Hf.
  - rewrite append_nil. cbn [Str.find_from]. rewrite Ascii.eqb_refl.
    unfold Str.size. cbn [String.length]. lia.
  - rewrite append_cons. unfold Str.size in *.
    cbn [Str.find_from String.length] in *.
    destruct (Ascii.eqb a c); [lia|].
    rewrite IH by lia. lia.
Qed.

Lemma substring_prefix (h s : string) :
  String.substring 0 (String.length h) (String.append h s) = h.
Proof.
  induction h as [|a h IH].
  - rewrite append_nil. now destruct s.
  - rewrite append_cons. cbn [String.length String.substring]. now rewrite IH.
Qed.

Lemma substring_suffix (h s : string) (n m : nat) :
  String.substring (String.length h + n) m (String.append h s)
    = String.substring n m s.
Proof.
  induction h as [|a h IH].
  - now rewrite append_nil.
  - rewrite append_cons. cbn [String.length Nat.add String.substring]. exact IH.
Qed.

Lemma length_append (h s : string) :
  String.length (String.append h s) = (String.length h + String.length s)%nat.
Proof.
  induction h as [|a h IH].
  - now rewrite append_nil.
  - rewrite append_cons. cbn [String.length Nat.add]. now rewrite IH.
Qed.

Lemma texts_of_endpoint (h rest : string) :
  Str.find ":" h = Str.npos ->
  Str.size (String.append h (String ":" rest)) < Str.npos ->
  host_text (String.append h (String ":" rest)) = h /\
  port_text (String.append h (String ":" rest)) = rest.
Proof.
  intros Hh Hsize.
  assert (Hlen : Str.size (String.append h (String ":" rest))
                 = Str.size h + 1 + Str.size rest).
  { unfold Str.size. rewrite length_append. cbn. lia. }
  assert (Hnn : 0 <= Str.size h /\ 0 <= Str.size rest) by (unfold Str.size; lia).
  assert (Hfind : Str.find ":" (String.append h (String ":" rest)) = Str.size h).
  { unfold Str.find. rewrite find_from_app; [lia | lia | lia | exact Hh]. }
  unfold host_text, port_text. rewrite Hfind.
  destruct (Z.eqb_spec (Str.size h) Str.npos) as [E|_]; [lia|].
  split.
  - unfold Str.size. rewrite Nat2Z.id. apply substring_prefix.
  - replace (Z.to_nat (Str.size h + 1)) with (String.length h + 1)%nat
      by (unfold Str.size; lia).
    rewrite substring_suffix, length_append. cbn [String.length].
    replace (String.length h + S (String.length rest) - (String.length h + 1))%nat
      with (String.length rest) by lia.
    cbn. apply substring_all.
Qed.

(** X15. On a well-formed endpoint the parser does what it is for: with a
    host text without colon, then a colon, then a decimal numeral that
    fits an [int], [set_client_node_ip] returns, stores
    [ntohl(inet_addr(host))] as the host and the number, reduced modulo
    [2^16], as the port, which is the number itself for every port up to
    65535, and changes no other field. *)
Theorem set_client_node_ip_parses_host_and_port :
  forall (inet_addr : string -> Z) (ntohl : Z -> Z) (h : string) (ds : list Z)
         (m : AUHMetadata.t),
    Str.find ":" h = Str.npos ->
    Forall is_digit ds -> ds <> [] ->
    digits_value ds < 2 ^ 31 ->
    Str.size (String.append h (String ":" (digits_text ds))) < Str.npos ->
    let endpoint := String.append h (String ":" (digits_text ds)) in
    let host := ntohl (inet_addr (Str.c_str h)) in
    AUHMetadata.set_client_node_ip inet_addr ntohl endpoint m =
      Done tt (AUHMetadata.with_client_node_port (digits_value ds mod 2 ^ 16)
                 (AUHMetadata.with_client_node_host host m)) /\
    (digits_value ds < 2 ^ 16 ->
     AUHMetadata.set_client_node_ip inet_addr ntohl endpoint m =
       Done tt (AUHMetadata.with_client_node_port (digits_value ds)
                  (AUHMetadata.with_client_node_host host m))).
Proof.
  intros inet_addr ntohl h ds m Hh Hds Hne Hint Hsize endpoint host.
  destruct (texts_of_endpoint h (digits_text ds) Hh Hsize) as [Hhost Hport].
  pose proof (digits_value_nonneg ds Hds) as Hnn.
  assert (Hrun : AUHMetadata.set_client_node_ip inet_addr ntohl endpoint m =
      Done tt (AUHMetadata.with_client_node_port (digits_value ds mod 2 ^ 16)
                 (AUHMetadata.with_client_node_host host m))).
  { subst endpoint host.
    rewrite (set_client_node_ip_outcome _ _ _ _ Hsize). cbv zeta.
    rewrite Hhost, Hport. unfold Str.stoi.
    rewrite (strtol10_of_digits_text ds Hds Hne).
    destruct (Z.leb_spec (- 2 ^ 31) (digits_value ds)) as [_|?]; [|lia].
    destruct (Z.ltb_spec (digits_value ds) (2 ^ 31)) as [_|?]; [|lia].
    reflexivity. }
  split; [exact Hrun|].
  intros Hsmall. rewrite Hrun. now rewrite Z.mod_small by lia.
Qed.

Lemma set_client_node_ip_parses_host_and_port_witness :
  let h := "10.0.0.1"%string in
  let ds := [5; 4; 3; 3] in
  (Str.find ":" h = Str.npos /\ Forall is_digit ds /\ ds <> [] /\
   digits_value ds < 2 ^ 31 /\
   Str.size (String.append h (String ":" (digits_text ds))) < Str.npos /\
   digits_value ds < 2 ^ 16) /\
  AUHMetadata.set_client_node_ip (fun _ => 167772161) (fun z => z)
    "10.0.0.1:5433" AUHMetadata.zero
  = Done tt (AUHMetadata.Build [] [] 0 0 167772161 5433).
Proof.
  intros h ds.
  assert (Hh : Str.find ":" h = Str.npos) by reflexivity.
  assert (Hds : Forall is_digit ds)
    by (repeat constructor; unfold is_digit; lia).
  assert (Hne : ds <> []) by discriminate.
  assert (Hint : digits_value ds < 2 ^ 31) by reflexivity.
  assert (Hsize : Str.size (String.append h (String ":" (digits_text ds))) < Str.npos)
    by reflexivity.
  assert (Hsmall : digits_value ds < 2 ^ 16) by reflexivity.
  split; [repeat (split; [assumption|]); assumption|].
  exact (proj2 (set_client_node_ip_parses_host_and_port (fun _ => 167772161)
                  (fun z => z) h ds AUHMetadata.zero Hh Hds Hne Hint Hsize) Hsmall).
Defined.

(** ** Type ranges *)

Lemma to_uint16_range (z : Z) : Int.in_unsigned 16 (Int.to_uint16 z).
Proof.
  unfold Int.in_unsigned, Int.to_uint16, Int.wrap_unsigned.
  apply Z.mod_pos_bound. reflexivity.
Qed.

Lemma to_uint64_range (z : Z) : Int.in_unsigned 64 (Int.to_uint64 z).
Proof.
  unfold Int.in_unsigned, Int.to_uint64, Int.wrap_unsigned.
  apply Z.mod_pos_bound. reflexivity.
Qed.

Lemma vec_at_range (v : list Z) (i : nat) :
  Forall (Int.in_unsigned 64) v -> Int.in_unsigned 64 (vec_at v i).
Proof.
  intros H. unfold vec_at. destruct (v !! i) as [x|] eqn:E; cbn.
  - exact (proj1 (Forall_lookup _ v) H i x E).
  - unfold Int.in_unsigned. split; [lia | reflexivity].
Qed.

(** X16. The fields stay in the ranges of their C++ types.  [UpdateFrom],
    [FromPB] and [UpdateFromPB] (whose casts bring the 32-bit port of the
    message into 16 bits), [ToPB], [set_top_level_request_id] on a 64-bit
    argument (the square wraps) and [set_client_node_ip], returning or
    throwing, with [ntohl(inet_addr(..))] a 32-bit value, all yield
    in-range values from in-range inputs. *)
Theorem type_ranges_are_kept :
  (forall A B : AUHMetadata.t,
     AUHMetadata.wf A -> AUHMetadata.wf B ->
     AUHMetadata.wf (AUHMetadata.UpdateFrom B A)) /\
  (forall pb : AUHMetadataPB.t,
     wf_message pb -> AUHMetadata.wf (AUHMetadata.FromPB pb)) /\
  (forall (pb : AUHMetadataPB.t) (m : AUHMetadata.t),
     wf_message pb -> AUHMetadata.wf m ->
     AUHMetadata.wf (AUHMetadata.UpdateFromPB pb m)) /\
  (forall (m : AUHMetadata.t) (pb : AUHMetadataPB.t),
     AUHMetadata.wf m -> wf_message pb ->
     wf_message (AUHMetadata.ToPB m pb)) /\
  (forall (x : Z) (o : WaitStateInfo.t),
     Int.in_unsigned 64 x -> AUHMetadata.wf (WaitStateInfo.metadata_ o) ->
     AUHMetadata.wf
       (WaitStateInfo.metadata_
          (final (WaitStateInfo.set_top_level_request_id x o)))) /\
  (forall (inet_addr : string -> Z) (ntohl : Z -> Z) (endpoint : string)
          (m : AUHMetadata.t),
     (forall s, Int.in_unsigned 32 (ntohl (inet_addr s))) ->
     Str.size endpoint < Str.npos ->
     AUHMetadata.wf m ->
     AUHMetadata.wf (final (AUHMetadata.set_client_node_ip inet_addr ntohl endpoint m))).
Proof.
  repeat apply conj.
  - intros A B (A1 & A2 & A3 & A4 & A5 & A6) (B1 & B2 & B3 & B4 & B5 & B6).
    destruct (metadata_merge_fields A B) as (H1 & H2 & H3 & H4 & H5 & H6).
    cbv zeta in *. unfold AUHMetadata.wf.
    rewrite H1, H2, H3, H4, H5, H6.
    split; [now destruct (vec_empty (AUHMetadata.top_level_request_id B))|].
    split; [now destruct (vec_empty (AUHMetadata.top_level_node_id B))|].
    split; [now destruct (AUHMetadata.query_id B =? 0)|].
    split; [now destruct (AUHMetadata.current_request_id B =? 0)|].
    split; [now destruct (AUHMetadata.client_node_host B =? 0)|].
    now destruct (AUHMetadata.client_node_port B =? 0).
  - intros pb (P1 & P2 & P3 & P4 & P5 & P6).
    unfold AUHMetadata.wf, AUHMetadata.FromPB. cbn.
    exact (conj P1 (conj P2 (conj P3 (conj P4 (conj P5 (to_uint16_range _)))))).
  - intros pb m (P1 & P2 & P3 & P4 & P5 & P6) (M1 & M2 & M3 & M4 & M5 & M6).
    destruct (UpdateFromPB_fields pb m) as (H1 & H2 & H3 & H4 & H5 & H6).
    cbv zeta in *. unfold AUHMetadata.wf.
    rewrite H1, H2, H3, H4, H5, H6.
    split; [now destruct (AUHMetadataPB.has_top_level_request_id pb)|].
    split; [now destruct (AUHMetadataPB.has_top_level_node_id pb)|].
    split; [now destruct (AUHMetadataPB.has_query_id pb)|].
    split; [now destruct (AUHMetadataPB.has_current_request_id pb)|].
    split; [now destruct (AUHMetadataPB.has_client_node_host pb)|].
    destruct (AUHMetadataPB.client_node_port pb =? 0);
      [exact M6 | apply to_uint16_range].
  - intros m pb (M1 & M2 & M3 & M4 & M5 & M6) (P1 & P2 & P3 & P4 & P5 & P6).
    destruct (ToPB_fields m pb) as (H1 & H2 & H3 & H4 & H5 & H6).
    cbv zeta in *.
    unfold wf_message, AUHMetadataPB.top_level_request_id,
      AUHMetadataPB.top_level_node_id, AUHMetadataPB.query_id,
      AUHMetadataPB.current_request_id, AUHMetadataPB.client_node_host,
      AUHMetadataPB.client_node_port in *.
    rewrite H1, H2, H3, H4, H5, H6.
    assert (Hwiden : forall z, Int.in_unsigned 16 z -> Int.in_unsigned 32 z).
    { unfold Int.in_unsigned. intros z [? ?]. split; [assumption|].
      change (2 ^ 16) with 65536 in *. change (2 ^ 32) with 4294967296. lia. }
    split; [|split; [|split; [|split; [|split]]]].
    + destruct (Int.to_int (vec_size (AUHMetadata.top_level_request_id m)) =? 2);
        [|exact P1].
      apply Forall_app. split; [exact P1|].
      repeat constructor; now apply vec_at_range.
    + destruct (Int.to_int (vec_size (AUHMetadata.top_level_node_id m)) =? 2);
        [|exact P2].
      apply Forall_app. split; [exact P2|].
      repeat constructor; now apply vec_at_range.
    + now destruct (AUHMetadata.query_id m =? 0).
    + now destruct (AUHMetadata.current_request_id m =? 0).
    + now destruct (AUHMetadata.client_node_host m =? 0).
    + destruct (AUHMetadata.client_node_port m =? 0); [exact P6|].
      cbn. now apply Hwiden.
  - intros x o Hx (M1 & M2 & M3 & M4 & M5 & M6). cbn.
    unfold AUHMetadata.wf. cbn.
    refine (conj _ (conj M2 (conj M3 (conj M4 (conj M5 M6))))).
    constructor; [exact Hx|].
    constructor; [apply to_uint64_range | constructor].
  - intros inet_addr ntohl endpoint m Hhost Hsize (M1 & M2 & M3 & M4 & M5 & M6).
    rewrite (set_client_node_ip_outcome _ _ _ _ Hsize). cbv zeta.
    assert (Hzero : Int.in_unsigned 16 0)
      by (unfold Int.in_unsigned; split; [lia | reflexivity]).
    destruct (Str.stoi (port_text endpoint)) as [e|n]; cbn [final];
      unfold AUHMetadata.wf; cbn.
    + exact (conj M1 (conj M2 (conj M3 (conj M4 (conj (Hhost _) Hzero))))).
    + exact (conj M1 (conj M2 (conj M3 (conj M4
               (conj (Hhost _) (to_uint16_range _)))))).
Qed.

Lemma type_ranges_are_kept_witness :
  let A := AUHMetadata.Build [1; 2] [] 5 0 7 80 in
  let B := AUHMetadata.Build [] [3; 4] (-1) 6 0 65535 in
  (AUHMetadata.wf A /\ AUHMetadata.wf B /\ Int.in_unsigned 64 18446744073709551615) /\
  AUHMetadata.wf (AUHMetadata.UpdateFrom B A) /\
  AUHMetadata.wf
    (WaitStateInfo.metadata_
       (final (WaitStateInfo.set_top_level_request_id 18446744073709551615
                 (WaitStateInfo.ctor A)))).
Proof.
  intros A B.
  assert (HA : AUHMetadata.wf A).
  { unfold AUHMetadata.wf, Int.in_unsigned, Int.in_signed. cbn.
    repeat split; try (repeat constructor; lia); lia. }
  assert (HB : AUHMetadata.wf B).
  { unfold AUHMetadata.wf, Int.in_unsigned, Int.in_signed. cbn.
    repeat split; try (repeat constructor; lia); lia. }
  assert (Hx : Int.in_unsigned 64 18446744073709551615)
    by (unfold Int.in_unsigned; lia).
  destruct type_ranges_are_kept as (Hmerge & _ & _ & _ & Hsquare & _).
  split; [split; [exact HA | split; [exact HB | exact Hx]]|].
  split; [exact (Hmerge A B HA HB) | exact (Hsquare _ (WaitStateInfo.ctor A) Hx HA)].
Defined.

(** ** Set fields *)

(** X17. A merge never unsets a field: after [A.UpdateFrom(B)] a field is
    set exactly when it was set in [A] or is set in [B], for the metadata
    and for the aux info, so that [UpdateMetadata] and [UpdateAuxInfo] can
    only add to what a container holds.  The setters of single fields are
    not bound by this: [set_query_id(0)], [set_current_request_id(0)] and
    [set_top_level_node_id] with an empty vector unset their field. *)
Theorem merge_never_unsets :
  (forall A B : AUHMetadata.t,
     let R := AUHMetadata.UpdateFrom B A in
     vec_empty (AUHMetadata.top_level_request_id R) =
       vec_empty (AUHMetadata.top_level_request_id A) &&
       vec_empty (AUHMetadata.top_level_request_id B) /\
     vec_empty (AUHMetadata.top_level_node_id R) =
       vec_empty (AUHMetadata.top_level_node_id A) &&
       vec_empty (AUHMetadata.top_level_node_id B) /\
     (AUHMetadata.query_id R =? 0) =
       (AUHMetadata.query_id A =? 0) && (AUHMetadata.query_id B =? 0) /\
     (AUHMetadata.current_request_id R =? 0) =
       (AUHMetadata.current_request_id A =? 0) &&
       (AUHMetadata.current_request_id B =? 0) /\
     (AUHMetadata.client_node_host R =? 0) =
       (AUHMetadata.client_node_host A =? 0) && (AUHMetadata.client_node_host B =? 0) /\
     (AUHMetadata.client_node_port R =? 0) =
       (AUHMetadata.client_node_port A =? 0) && (AUHMetadata.client_node_port B =? 0)) /\
  (forall A B : AUHAuxInfo.t,
     let R := AUHAuxInfo.UpdateFrom B A in
     str_empty (AUHAuxInfo.tablet_id R) =
       str_empty (AUHAuxInfo.tablet_id A) && str_empty (AUHAuxInfo.tablet_id B) /\
     str_empty (AUHAuxInfo.table_id R) =
       str_empty (AUHAuxInfo.table_id A) && str_empty (AUHAuxInfo.table_id B) /\
     str_empty (AUHAuxInfo.method R) =
       str_empty (AUHAuxInfo.method A) && str_empty (AUHAuxInfo.method B)) /\
  (forall (meta : AUHMetadata.t) (o : WaitStateInfo.t),
     WaitStateInfo.UpdateMetadata meta o =
       Done tt (WaitStateInfo.with_metadata
                  (AUHMetadata.UpdateFrom meta (WaitStateInfo.metadata_ o)) o)) /\
  (forall (aux : AUHAuxInfo.t) (o : WaitStateInfo.t),
     WaitStateInfo.UpdateAuxInfo aux o =
       Done tt (WaitStateInfo.with_aux_info
                  (AUHAuxInfo.UpdateFrom aux (WaitStateInfo.aux_info_ o)) o)) /\
  (forall o : WaitStateInfo.t,
     AUHMetadata.query_id
       (WaitStateInfo.metadata_ (final (WaitStateInfo.set_query_id 0 o))) = 0 /\
     AUHMetadata.current_request_id
       (WaitStateInfo.metadata_ (final (WaitStateInfo.set_current_request_id 0 o))) = 0 /\
     AUHMetadata.top_level_node_id
       (WaitStateInfo.metadata_ (final (WaitStateInfo.set_top_level_node_id [] o))) = []).
Proof.
  split; [|split; [|split; [|split]]].
  - intros A B R. subst R.
    destruct (metadata_merge_fields A B) as (-> & -> & -> & -> & -> & ->).
    assert (HZ : forall x y, ((if y =? 0 then x else y) =? 0) = (x =? 0) && (y =? 0)).
    { intros x y. destruct (Z.eqb_spec y 0) as [->|E].
      - now rewrite andb_true_r.
      - rewrite (proj2 (Z.eqb_neq _ _) E). now rewrite andb_false_r. }
    assert (HV : forall x y : list Z,
              vec_empty (if vec_empty y then x else y) = vec_empty x && vec_empty y).
    { intros x y. destruct y; cbn; [now rewrite andb_true_r | now rewrite andb_false_r]. }
    repeat split; auto.
  - intros A B R. subst R.
    destruct (aux_merge_fields A B) as (-> & -> & ->).
    assert (HS : forall x y : string,
              str_empty (if str_empty y then x else y) = str_empty x && str_empty y).
    { intros x y. destruct y; cbn; [now rewrite andb_true_r | now rewrite andb_false_r]. }
    repeat split; auto.
  - reflexivity.
  - reflexivity.
  - intros o. repeat split.
Qed.

(** ** The message of a container *)

(** X18. [WaitStateInfo::ToPB] only reads the container.  It fills the
    nested metadata and aux-info messages with the two [ToPB] above, and
    writes the status code always, for the code 0 ([Unused]) as for any
    other, unlike the zero metadata fields; the code as text is written in
    debug builds only.  So a fresh container on which a non-zero query id
    and a status were set yields a message with exactly these two among
    the metadata fields and the code. *)
Theorem WaitStateInfo_ToPB_snapshot :
  forall (NDEBUG : bool) (code_ToString : WaitStateCode -> string),
    (forall (pb : WaitStateInfoPB.t) (o : WaitStateInfo.t),
       exists pb',
         WaitStateInfo.ToPB NDEBUG code_ToString pb o = Done pb' o /\
         WaitStateInfoPB.metadata_ pb' =
           AUHMetadata.ToPB (WaitStateInfo.metadata_ o) (WaitStateInfoPB.metadata_ pb) /\
         WaitStateInfoPB.wait_status_code_ pb' = Some (WaitStateInfo.code_ o) /\
         WaitStateInfoPB.wait_status_code_as_string_ pb' =
           (if NDEBUG then WaitStateInfoPB.wait_status_code_as_string_ pb
            else Some (code_ToString (WaitStateInfo.code_ o))) /\
         WaitStateInfoPB.aux_info_ pb' =
           AUHAuxInfo.ToPB (WaitStateInfo.aux_info_ o) (WaitStateInfoPB.aux_info_ pb)) /\
    (forall (q : Z) (c : WaitStateCode),
       q <> 0 ->
       exists pb' o',
         (do_ WaitStateInfo.set_query_id q;
          do_ WaitStateInfo.set_state c;
          WaitStateInfo.ToPB NDEBUG code_ToString WaitStateInfoPB.empty)
           WaitStateInfo.default_ctor = Done pb' o' /\
         WaitStateInfoPB.wait_status_code_ pb' = Some c /\
         WaitStateInfoPB.metadata_ pb' =
           AUHMetadataPB.set_query_id q AUHMetadataPB.empty /\
         AUHMetadata.FromPB (WaitStateInfoPB.metadata_ pb') = WaitStateInfo.metadata_ o' /\
         WaitStateInfo.code_ o' = c).
Proof.
  intros NDEBUG code_ToString. split.
  - intros pb o. eexists.
    cbv beta iota zeta delta
      [WaitStateInfo.ToPB bind gets WaitStateInfo.get_state ret].
    split; [reflexivity|]. now destruct NDEBUG.
  - intros q c Hq. do 2 eexists.
    cbv beta iota zeta delta
      [WaitStateInfo.ToPB bind gets WaitStateInfo.get_state ret modify
       WaitStateInfo.set_query_id WaitStateInfo.set_state WaitStateInfo.on_metadata].
    split; [reflexivity|].
    cbn. unfold AUHMetadata.ToPB, AUHMetadata.FromPB. cbn.
    rewrite (proj2 (Z.eqb_neq q 0) Hq). cbn. now destruct NDEBUG.
Qed.

Lemma WaitStateInfo_ToPB_snapshot_witness :
  42 <> 0 /\
  exists pb' o',
    (do_ WaitStateInfo.set_query_id 42;
     do_ WaitStateInfo.set_state 7;
     WaitStateInfo.ToPB true (fun _ => EmptyString) WaitStateInfoPB.empty)
      WaitStateInfo.default_ctor = Done pb' o' /\
    WaitStateInfoPB.wait_status_code_ pb' = Some 7 /\
    WaitStateInfoPB.metadata_ pb' = AUHMetadataPB.set_query_id 42 AUHMetadataPB.empty /\
    AUHMetadata.FromPB (WaitStateInfoPB.metadata_ pb') = WaitStateInfo.metadata_ o' /\
    WaitStateInfo.code_ o' = 7.
Proof.
  assert (H : 42 <> 0) by discriminate.
  split; [exact H|].
  exact (proj2 (WaitStateInfo_ToPB_snapshot true (fun _ => EmptyString)) 42 7 H).
Defined.

(** ** What the parser lets through *)

Lemma digits_then_text (ds : list Z) (tail : string) :
  Forall is_digit ds ->
  match tail with EmptyString => True | String a _ => Str.digit a = None end ->
  forall (seen : bool) (acc : Z),
    seen = true \/ ds <> [] ->
    Str.digits (String.append (digits_text ds) tail) seen acc
      = Some (fold_left (fun acc d => acc * 10 + d) ds acc).
Proof.
  intros Hds Htail. induction Hds as [|d ds Hd Hds IH]; intros seen acc Hs.
  - destruct Hs as [-> | Hs]; [|contradiction].
    cbn [digits_text]. rewrite append_nil.
    destruct tail as [|a tail]; [reflexivity|].
    cbn [Str.digits]. now rewrite Htail.
  - cbn [digits_text]. rewrite append_cons. cbn [Str.digits fold_left].
    rewrite (digit_of_digit_char d Hd). apply IH. now left.
Qed.

(** X19. The parser is lenient after the colon.  Text that follows the
    numeral of the port, a second colon and what comes after it included,
    is ignored, and a numeral with a minus sign is accepted and stored
    modulo [2^16]: for a host text without colon and digits [ds] of a
    number that fits an [int], the endpoints [host:ds tail] and
    [host:-ds tail] both make [set_client_node_ip] return, with the port
    [ds mod 2^16] and [(-ds) mod 2^16]. *)
Theorem set_client_node_ip_is_lenient :
  forall (inet_addr : string -> Z) (ntohl : Z -> Z) (h tail : string) (ds : list Z)
         (m : AUHMetadata.t),
    Str.find ":" h = Str.npos ->
    Forall is_digit ds -> ds <> [] ->
    digits_value ds < 2 ^ 31 ->
    match tail with EmptyString => True | String a _ => Str.digit a = None end ->
    let port := String.append (digits_text ds) tail in
    Str.size (String.append h (String ":" (String "-" port))) < Str.npos ->
    let host := ntohl (inet_addr (Str.c_str h)) in
    AUHMetadata.set_client_node_ip inet_addr ntohl
      (String.append h (String ":" port)) m =
      Done tt (AUHMetadata.with_client_node_port (digits_value ds mod 2 ^ 16)
                 (AUHMetadata.with_client_node_host host m)) /\
    AUHMetadata.set_client_node_ip inet_addr ntohl
      (String.append h (String ":" (String "-" port))) m =
      Done tt (AUHMetadata.with_client_node_port ((- digits_value ds) mod 2 ^ 16)
                 (AUHMetadata.with_client_node_host host m)).
Proof.
  intros inet_addr ntohl h tail ds m Hh Hds Hne Hint Htail port Hsize host.
  pose proof (digits_value_nonneg ds Hds) as Hnn.
  assert (Hsize' : Str.size (String.append h (String ":" port)) < Str.npos).
  { unfold Str.size in *. rewrite length_append in *.
    cbn [String.length] in *. lia. }
  assert (Hdigits : Str.digits port false 0 = Some (digits_value ds))
    by (apply digits_then_text; [exact Hds | exact Htail | now right]).
  assert (Hplain : Str.strtol10 port = Some (digits_value ds)).
  { unfold Str.strtol10. rewrite <- Hdigits. subst port.
    destruct ds as [|d ds]; [contradiction|].
    assert (Hd : is_digit d) by now inversion Hds.
    cbn [digits_text]. rewrite append_cons. each_digit Hd; reflexivity. }
  assert (Hminus : Str.strtol10 (String "-" port) = Some (- digits_value ds)).
  { unfold Str.strtol10. cbn [Str.skip_spaces].
    change (Str.isspace "-") with false. cbv iota.
    now rewrite Hdigits. }
  destruct (texts_of_endpoint h port Hh Hsize') as [Hhost1 Hport1].
  destruct (texts_of_endpoint h (String "-" port) Hh Hsize) as [Hhost2 Hport2].
  split.
  - rewrite (set_client_node_ip_outcome _ _ _ _ Hsize'). cbv zeta.
    rewrite Hhost1, Hport1. unfold Str.stoi. rewrite Hplain.
    destruct (Z.leb_spec (- 2 ^ 31) (digits_value ds)) as [_|?]; [|lia].
    destruct (Z.ltb_spec (digits_value ds) (2 ^ 31)) as [_|?]; [|lia].
    reflexivity.
  - rewrite (set_client_node_ip_outcome _ _ _ _ Hsize). cbv zeta.
    rewrite Hhost2, Hport2. unfold Str.stoi. rewrite Hminus.
    destruct (Z.leb_spec (- 2 ^ 31) (- digits_value ds)) as [_|?]; [|lia].
    destruct (Z.ltb_spec (- digits_value ds) (2 ^ 31)) as [_|?]; [|lia].
    reflexivity.
Qed.

Lemma set_client_node_ip_is_lenient_witness :
  let h := "10.0.0.1"%string in
  let ds := [8; 0] in
  let tail := ":9090 and more"%string in
  (Str.find ":" h = Str.npos /\ Forall is_digit ds /\ ds <> [] /\
   digits_value ds < 2 ^ 31) /\
  AUHMetadata.set_client_node_ip (fun _ => 167772161) (fun z => z)
    "10.0.0.1:80:9090 and more" AUHMetadata.zero
  = Done tt (AUHMetadata.Build [] [] 0 0 167772161 80) /\
  AUHMetadata.set_client_node_ip (fun _ => 167772161) (fun z => z)
    "10.0.0.1:-80:9090 and more" AUHMetadata.zero
  = Done tt (AUHMetadata.Build [] [] 0 0 167772161 65456).
Proof.
  intros h ds tail.
  assert (Hh : Str.find ":" h = Str.npos) by reflexivity.
  assert (Hds : Forall is_digit ds)
    by (repeat constructor; unfold is_digit; lia).
  assert (Hne : ds <> []) by discriminate.
  assert (Hint : digits_value ds < 2 ^ 31) by reflexivity.
  assert (Htail : match tail with
                  | EmptyString => True
                  | String a _ => Str.digit a = None
                  end) by reflexivity.
  assert (Hsize : Str.size (String.append h (String ":" (String "-"
                     (String.append (digits_text ds) tail)))) < Str.npos)
    by reflexivity.
  split; [split; [exact Hh | split; [exact Hds | split; [exact Hne | exact Hint]]]|].
  exact (set_client_node_ip_is_lenient (fun _ => 167772161) (fun z => z)
           h tail ds AUHMetadata.zero Hh Hds Hne Hint Htail Hsize).
Defined.

(** ** The guards together *)

(** X20. The two guards as they are used together: a block that adopts a
    live container as the thread's current one and, inside, sets a status
    with [SCOPED_WAIT_STATUS] sees that status on the current container;
    after the two blocks the store is exactly as before, the thread's
    earlier pointer and the container's earlier code included. *)
Theorem adopt_then_status_unwinds :
  forall (self : thread) (w : World) (a : loc) (o : WaitStateInfo.t)
         (c : WaitStateCode),
    heap w !! a = Some o ->
    SCOPED_ADOPT_WAIT_STATE self (Some a)
      (SCOPED_WAIT_STATUS self c
         (do p <- CurrentWaitState self; call p WaitStateInfo.get_state)) w
    = Done c w.
Proof.
  intros self w a o c H.
  set (body := do p <- CurrentWaitState self; call p WaitStateInfo.get_state).
  set (w1 := set_slot self (Some a) w).
  assert (H1 : heap w1 !! a = Some o) by exact H.
  assert (Hslot : threadlocal_wait_state_ w1 !! self = Some a)
    by apply set_slot_lookup.
  assert (H2 : heap (set_code a c w1) !! a = Some (WaitStateInfo.with_code c o))
    by now apply set_code_lookup.
  assert (Hbody : body (set_code a c w1) = Done c (set_code a c w1)).
  { unfold body, bind. rewrite current_of_slot.
    change (threadlocal_wait_state_ (set_code a c w1))
      with (threadlocal_wait_state_ w1).
    rewrite Hslot. exact (call_get_state _ _ _ H2). }
  destruct (status_scope_outcome body w1 (set_code a c w1) a o _ c H1 H2)
    as (Hret & _ & Hcur & _).
  assert (Hinner : SCOPED_WAIT_STATUS self c body w1 = Done c w1).
  { rewrite (Hcur self Hslot), (Hret c Hbody).
    cbn [WaitStateInfo.with_code WaitStateInfo.code_].
    now rewrite Z.eqb_refl, set_code_set_code, (set_code_same _ _ _ H1). }
  destruct (adopt_scope_outcome self (Some a)
              (SCOPED_WAIT_STATUS self c body) w w1) as (Hadopt & _).
  rewrite (Hadopt c Hinner). subst w1.
  now rewrite set_slot_set_slot, set_slot_same.
Qed.

Lemma adopt_then_status_unwinds_witness :
  let w := BuildWorld {[ 1%positive := WaitStateInfo.default_ctor ]} ∅ in
  heap w !! 1%positive = Some WaitStateInfo.default_ctor /\
  SCOPED_ADOPT_WAIT_STATE 0%nat (Some 1%positive)
    (SCOPED_WAIT_STATUS 0%nat 7
       (do p <- CurrentWaitState 0%nat; call p WaitStateInfo.get_state)) w
  = Done 7 w.
Proof.
  intros w.
  assert (H : heap w !! 1%positive = Some WaitStateInfo.default_ctor) by reflexivity.
  split; [exact H|].
  exact (adopt_then_status_unwinds 0%nat w 1%positive _ 7 H).
Defined.
